(** * stoahub-esim: provisioning orchestration and webhook reconciliation

  A shallow embedding of the order -> provision workflow
  (services/provisioningService.js, services/esimService.js,
  services/woocommerceService.js, controllers/webhookController.js) and of
  the vendor webhook route with its handlers (routes/esim.js) behind the
  middleware of server.js, followed by the theorems that settle the
  properties stated for them.

  Asynchronous JavaScript is modelled by explicit effect passing: every
  awaited call to a collaborator (vendor API, order ledger, record store,
  timer, console, HTTP response) is an effect appended to a chronological
  history, and a thrown exception is an abrupt completion. *)

From Stdlib Require Import ZArith String List Ascii Bool Lia DecimalString.
Import ListNotations.

Local Open Scope list_scope.
Local Open Scope string_scope.

(** ** JavaScript values and completions *)

Module Js.

(** An exception object: its constructor name and its [message]. *)
Inductive Error : Type :=
| mkError (name message : string).

Definition message (e : Error) : string :=
  match e with mkError _ m => m end.

(** [new Error(msg)] *)
Definition Error_ (msg : string) : Error := mkError "Error" msg.

(** The TypeError V8 raises for [undefined.prop]. *)
Definition TypeError_undefined (prop : string) : Error :=
  mkError "TypeError"
    ("Cannot read properties of undefined (reading '" ++ prop ++ "')").

(** How a statement or an awaited promise completes. *)
Inductive Completion (A : Type) : Type :=
| Return (a : A)
| Throw (e : Error).
Arguments Return {A} a.
Arguments Throw {A} e.

(** [String(n)] for an integral number. *)
Definition number_toString (z : Z) : string :=
  NilZero.string_of_int (Z.to_int z).

(** A string-or-undefined value inside a template literal. *)
Definition interpolate (v : option string) : string :=
  match v with
  | Some s => s
  | None => "undefined"
  end.

(** An integer-or-undefined value inside a template literal. *)
Definition interpolate_number (v : option Z) : string :=
  match v with
  | Some z => number_toString z
  | None => "undefined"
  end.

(** Truthiness of a string-or-undefined value: [undefined] and the empty
    string are falsy. *)
Definition truthy (v : option string) : bool :=
  match v with
  | Some s => negb (s =? EmptyString)
  | None => false
  end.

(** [a || b] on string-or-undefined operands with a string default. *)
Definition or_else (v : option string) (d : string) : string :=
  match v with
  | Some s => if s =? EmptyString then d else s
  | None => d
  end.

(** Lower-casing of the letters A-Z, on the UTF-8 bytes of the string. For
    the test [includes('esim')] this agrees with
    [String.prototype.toLowerCase]: the one character outside A-Z whose
    lower case holds a letter of "esim" is U+0130, which becomes an i
    followed by a combining dot, so it never completes an occurrence. *)
Definition lower_ascii (c : ascii) : ascii :=
  let n := nat_of_ascii c in
  if ((65 <=? n) && (n <=? 90))%nat then ascii_of_nat (n + 32) else c.

Fixpoint toLowerCase (s : string) : string :=
  match s with
  | EmptyString => EmptyString
  | String c s' => String (lower_ascii c) (toLowerCase s')
  end.

(** [s.includes(needle)] *)
Fixpoint includes (needle s : string) : bool :=
  if prefix needle s then true
  else match s with
       | EmptyString => false
       | String _ s' => includes needle s'
       end.

Definition nl : string := String (ascii_of_nat 10) EmptyString.

End Js.

Import Js(Completion, Return, Throw).

(** ** The provisioning orchestrator

    services/provisioningService.js with the two adapters it calls,
    services/esimService.js (vendor) and services/woocommerceService.js
    (order ledger). *)

Module Provisioning.

(** Return value of [esimService.getAccountBalance]. *)
Record AccountBalance : Type := {
  balance : Z;
  currency : option string
}.

(** Return value of [esimService.orderProfile]. *)
Record EsimOrder : Type := {
  orderNumber : option string
}.

(** Return value of [esimService.getEsimByOrderNumber]; a field the vendor
    left out is [undefined]. *)
Record EsimDetails : Type := {
  iccid : option string;
  qrCode : option string;
  activationLink : option string;
  status : option string
}.

(** The observable calls of one run, in the order they are issued. *)
Inductive Effect : Type :=
| ConsoleLog (line : string)
| ConsoleError (label message : string)
| GetAccountBalance
| OrderProfile (transactionId sku : string) (quantity : Z)
| GetEsimByOrderNumber (orderNumber : option string)
| Sleep (ms : Z)
| CreateOrderNote (orderId : option Z) (note : string) (customerNote : bool)
| UpdateOrderMeta (orderId : option Z) (meta_data : list (string * option string))
| ResJson (status : Z) (received : bool).

Definition is_balance_query (e : Effect) : bool :=
  match e with GetAccountBalance => true | _ => false end.

Definition is_order_placement (e : Effect) : bool :=
  match e with OrderProfile _ _ _ => true | _ => false end.

Definition is_poll (e : Effect) : bool :=
  match e with GetEsimByOrderNumber _ => true | _ => false end.

Definition is_sleep (e : Effect) : bool :=
  match e with Sleep _ => true | _ => false end.

Definition is_note (e : Effect) : bool :=
  match e with CreateOrderNote _ _ _ => true | _ => false end.

Definition is_meta_update (e : Effect) : bool :=
  match e with UpdateOrderMeta _ _ => true | _ => false end.

(** Number of calls of one kind in a history. *)
Definition calls (kind : Effect -> bool) (h : list Effect) : nat :=
  length (filter kind h).

(** The remote collaborators. Each answer may depend on how many calls of
    the same kind were issued before (its first argument) and on the
    arguments of the call; a [Throw] is a rejected promise (transport error
    or non-success status, see [ESIMClient.request]). *)
Record Collaborators : Type := {
  vendor_balance : nat -> Completion AccountBalance;
  vendor_order : nat -> string -> string -> Z -> Completion EsimOrder;
  vendor_profile : nat -> option string -> Completion EsimDetails;
  ledger_note : nat -> option Js.Error;
  ledger_meta : nat -> option Js.Error
}.

(** A computation reads the history of the calls issued so far and yields
    its completion together with the calls it issued itself. *)
Definition M (A : Type) : Type :=
  list Effect -> Completion A * list Effect.

(** How a computation completes when started after history [h], and the
    calls it issues. *)
Definition outcome {A : Type} (m : M A) (h : list Effect) : Completion A :=
  fst (m h).

Definition issued {A : Type} (m : M A) (h : list Effect) : list Effect :=
  snd (m h).

Definition ret {A : Type} (a : A) : M A :=
  fun _ => (Return a, []).

Definition throw {A : Type} (e : Js.Error) : M A :=
  fun _ => (Throw e, []).

(** The rest of a computation, run after the calls [t] were issued. *)
Definition after {A : Type} (t : list Effect) (m : M A) : M A :=
  fun h => let (r, t') := m (h ++ t)%list in (r, (t ++ t')%list).

(** [m] then [k]: an abrupt completion of [m] skips [k]. *)
Definition bind {A B : Type} (m : M A) (k : A -> M B) : M B :=
  fun h =>
    match m h with
    | (Return a, t) => after t (k a) h
    | (Throw e, t) => (Throw e, t)
    end.

(** [try { m } catch (error) { handler error }] *)
Definition try_catch {A : Type} (m : M A) (handler : Js.Error -> M A) : M A :=
  fun h =>
    match m h with
    | (Return a, t) => (Return a, t)
    | (Throw e, t) => after t (handler e) h
    end.

Definition emit (e : Effect) : M unit :=
  fun _ => (Return tt, [e]).

(** A call whose completion is decided by the collaborator. *)
Definition call {A : Type} (e : Effect) (answer : list Effect -> Completion A)
  : M A :=
  fun h => (answer h, [e]).

Definition of_option (o : option Js.Error) : Completion unit :=
  match o with
  | None => Return tt
  | Some e => Throw e
  end.

Declare Scope js_scope.
Delimit Scope js_scope with js.
Notation "x <- m ;; k" := (bind m (fun x => k))
  (at level 61, m at next level, right associativity) : js_scope.
Notation "m ;; k" := (bind m (fun _ => k))
  (at level 61, right associativity) : js_scope.
Local Open Scope js_scope.

Section Services.

Variable env : Collaborators.

(** *** utils/delay.js and console *)

Definition sleep (ms : Z) : M unit := emit (Sleep ms).

Definition console_log (line : string) : M unit := emit (ConsoleLog line).

Definition console_error (label message : string) : M unit :=
  emit (ConsoleError label message).

(** *** services/esimService.js *)

Definition getAccountBalance : M AccountBalance :=
  call GetAccountBalance
    (fun h => vendor_balance env (calls is_balance_query h)).

Definition orderProfile (transactionId sku : string) (quantity : Z)
  : M EsimOrder :=
  call (OrderProfile transactionId sku quantity)
    (fun h =>
       vendor_order env (calls is_order_placement h) transactionId sku quantity).

Definition getEsimByOrderNumber (orderNumber : option string)
  : M EsimDetails :=
  call (GetEsimByOrderNumber orderNumber)
    (fun h => vendor_profile env (calls is_poll h) orderNumber).

(** *** services/woocommerceService.js *)

Definition createOrderNote (orderId : option Z) (note : string)
  (customerNote : bool) : M unit :=
  call (CreateOrderNote orderId note customerNote)
    (fun h => of_option (ledger_note env (calls is_note h))).

Definition updateOrderMeta (orderId : option Z)
  (metaData : list (string * option string)) : M unit :=
  let meta_data := map (fun kv => ("_esim_" ++ fst kv, snd kv)) metaData in
  call (UpdateOrderMeta orderId meta_data)
    (fun h => of_option (ledger_meta env (calls is_meta_update h))).

(** *** services/provisioningService.js *)

(** The body of [for (let i = 1; i <= maxRetries; i++)]; [remaining] counts
    the iterations left, [maxRetries + 1 - i]. An iteration yields [Some]
    when it executes [return result]; when the loop condition fails the
    function falls off its end and yields [undefined] ([None]). *)
Fixpoint poll_loop (remaining i maxRetries : nat) (orderNumber : option string)
  : M (option EsimDetails) :=
  match remaining with
  | O => ret None
  | S remaining' =>
      step <- try_catch
                (result <- getEsimByOrderNumber orderNumber ;;
                 if Js.truthy (iccid result) then ret (Some result)
                 else ret None)
                (fun error =>
                   if Nat.eqb i maxRetries then throw error else ret None) ;;
      match step with
      | Some result => ret (Some result)
      | None =>
          sleep (3000 * 2 ^ Z.of_nat i) ;;
          poll_loop remaining' (S i) maxRetries orderNumber
      end
  end.

Definition pollEsimStatus (orderNumber : option string) (maxRetries : nat)
  : M (option EsimDetails) :=
  poll_loop maxRetries 1 maxRetries orderNumber.

Definition formatEsimNote (esim : EsimDetails) : string :=
  Js.nl ++
  "🔰 Your eSIM is ready!" ++ Js.nl ++
  "📱 ICCID: " ++ Js.interpolate (iccid esim) ++ Js.nl ++
  "🔗 Activation: " ++ Js.interpolate (activationLink esim) ++ Js.nl ++
  "📸 QR: " ++ Js.interpolate (qrCode esim) ++ Js.nl ++
  "    ".

(** Reading a property of the value [pollEsimStatus] returned: a TypeError
    when that value is [undefined]. *)
Definition property_of {A : Type} (prop : string) (v : option A) : M A :=
  match v with
  | Some a => ret a
  | None => throw (Js.TypeError_undefined prop)
  end.

(** [orderId.toString()]. An order id is the integer the shop numbers its
    orders with, or [undefined]; an id of another type, which the source
    would take as well, is not part of this model. *)
Definition toString (orderId : option Z) : M string :=
  match orderId with
  | Some z => ret (Js.number_toString z)
  | None => throw (Js.TypeError_undefined "toString")
  end.

(** The default of the parameter [quantity = 1]. *)
Definition default_quantity (quantity : option Z) : Z :=
  match quantity with
  | Some q => q
  | None => 1%Z
  end.

Definition provisionEsim (orderId : option Z) (sku : string)
  (quantity : option Z) : M EsimDetails :=
  let quantity := default_quantity quantity in
  console_log ("🚀 Provisioning eSIM for order " ++ Js.interpolate_number orderId) ;;
  try_catch
    ((* 1. Check balance *)
     account <- getAccountBalance ;;
     (if (balance account <? 10)%Z
      then throw (Js.Error_ ("Insufficient balance: $"
                             ++ Js.number_toString (balance account)))
      else ret tt) ;;
     (* 2. Order eSIM *)
     transactionId <- toString orderId ;;
     esimOrder <- orderProfile transactionId sku quantity ;;
     (* 3. Wait for provisioning *)
     sleep 5000 ;;
     (* 4. Get eSIM details *)
     polled <- pollEsimStatus (orderNumber esimOrder) 10 ;;
     (* 5. Update WooCommerce *)
     esimDetails <- property_of "iccid" polled ;;
     createOrderNote orderId (formatEsimNote esimDetails) true ;;
     updateOrderMeta orderId
       [("iccid", iccid esimDetails);
        ("qr_code", qrCode esimDetails);
        ("activation_link", activationLink esimDetails);
        ("status", Some "provisioned")] ;;
     console_log ("✅ eSIM provisioned for order " ++ Js.interpolate_number orderId) ;;
     ret esimDetails)
    (fun error =>
       console_error "❌ Provisioning failed:" (Js.message error) ;;
       createOrderNote orderId
         ("❌ eSIM provisioning failed: " ++ Js.message error) true ;;
       throw error).

(** *** controllers/webhookController.js *)

Record LineItem : Type := {
  name : option string;
  sku : option string;
  product_id : option Z;
  quantity : option Z
}.

(** [req.body] of the order-completed notification. *)
Record OrderCompleted : Type := {
  id : option Z;
  line_items : option (list LineItem)
}.

(** [item.name?.toLowerCase().includes('esim')] *)
Definition is_esim_item (item : LineItem) : bool :=
  match name item with
  | Some n => Js.includes "esim" (Js.toLowerCase n)
  | None => false
  end.

(** [line_items?.filter(...) || []] *)
Definition esimItems (body : OrderCompleted) : list LineItem :=
  match line_items body with
  | Some items => filter is_esim_item items
  | None => []
  end.

(** [item.sku || `ESIM-${item.product_id}`] *)
Definition item_sku (item : LineItem) : string :=
  Js.or_else (sku item) ("ESIM-" ++ Js.interpolate_number (product_id item)).

(** [for (const x of xs) { await body(x) }] *)
Fixpoint for_of {A : Type} (xs : list A) (body : A -> M unit) : M unit :=
  match xs with
  | [] => ret tt
  | x :: xs' => body x ;; for_of xs' body
  end.

Definition provision_item (orderId : option Z) (item : LineItem) : M unit :=
  _ <- provisionEsim orderId (item_sku item) (quantity item) ;; ret tt.

(** The response is sent first; the asynchronous block then runs detached
    from it, and its own completion is observed by nobody. *)
Definition handleWooCommerceOrderCompleted (body : OrderCompleted) : M unit :=
  emit (ResJson 200 true) ;;
  try_catch
    (console_log ("🔔 Processing order " ++ Js.interpolate_number (id body)) ;;
     for_of (esimItems body) (provision_item (id body)))
    (fun error => console_error "❌ Webhook error:" (Js.message error)).

End Services.

(** *** Vocabulary of the statements about the orchestrator *)

(** [runs m h r t]: started after history [h], [m] completes with [r] after
    issuing the calls [t]. *)
Definition runs {A : Type} (m : M A) (h : list Effect) (r : Completion A)
  (t : list Effect) : Prop :=
  m h = (r, t).

(** [m] never issues a call of the given kind. *)
Definition silent {A : Type} (kind : Effect -> bool) (m : M A) : Prop :=
  forall h, calls kind (issued m h) = 0%nat.

(** A poll answer that does not end the loop with a result: a rejected
    promise, or a profile whose ICCID is missing or empty. *)
Definition not_ready (c : Completion EsimDetails) : Prop :=
  match c with
  | Return d => Js.truthy (iccid d) = false
  | Throw _ => True
  end.

(** A poll answer that is a profile without ICCID (no error). *)
Definition pending (c : Completion EsimDetails) : Prop :=
  exists d, c = Return d /\ Js.truthy (iccid d) = false.





(** Total time slept in a trace, in milliseconds. *)
Fixpoint slept (t : list Effect) : Z :=
  match t with
  | [] => 0
  | Sleep ms :: t' => ms + slept t'
  | _ :: t' => slept t'
  end.

(** The first console line of [provisionEsim]: one per invocation. *)
Definition start_line (orderId : option Z) : string :=
  "🚀 Provisioning eSIM for order " ++ Js.interpolate_number orderId.

Definition is_invocation (e : Effect) : bool :=
  match e with
  | ConsoleLog line => prefix "🚀 Provisioning eSIM for order " line
  | _ => false
  end.

(** The note the catch block of [provisionEsim] appends. *)
Definition failure_note (e : Js.Error) : string :=
  "❌ eSIM provisioning failed: " ++ Js.message e.

(** What the catch block of [provisionEsim] completes with: the caught
    error, unless appending the failure note itself fails. *)
Definition rethrown {A : Type} (fault : option Js.Error) (e : Js.Error)
  : Completion A :=
  match fault with
  | None => Throw e
  | Some e' => Throw e'
  end.

Definition processing_line (body : OrderCompleted) : string :=
  "🔔 Processing order " ++ Js.interpolate_number (id body).

(** After history [h] the collaborators let a run for order [z] succeed:
    the balance covers the threshold, the vendor accepts the order, the
    poll answers are not ready [k] times and then carry [details] with an
    ICCID, and the ledger accepts the note and the metadata. *)
Definition ready_at (env : Collaborators) (z : Z) (sku : string)
  (quantity : option Z) (h : list Effect) (k : nat) (details : EsimDetails)
  : Prop :=
  exists account order,
    vendor_balance env (calls is_balance_query h) = Return account /\
    (10 <= balance account)%Z /\
    vendor_order env (calls is_order_placement h) (Js.number_toString z) sku
      (default_quantity quantity) = Return order /\
    (k < 10)%nat /\
    (forall j, (j < k)%nat ->
       not_ready
         (vendor_profile env (calls is_poll h + j) (orderNumber order))) /\
    vendor_profile env (calls is_poll h + k) (orderNumber order)
      = Return details /\
    Js.truthy (iccid details) = true /\
    ledger_note env (calls is_note h) = None /\
    ledger_meta env (calls is_meta_update h) = None.

End Provisioning.

(** ** The webhook reconciler and the usage endpoint

    routes/esim.js: [router.post('/webhook')], its eight handlers and
    [router.get('/usage/:iccid')], over a model of the record store. *)

Module Reconciler.

(** The literals the source writes into [esims.status]. *)
Inductive Status : Type :=
| PENDING_ACTIVATION
| ACTIVE
| SUSPENDED
| CANCELLED
| EXPIRED
| REVOKED
| DEACTIVATED.

(** A JSON value, as stored in a [metadata] column or returned by the
    vendor's usage check. *)
#[warnings="-register-all"]
Inductive Json : Type :=
| JNull
| JBool (b : bool)
| JNumber (n : Z)
| JString (s : string)
| JArray (items : list Json)
| JObject (fields : list (string * Json)).

(** A timestamp column: [new Date()] or a text the vendor sent. *)
Inductive Timestamp : Type :=
| Date (ms : Z)
| Text (s : string).

(** A row of the [esims] table. *)
Record Esim : Type := {
  id : string;
  order_id : string;
  user_id : string;
  iccid : string;
  activation_code : string;
  qr_code : string;
  status : Status;
  activated_at : option Timestamp;
  deactivated_at : option Timestamp;
  deactivation_reason : option string;
  metadata : list (string * Json);
  updated_at : Timestamp
}.

(** The object passed to [.update(...)]: the columns it names. *)
Record EsimPatch : Type := {
  set_status : option Status;
  set_activated_at : option Timestamp;
  set_deactivated_at : option Timestamp;
  set_deactivation_reason : option string;
  set_metadata : option (list (string * Json));
  set_updated_at : option Timestamp
}.

Definition overwrite {A : Type} (new : option A) (old : A) : A :=
  match new with
  | Some a => a
  | None => old
  end.

Definition overwrite_nullable {A : Type} (new : option A) (old : option A)
  : option A :=
  match new with
  | Some a => Some a
  | None => old
  end.

(** An update replaces each named column by the value given and leaves the
    others: a JSON column such as [metadata] is replaced whole. *)
Definition apply_patch (p : EsimPatch) (e : Esim) : Esim := {|
  id := id e;
  order_id := order_id e;
  user_id := user_id e;
  iccid := iccid e;
  activation_code := activation_code e;
  qr_code := qr_code e;
  status := overwrite (set_status p) (status e);
  activated_at := overwrite_nullable (set_activated_at p) (activated_at e);
  deactivated_at := overwrite_nullable (set_deactivated_at p) (deactivated_at e);
  deactivation_reason :=
    overwrite_nullable (set_deactivation_reason p) (deactivation_reason e);
  metadata := overwrite (set_metadata p) (metadata e);
  updated_at := overwrite (set_updated_at p) (updated_at e)
|}.

(** The webhook payload of the vendor; a field left out is [undefined].
    The numeric fields are integral in this model. *)
Record WebhookData : Type := {
  event : option string;
  w_iccid : option string;
  profileId : option string;
  activationTime : option string;
  reason : option string;
  usage : option Z;
  threshold : option Z;
  remaining : option Z;
  w_balance : option Z
}.

(** What [JSON.parse] can return: [null], a value with no own [event]
    property (number, string, boolean, array), or an object. *)
Inductive WebhookJson : Type :=
| WNull
| WPrimitive (v : Json)
| WObject (data : WebhookData).

(** Rows of the insert-only tables. *)
Inductive Row : Type :=
| SystemLog (level service message : string) (log_metadata : WebhookJson)
    (created_at : Timestamp)
| ActivationLog (esim_id : option string) (action : string)
    (log_metadata : WebhookData) (created_at : Timestamp)
| UserNotification (to_user : option Json) (type title message : string)
    (note_iccid : option string) (note_usage note_threshold note_remaining : option Z)
    (created_at : Timestamp)
| SystemNotification (type title message : string)
    (log_metadata : WebhookData) (created_at : Timestamp).

(** A call to the record store. *)
Inductive Query : Type :=
| Insert (table : string)
| Update (table column value : string)
| SelectSingle (table columns column value : string).

Definition is_esims_update (q : Query) : bool :=
  match q with
  | Update table _ _ => table =? "esims"
  | _ => false
  end.

(** What the winston logger received; [StackDetail e] is [e.stack], the
    trace that V8 heads with the name and the message of [e]. *)
Inductive LogDetail : Type :=
| NoDetail
| WebhookDetail (v : WebhookJson)
| ErrorDetail (e : Js.Error)
| StackDetail (e : Js.Error)
| StoreErrorDetail (message : string)
| EventDetail (tag : option string).

Record LogEntry : Type := {
  level : string;
  text : string;
  detail : LogDetail
}.

(** The state the route runs in. [db_fault n] is the error the record store
    answers to its [n]-th call with, if any; a call that fails changes
    nothing. [clock] is what [new Date()] reads during the request. *)
Record World : Type := {
  clock : Z;
  db_fault : nat -> option string;
  esims : list Esim;
  inserted : list (string * Row);
  logger : list LogEntry;
  queries : list Query
}.

Definition rows_of (table : string) (w : World) : list Row :=
  map snd (filter (fun tr => fst tr =? table) (inserted w)).


Definition esim_activation_logs : World -> list Row :=
  rows_of "esim_activation_logs".

Definition new_Date (w : World) : Timestamp := Date (clock w).


Definition log_with (lvl txt : string) (d : LogDetail) (w : World) : World := {|
  clock := clock w;
  db_fault := db_fault w;
  esims := esims w;
  inserted := inserted w;
  logger := (logger w ++ [{| level := lvl; text := txt; detail := d |}])%list;
  queries := queries w
|}.

Definition logger_info : string -> LogDetail -> World -> World :=
  log_with "info".

Definition logger_error : string -> LogDetail -> World -> World :=
  log_with "error".

(** The error the store answers the next call with. *)
Definition next_fault (w : World) : option string :=
  db_fault w (length (queries w)).

(** [supabaseAdmin.from(table).insert([row])]; yields [error]. *)
Definition insert (table : string) (r : Row) (w : World)
  : option string * World :=
  let fault := next_fault w in
  (fault,
   {| clock := clock w;
      db_fault := db_fault w;
      esims := esims w;
      inserted :=
        match fault with
        | None => (inserted w ++ [(table, r)])%list
        | Some _ => inserted w
        end;
      logger := logger w;
      queries := (queries w ++ [Insert table])%list |}).

(** [supabaseAdmin.from('esims').update(patch).eq('iccid', value)]: every
    row whose [iccid] equals the filter text is patched; yields [error]. *)
Definition update_esims (p : EsimPatch) (value : string) (w : World)
  : option string * World :=
  let fault := next_fault w in
  (fault,
   {| clock := clock w;
      db_fault := db_fault w;
      esims :=
        match fault with
        | None =>
            map (fun e => if iccid e =? value then apply_patch p e else e)
                (esims w)
        | Some _ => esims w
        end;
      inserted := inserted w;
      logger := logger w;
      queries := (queries w ++ [Update "esims" "iccid" value])%list |}).

(** The columns of a row as JSON, for [.select(columns)]. *)
Definition column (c : string) (e : Esim) : option Json :=
  if c =? "id" then Some (JString (id e))
  else if c =? "order_id" then Some (JString (order_id e))
  else if c =? "user_id" then Some (JString (user_id e))
  else if c =? "iccid" then Some (JString (iccid e))
  else if c =? "metadata" then Some (JObject (metadata e))
  else None.

(** [.select('user_id').eq('iccid', value).single()]: [data] is the selected
    column of the row when exactly one row matches and [null] otherwise. *)
Definition select_user_id_single (value : string) (w : World)
  : option (list (string * Json)) * World :=
  let fault := next_fault w in
  let data :=
    match fault, filter (fun e => iccid e =? value) (esims w) with
    | None, [e] =>
        match column "user_id" e with
        | Some v => Some [("user_id", v)]
        | None => Some []
        end
    | _, _ => None
    end in
  (data,
   {| clock := clock w;
      db_fault := db_fault w;
      esims := esims w;
      inserted := inserted w;
      logger := logger w;
      queries := (queries w ++ [SelectSingle "esims" "user_id" "iccid" value])%list |}).

(** Property lookup on a JavaScript object. *)
Fixpoint get (k : string) (fields : list (string * Json)) : option Json :=
  match fields with
  | [] => None
  | (k', v) :: rest => if k' =? k then Some v else get k rest
  end.

(** Assignment of a property in an object literal: an existing key keeps
    its place and takes the new value. *)
Fixpoint put (k : string) (v : Json) (fields : list (string * Json))
  : list (string * Json) :=
  match fields with
  | [] => [(k, v)]
  | (k', v') :: rest =>
      if k' =? k then (k, v) :: rest else (k', v') :: put k v rest
  end.

(** [{ ...value }]: the own properties of an object, nothing for
    [undefined], [null] and the other values a column can hold. *)
Definition spread (value : option Json) : list (string * Json) :=
  match value with
  | Some (JObject fields) => fields
  | _ => []
  end.

(** An object literal as the store receives it: the JSON serialisation
    drops the properties whose value is [undefined]. *)
Fixpoint serialise (fields : list (string * option Json))
  : list (string * Json) :=
  match fields with
  | [] => []
  | (k, Some v) :: rest => (k, v) :: serialise rest
  | (_, None) :: rest => serialise rest
  end.

(** The filter text of [.eq('iccid', iccid)]. *)
Definition eq_value (v : option string) : string := Js.interpolate v.

(** [activationTime || new Date()] *)
Definition activation_timestamp (data : WebhookData) (now : Timestamp)
  : Timestamp :=
  if Js.truthy (activationTime data)
  then Text (Js.interpolate (activationTime data))
  else now.

(** The object literals the handlers pass to [.update(...)]; [now] is the
    value of [new Date()]. *)
Definition activated_update (data : WebhookData) (now : Timestamp)
  : EsimPatch := {|
  set_status := Some ACTIVE;
  set_activated_at := Some (activation_timestamp data now);
  set_deactivated_at := None;
  set_deactivation_reason := None;
  set_metadata := None;
  set_updated_at := Some now
|}.

Definition suspended_update (data : WebhookData) (now : Timestamp)
  : EsimPatch := {|
  set_status := Some SUSPENDED;
  set_activated_at := None;
  set_deactivated_at := None;
  set_deactivation_reason := None;
  set_metadata :=
    Some (serialise [("suspension_reason", option_map JString (reason data))]);
  set_updated_at := Some now
|}.

Definition unsuspended_update (now : Timestamp) : EsimPatch := {|
  set_status := Some ACTIVE;
  set_activated_at := None;
  set_deactivated_at := None;
  set_deactivation_reason := None;
  set_metadata := Some (serialise [("suspension_reason", Some JNull)]);
  set_updated_at := Some now
|}.

Definition cancelled_update (data : WebhookData) (now : Timestamp)
  : EsimPatch := {|
  set_status := Some CANCELLED;
  set_activated_at := None;
  set_deactivated_at := Some now;
  set_deactivation_reason :=
    Some (Js.or_else (reason data) "Cancelled by provider");
  set_metadata := None;
  set_updated_at := Some now
|}.

Definition expired_update (now : Timestamp) : EsimPatch := {|
  set_status := Some EXPIRED;
  set_activated_at := None;
  set_deactivated_at := None;
  set_deactivation_reason := None;
  set_metadata := None;
  set_updated_at := Some now
|}.

Definition revoked_update (data : WebhookData) (now : Timestamp)
  : EsimPatch := {|
  set_status := Some REVOKED;
  set_activated_at := None;
  set_deactivated_at := Some now;
  set_deactivation_reason :=
    Some (Js.or_else (reason data) "Revoked by provider");
  set_metadata := None;
  set_updated_at := Some now
|}.

Definition handleProfileActivated (data : WebhookData) (w : World) : World :=
  let (error, w1) :=
    update_esims (activated_update data (new_Date w))
      (eq_value (w_iccid data)) w in
  match error with
  | Some e =>
      logger_error "Failed to update activated eSIM:" (StoreErrorDetail e) w1
  | None =>
      let (_, w2) :=
        insert "esim_activation_logs"
          (ActivationLog (profileId data) "ACTIVATED" data (new_Date w1)) w1 in
      logger_info
        ("eSIM " ++ Js.interpolate (w_iccid data) ++ " activated successfully")
        NoDetail w2
  end.

Definition handleProfileSuspended (data : WebhookData) (w : World) : World :=
  snd (update_esims (suspended_update data (new_Date w))
         (eq_value (w_iccid data)) w).

Definition handleProfileUnsuspended (data : WebhookData) (w : World) : World :=
  snd (update_esims (unsuspended_update (new_Date w))
         (eq_value (w_iccid data)) w).

Definition handleProfileCancelled (data : WebhookData) (w : World) : World :=
  snd (update_esims (cancelled_update data (new_Date w))
         (eq_value (w_iccid data)) w).

Definition handleProfileExpired (data : WebhookData) (w : World) : World :=
  snd (update_esims (expired_update (new_Date w))
         (eq_value (w_iccid data)) w).

Definition handleProfileRevoked (data : WebhookData) (w : World) : World :=
  snd (update_esims (revoked_update data (new_Date w))
         (eq_value (w_iccid data)) w).

Definition handleUsageThreshold (data : WebhookData) (w : World) : World :=
  let (esim, w1) := select_user_id_single (eq_value (w_iccid data)) w in
  match esim with
  | Some selected =>
      snd (insert "user_notifications"
             (UserNotification (get "user_id" selected)
                "USAGE_THRESHOLD" "Data Usage Alert"
                ("You have used " ++ Js.interpolate_number (usage data)
                 ++ "GB of data. " ++ Js.interpolate_number (remaining data)
                 ++ "GB remaining.")
                (w_iccid data) (usage data) (threshold data) (remaining data)
                (new_Date w1)) w1)
  | None => w1
  end.

Definition handleBalanceLow (data : WebhookData) (w : World) : World :=
  snd (insert "system_notifications"
         (SystemNotification "BALANCE_LOW" "Account Balance Low"
            ("Current balance: " ++ Js.interpolate_number (w_balance data)
             ++ ", threshold: " ++ Js.interpolate_number (threshold data))
            data (new_Date w)) w).

(** The bodies the two routes answer with. *)
Inductive ResponseBody : Type :=
| Received (timestamp : Timestamp)
| ReceivedError (error : string)
| Success (data : Json)
| Failure (error : string) (message : option string).

Record Response : Type := {
  status_code : Z;
  body : ResponseBody
}.

(** [switch (webhookData.event)] on an object. *)
Definition dispatch (data : WebhookData) (w : World) : World :=
  match event data with
  | None => logger_info "Unhandled webhook event:" (EventDetail None) w
  | Some tag =>
      if tag =? "profile.activated" then handleProfileActivated data w
      else if tag =? "profile.suspended" then handleProfileSuspended data w
      else if tag =? "profile.unsuspended" then handleProfileUnsuspended data w
      else if tag =? "profile.cancelled" then handleProfileCancelled data w
      else if tag =? "profile.expired" then handleProfileExpired data w
      else if tag =? "profile.revoked" then handleProfileRevoked data w
      else if tag =? "usage.threshold" then handleUsageThreshold data w
      else if tag =? "balance.low" then handleBalanceLow data w
      else logger_info "Unhandled webhook event:" (EventDetail (event data)) w
  end.

(** The [catch] block of the webhook route. *)
Definition webhook_catch (error : Js.Error) (w : World) : Response * World :=
  ({| status_code := 200; body := ReceivedError (Js.message error) |},
   logger_error "Webhook processing error:" (ErrorDetail error) w).

(** The handler of [router.post('/webhook')], from its first statement on.
    It is given the completion of [JSON.parse(req.body)]: a thrown
    SyntaxError or the parsed value. What [req.body] is when the handler
    starts is decided by the middleware in front of it: see [Server]. *)
Definition webhook (parsed : Completion WebhookJson) (w : World)
  : Response * World :=
  match parsed with
  | Throw error => webhook_catch error w
  | Return webhookData =>
      let w1 :=
        logger_info "Received ESIM webhook:" (WebhookDetail webhookData) w in
      let (_, w2) :=
        insert "system_logs"
          (SystemLog "info" "esim-webhook" "Webhook received" webhookData
             (new_Date w1)) w1 in
      match webhookData with
      | WNull =>
          webhook_catch
            (Js.mkError "TypeError"
               "Cannot read properties of null (reading 'event')") w2
      | WPrimitive _ =>
          let w3 :=
            logger_info "Unhandled webhook event:" (EventDetail None) w2 in
          ({| status_code := 200; body := Received (new_Date w3) |}, w3)
      | WObject data =>
          let w3 := dispatch data w2 in
          ({| status_code := 200; body := Received (new_Date w3) |}, w3)
      end
  end.

(** [req.user], set by the authentication middleware. *)
Record User : Type := {
  uid : string;
  role : string
}.

(** [esim.user_id !== req.user.id] *)
Definition differs_from (v : option Json) (s : string) : bool :=
  match v with
  | Some (JString s') => negb (s' =? s)
  | _ => true
  end.

(** The object literal of the usage endpoint:
    [{ metadata: { ...esim.metadata, last_usage: usage }, updated_at }],
    where [esim] is the object the select returned. *)
Definition usage_update (esim : list (string * Json)) (usage_data : Json)
  (now : Timestamp) : EsimPatch := {|
  set_status := None;
  set_activated_at := None;
  set_deactivated_at := None;
  set_deactivation_reason := None;
  set_metadata :=
    Some (put "last_usage" usage_data (spread (get "metadata" esim)));
  set_updated_at := Some now
|}.

(** [router.get('/usage/:iccid')]; [usageCheck] is the completion of the
    vendor call [esimClient.usageCheck({ iccid })]. *)
Definition usage_route (user : User) (iccid_param : string)
  (usageCheck : Completion Json) (w : World) : Response * World :=
  let (esim, w1) := select_user_id_single iccid_param w in
  match esim with
  | None =>
      ({| status_code := 404; body := Failure "eSIM not found" None |}, w1)
  | Some selected =>
      if differs_from (get "user_id" selected) (uid user)
         && negb (role user =? "admin")
      then ({| status_code := 403;
               body := Failure "You do not have permission to view this eSIM"
                         None |}, w1)
      else
        match usageCheck with
        | Throw error =>
            ({| status_code := 500;
                body := Failure "Failed to check usage"
                          (Some (Js.message error)) |},
             logger_error "Usage check error:" (ErrorDetail error) w1)
        | Return usage_data =>
            let (_, w2) :=
              update_esims (usage_update selected usage_data (new_Date w1))
                iccid_param w1 in
            ({| status_code := 200; body := Success usage_data |}, w2)
        end
  end.

(** *** Vocabulary of the statements about the reconciler *)


(** The update a lifecycle event tag leads to in [dispatch]. *)
Definition lifecycle_update (tag : string) (data : WebhookData)
  (now : Timestamp) : option EsimPatch :=
  if tag =? "profile.activated" then Some (activated_update data now)
  else if tag =? "profile.suspended" then Some (suspended_update data now)
  else if tag =? "profile.unsuspended" then Some (unsuspended_update now)
  else if tag =? "profile.cancelled" then Some (cancelled_update data now)
  else if tag =? "profile.expired" then Some (expired_update now)
  else if tag =? "profile.revoked" then Some (revoked_update data now)
  else None.

(** The status each lifecycle event tag writes. *)
Definition lifecycle_target (tag : string) : option Status :=
  if tag =? "profile.activated" then Some ACTIVE
  else if tag =? "profile.suspended" then Some SUSPENDED
  else if tag =? "profile.unsuspended" then Some ACTIVE
  else if tag =? "profile.cancelled" then Some CANCELLED
  else if tag =? "profile.expired" then Some EXPIRED
  else if tag =? "profile.revoked" then Some REVOKED
  else None.

(** The record store answers every call without error. *)
Definition store_available (w : World) : Prop :=
  forall n, db_fault w n = None.

(** The table after an accepted update filtered on [iccid = value]. *)
Definition rewritten (p : EsimPatch) (value : string) (rows : list Esim)
  : list Esim :=
  map (fun e => if iccid e =? value then apply_patch p e else e) rows.

(** The plain acknowledgment [{ received: true, timestamp }] with status
    200. *)
Definition acknowledged (r : Response) : Prop :=
  status_code r = 200%Z /\ exists ts, body r = Received ts.

(** The audit row the webhook route inserts into [system_logs]. *)
Definition audit_row (v : WebhookJson) (w : World) : Row :=
  SystemLog "info" "esim-webhook" "Webhook received" v (new_Date w).

(** The state the handlers start from: the request was logged and the
    insert of the audit row was issued. *)
Definition audited (v : WebhookJson) (w : World) : World :=
  snd (insert "system_logs" (audit_row v w)
         (logger_info "Received ESIM webhook:" (WebhookDetail v) w)).

(** What a handler may do to the state: the clock and the store's faults
    stay, calls are only added, and [system_logs] is left alone. *)
Record Step (w w' : World) : Prop := {
  step_clock : clock w' = clock w;
  step_fault : db_fault w' = db_fault w;
  step_queries : exists issued, queries w' = (queries w ++ issued)%list;
  step_audit : rows_of "system_logs" w' = rows_of "system_logs" w
}.

(** The identifying columns of a row are those of [e]. *)
Definition keeps_identity (e e' : Esim) : Prop :=
  id e' = id e /\ iccid e' = iccid e /\
  user_id e' = user_id e /\ order_id e' = order_id e.

(** The object [m] has no key other than [key]. *)
Definition only_key (key : string) (m : list (string * Json)) : Prop :=
  forall k v, In (k, v) m -> k = key.

End Reconciler.

(** ** The server around the webhook route

    server.js mounts, in this order, the JSON body parser, the URL-encoded
    body parser, the request logger, the routers and, last, the global
    error handler. The webhook route of routes/esim.js adds
    [express.raw({ type: 'application/json' })], which leaves a request
    alone whose body an earlier parser has read: a body of content type
    application/json reaches the handler as [express.json] parsed it. *)

Module Server.

Import Reconciler.

(** What [express.json] sets [req.body] to: in its strict mode, which is
    the default, an object or an array. *)
Inductive Body : Type :=
| ObjectBody (fields : list (string * Json))
| ArrayBody (items : list Json).

(** A POST to /esim/webhook that carries a body of content type
    application/json, by what [express.json({ limit: '10mb' })] makes of
    it. Either the parser passes an error to [next]: the body is no JSON
    text, is neither an object nor an array, or exceeds the limit;
    [status] is the [status] property of that error (400 for a text that
    does not parse, 413 above the limit), 0 standing for none. Or the
    parser sets [req.body] and passes the request on. *)
Inductive Delivery : Type :=
| Refused (status : Z) (error : Js.Error)
| Passed (body : Body).

(** The TypeError of a conversion to string that finds no callable
    [toString]: an object read from JSON that has a key of that name. *)
Definition not_primitive : Js.Error :=
  Js.mkError "TypeError" "Cannot convert object to primitive value".

(** [String(v)] for a plain object. *)
Definition object_text (fields : list (string * Json)) : option string :=
  match get "toString" fields with
  | Some _ => None
  | None => Some "[object Object]"
  end.

(** The text of an array element inside [Array.prototype.join], [None]
    when the conversion raises [not_primitive]: nothing for [null], the
    elements joined by commas for an array. *)
Fixpoint element_text (v : Json) : option string :=
  match v with
  | JNull => Some EmptyString
  | JBool b => Some (if b then "true" else "false")
  | JNumber n => Some (Js.number_toString n)
  | JString s => Some s
  | JArray items =>
      (fix joined (l : list Json) : option string :=
         match l with
         | [] => Some EmptyString
         | [x] => element_text x
         | x :: rest =>
             match element_text x, joined rest with
             | Some a, Some b => Some (a ++ "," ++ b)
             | _, _ => None
             end
         end) items
  | JObject fields => object_text fields
  end.

(** [String(items)] for an array. *)
Fixpoint join (items : list Json) : option string :=
  match items with
  | [] => Some EmptyString
  | [v] => element_text v
  | v :: rest =>
      match element_text v, join rest with
      | Some a, Some b => Some (a ++ "," ++ b)
      | _, _ => None
      end
  end.

(** [String(req.body)]: [JSON.parse] converts its argument to a string
    before it reads it. *)
Definition body_text (b : Body) : option string :=
  match b with
  | ObjectBody fields => object_text fields
  | ArrayBody items => join items
  end.

(** The [JSON.parse] of the engine on a string: [read] is the value of a
    JSON text, [syntax_error] the SyntaxError raised for a text that is
    none. *)
Record Engine : Type := {
  read : string -> option WebhookJson;
  syntax_error : string -> Js.Error
}.

(** [JSON.parse(text)]. The text of a plain object is no JSON text: the
    grammar admits no letter o after the opening bracket. *)
Definition JSON_parse (engine : Engine) (text : string)
  : Completion WebhookJson :=
  if text =? "[object Object]" then Throw (syntax_error engine text)
  else match read engine text with
       | Some v => Return v
       | None => Throw (syntax_error engine text)
       end.

(** [JSON.parse(req.body)], the first statement of the route. *)
Definition parse_body (engine : Engine) (b : Body) : Completion WebhookJson :=
  match body_text b with
  | Some text => JSON_parse engine text
  | None => Throw not_primitive
  end.

(** [`${req.method} ${req.path} - ${req.ip}`] of the request logger. *)
Definition request_line (ip : string) : string :=
  "POST /esim/webhook - " ++ ip.

Definition request_logged (ip : string) (w : World) : World :=
  logger_info (request_line ip) NoDetail w.

(** The global error handler; the [stack] property that the body gets in
    development mode is left out. *)
Definition error_handler (status : Z) (error : Js.Error) (w : World)
  : Response * World :=
  ({| status_code := if (status =? 0)%Z then 500%Z else status;
      body :=
        Failure (Js.or_else (Some (Js.message error)) "Internal server error")
          None |},
   logger_error "Server error:" (StackDetail error) w).

(** The server on a delivery from address [ip]. A refused body skips the
    request logger and the route and goes to the error handler; a body
    that passed is logged and handed to the route. *)
Definition deliver (engine : Engine) (ip : string) (d : Delivery) (w : World)
  : Response * World :=
  match d with
  | Refused status error => error_handler status error w
  | Passed b => webhook (parse_body engine b) (request_logged ip w)
  end.

(** *** Vocabulary of the statements about the server *)


End Server.

(** ** Further vocabulary

    Terms of the further statements about the two parts above. *)

Module Terms.

Import Provisioning Reconciler.

(** The last console line of a run of [provisionEsim] that succeeds. *)
Definition success_line (orderId : option Z) : string :=
  "✅ eSIM provisioned for order " ++ Js.interpolate_number orderId.

(** The [meta_data] a successful run sends for the profile [d]. *)
Definition provisioning_metadata (d : EsimDetails)
  : list (string * option string) :=
  [("_esim_iccid", Provisioning.iccid d);
   ("_esim_qr_code", qrCode d);
   ("_esim_activation_link", activationLink d);
   ("_esim_status", Some "provisioned")].

(** The history at which the poll loop of a run starts. *)
Definition before_polling (h : list Effect) (orderId : option Z)
  (tid sku : string) (quantity : option Z) : list Effect :=
  (h ++ [ConsoleLog (start_line orderId); GetAccountBalance;
         OrderProfile tid sku (default_quantity quantity); Sleep 5000])%list.

(** A vendor order whose transaction id is not that of [orderId]. *)
Definition foreign_order (orderId : option Z) (e : Effect) : bool :=
  match e with
  | OrderProfile tid _ _ =>
      negb match orderId with
           | Some z => String.eqb tid (Js.number_toString z)
           | None => false
           end
  | _ => false
  end.

(** The alert the usage-threshold handler writes for the row [e]. *)
Definition usage_alert (data : WebhookData) (e : Esim) (now : Timestamp)
  : Row :=
  UserNotification (Some (JString (user_id e)))
    "USAGE_THRESHOLD" "Data Usage Alert"
    ("You have used " ++ Js.interpolate_number (usage data)
     ++ "GB of data. " ++ Js.interpolate_number (remaining data)
     ++ "GB remaining.")
    (w_iccid data) (usage data) (threshold data) (remaining data) now.

End Terms.

(** ** Display of a data volume

    routes/esim.js, [formatBytes], used by the public package list. *)

Module Format.

Definition GB : Z := 2 ^ 30.
Definition MB : Z := 2 ^ 20.

(** [x.toFixed(1)] of the quotient [num / den], [den] a power of two and
    the quotient at least 1: the tenths nearest to it, the larger of two
    that are equally near. *)
Definition toFixed1 (num den : Z) : string :=
  let n := ((2 * 10 * num + den) / (2 * den))%Z in
  Js.number_toString (n / 10) ++ "." ++ Js.number_toString (n mod 10).

(** [Math.round(num / den)]: the nearest integer, the larger of two that
    are equally near. *)
Definition round (num den : Z) : Z := ((2 * num + den) / (2 * den))%Z.

(** [bytes] is an integer below 2^53 or is missing; the quotients by 1024^3
    and 1024^2 are then exact in binary floating point. *)
Definition formatBytes (bytes : option Z) : string :=
  match bytes with
  | None => "Unlimited"
  | Some b =>
      if (b <=? 0)%Z then "Unlimited"
      else if (GB <=? b)%Z
      then (if (b mod GB =? 0)%Z
            then Js.number_toString (b / GB)
            else toFixed1 b GB) ++ "GB"
      else Js.number_toString (round b MB) ++ "MB"
  end.

End Format.

(** ** The manual endpoints of the order gateway

    controllers/webhookController.js, [manuallyProvisionEsim] and
    [getProvisioningStatus]. *)

Module Gateway.

Import Provisioning Reconciler.

(** [req.body] of the manual trigger. *)
Record ManualRequest : Type := {
  m_orderId : option Z;
  m_sku : string;
  m_quantity : option Z
}.

(** What the handler answers: [res.json({ success: true, data })], or
    [res.status(500).json({ success: false, error })]. *)
Inductive ManualReply : Type :=
| Provisioned (data : EsimDetails)
| ProvisioningFailed (error : string).

(** The destructuring default [quantity = 1] is applied before the call. *)
Definition manuallyProvisionEsim (env : Collaborators) (body : ManualRequest)
  : list Effect -> ManualReply * list Effect :=
  fun h =>
    let (result, t) :=
      provisionEsim env (m_orderId body) (m_sku body)
        (Some (default_quantity (m_quantity body))) h in
    (match result with
     | Return data => Provisioned data
     | Throw error => ProvisioningFailed (Js.message error)
     end, t).

(** An entry of [order.meta_data]; its [value] is present. *)
Record Meta : Type := {
  key : option string;
  value : Json
}.

(** What [woocommerceService.getOrder] resolves to. *)
Record Order : Type := {
  meta_data : option (list Meta)
}.

(** [s.startsWith(p)] *)
Definition startsWith (p s : string) : bool := prefix p s.

(** The text after the first [n] characters. *)
Fixpoint drop (n : nat) (s : string) : string :=
  match n, s with
  | O, _ => s
  | S n', String _ s' => drop n' s'
  | S _, EmptyString => EmptyString
  end.

(** [s.replace(pattern, replacement)] with a string pattern: the first
    occurrence only. *)
Fixpoint replace (pattern replacement s : string) : string :=
  if prefix pattern s then replacement ++ drop (String.length pattern) s
  else match s with
       | EmptyString => EmptyString
       | String c s' => String c (replace pattern replacement s')
       end.

(** [obj[k] = v] on an object literal: the key [__proto__] names the
    prototype, so the assignment adds no property of the object's own. *)
Definition assign (k : string) (v : Json) (obj : list (string * Json))
  : list (string * Json) :=
  if k =? "__proto__" then obj else put k v obj.

(** The body of the [forEach] callback. *)
Definition collect_meta (esimMeta : list (string * Json)) (meta : Meta)
  : list (string * Json) :=
  match key meta with
  | Some k =>
      if startsWith "_esim_" k
      then assign (replace "_esim_" EmptyString k) (value meta) esimMeta
      else esimMeta
  | None => esimMeta
  end.

Definition esimMeta_of (order : Order) : list (string * Json) :=
  match meta_data order with
  | Some metas => fold_left collect_meta metas []
  | None => []
  end.

(** [res.json({ success: true, data })], or
    [res.status(500).json({ success: false, error })]. *)
Inductive StatusReply : Type :=
| StatusData (data : list (string * Json))
| StatusFailed (error : string).

(** [order] is the completion of [woocommerceService.getOrder(orderId)]. *)
Definition getProvisioningStatus (order : Completion Order) : StatusReply :=
  match order with
  | Return o => StatusData (esimMeta_of o)
  | Throw error => StatusFailed (Js.message error)
  end.

(** The value the last entry with key [k] carries. *)
Definition last_value (k : string) (metas : list Meta) : option Json :=
  fold_left
    (fun found meta =>
       match key meta with
       | Some k' => if k' =? k then Some (value meta) else found
       | None => found
       end)
    metas None.

End Gateway.

(** ** Authentication and authorisation

    middleware/auth.js, [authenticateToken] and [authorize]. *)

Module Auth.

Definition error_name (e : Js.Error) : string :=
  match e with Js.mkError n _ => n end.

(** [s.split(sep)] with a separator of one character. *)
Fixpoint split (sep : ascii) (s : string) : list string :=
  match s with
  | EmptyString => [EmptyString]
  | String c s' =>
      if Ascii.eqb c sep then EmptyString :: split sep s'
      else match split sep s' with
           | first :: rest => String c first :: rest
           | [] => [String c EmptyString]
           end
  end.

(** [authHeader && authHeader.split(' ')[1]] *)
Definition token_of (authHeader : option string) : option string :=
  match authHeader with
  | None => None
  | Some h =>
      if h =? EmptyString then Some EmptyString
      else nth_error (split " " h) 1
  end.

(** The payload [jwt.verify] returns. *)
Record Decoded : Type := {
  d_id : option string
}.

(** A row of [profiles], with the columns the middleware selects. *)
Record Profile : Type := {
  p_id : string;
  p_email : option string;
  p_full_name : option string;
  p_role : option string;
  p_is_active : bool
}.

(** [req.user] *)
Record ReqUser : Type := {
  u_id : string;
  u_email : option string;
  u_fullName : option string;
  u_role : option string
}.

Inductive Code : Type :=
| MISSING_TOKEN
| USER_NOT_FOUND
| ACCOUNT_DISABLED
| TOKEN_EXPIRED
| INVALID_TOKEN
| SERVER_ERROR
| AUTH_REQUIRED
| FORBIDDEN.

(** A middleware either answers the request or calls [next()]. *)
Inductive Passage : Type :=
| Denied (status : Z) (code : Code)
| Next (user : ReqUser).

(** The [catch] block of [authenticateToken]; the second component is
    what [console.error] received. *)
Definition auth_catch (error : Js.Error) : Passage * option Js.Error :=
  if error_name error =? "TokenExpiredError"
  then (Denied 401 TOKEN_EXPIRED, None)
  else if error_name error =? "JsonWebTokenError"
  then (Denied 403 INVALID_TOKEN, None)
  else (Denied 500 SERVER_ERROR, Some error).

(** [verify] is [jwt.verify(token, process.env.JWT_SECRET)] and [find] the
    completion of the lookup in [profiles] by [decoded.id], with its
    [error] and [data]. *)
Definition authenticateToken
  (verify : string -> Completion Decoded)
  (find : option string -> Completion (option string * option Profile))
  (authHeader : option string) : Passage * option Js.Error :=
  match token_of authHeader with
  | None => (Denied 401 MISSING_TOKEN, None)
  | Some token =>
      if token =? EmptyString then (Denied 401 MISSING_TOKEN, None)
      else
        match verify token with
        | Throw error => auth_catch error
        | Return decoded =>
            match find (d_id decoded) with
            | Throw error => auth_catch error
            | Return (None, Some user) =>
                if p_is_active user
                then (Next {| u_id := p_id user;
                              u_email := p_email user;
                              u_fullName := p_full_name user;
                              u_role := p_role user |}, None)
                else (Denied 403 ACCOUNT_DISABLED, None)
            | Return _ => (Denied 401 USER_NOT_FOUND, None)
            end
        end
  end.

(** [roles.includes(role)] *)
Definition includes_role (roles : list string) (role : option string) : bool :=
  match role with
  | Some r => existsb (String.eqb r) roles
  | None => false
  end.

(** [authorize(roles)] applied to [req.user]. *)
Definition authorize (roles : list string) (user : option ReqUser) : Passage :=
  match user with
  | None => Denied 401 AUTH_REQUIRED
  | Some u =>
      if negb (length roles =? 0)%nat && negb (includes_role roles (u_role u))
      then Denied 403 FORBIDDEN
      else Next u
  end.

(** [authenticateToken, authorize(roles)] as two middlewares in a row: the
    second runs when the first called [next()], on the [req.user] it set. *)
Definition guarded (roles : list string)
  (verify : string -> Completion Decoded)
  (find : option string -> Completion (option string * option Profile))
  (authHeader : option string) : Passage * option Js.Error :=
  match authenticateToken verify find authHeader with
  | (Next u, printed) => (authorize roles (Some u), printed)
  | denied => denied
  end.

End Auth.

(** ** The vendor client

    config/esimClient.js, [request] and the methods the routes below
    call. *)

Module Client.

Import Reconciler.

(** What is handed to [fetch]: the endpoint appended to the base URL, the
    method, and the value whose JSON text is the body. *)
Record Fetch : Type := {
  endpoint : string;
  method : string;
  body : Json
}.

(** The response of [fetch], with the completion of [response.json()]. *)
Record HttpResponse : Type := {
  ok : bool;
  http_status : Z;
  payload : Completion Json
}.

(** [request(endpoint, data = {})]; [answer] is the completion of the call
    to [fetch]. The last component is what [console.error] received. *)
Definition request (endpoint : string) (data : option Json)
  (answer : Completion HttpResponse)
  : Fetch * Completion Json * option Js.Error :=
  let sent :=
    {| endpoint := endpoint;
       method := "POST";
       body := match data with
               | Some d => d
               | None => JObject []
               end |} in
  let result :=
    match answer with
    | Return response =>
        if ok response then payload response
        else Throw (Js.Error_ ("ESIM API error: "
                               ++ Js.number_toString (http_status response)))
    | Throw error => Throw error
    end in
  (sent, result,
   match result with
   | Throw error => Some error
   | Return _ => None
   end).

(** Each method wraps its one parameter in an object of its own. *)
Definition cancelProfile (profileId : Json) :=
  request "/CancelProfile" (Some (JObject [("profileId", profileId)])).

Definition suspendProfile (profileId : Json) :=
  request "/SuspendProfile" (Some (JObject [("profileId", profileId)])).

Definition unsuspendProfile (profileId : Json) :=
  request "/UnsuspendProfile" (Some (JObject [("profileId", profileId)])).

Definition revokeProfile (profileId : Json) :=
  request "/RevokeProfile" (Some (JObject [("profileId", profileId)])).

End Client.

(** ** The administrator's profile actions

    routes/esim.js: [router.post('/profiles/:profileId/cancel')],
    [.../suspend], [.../unsuspend] and [.../revoke]. Each handler calls the
    vendor first and then updates the rows whose [id] is the profile id. *)

Module Admin.

Import Reconciler.

(** [supabaseAdmin.from('esims').update(patch).eq('id', value)] *)
Definition update_esims_by_id (p : EsimPatch) (value : string) (w : World)
  : option string * World :=
  let fault := next_fault w in
  (fault,
   {| clock := clock w;
      db_fault := db_fault w;
      esims :=
        match fault with
        | None =>
            map (fun e => if Reconciler.id e =? value then apply_patch p e else e)
                (esims w)
        | Some _ => esims w
        end;
      inserted := inserted w;
      logger := logger w;
      queries := (queries w ++ [Update "esims" "id" value])%list |}).

Inductive AdminBody : Type :=
| Done (message : string) (data : Json)
| Failed (error message : string).

Record AdminResponse : Type := {
  admin_status : Z;
  admin_body : AdminBody
}.

Definition cancel_update (reason : option string) (now : Timestamp)
  : EsimPatch := {|
  set_status := Some CANCELLED;
  set_activated_at := None;
  set_deactivated_at := Some now;
  set_deactivation_reason := Some (Js.or_else reason "Cancelled by admin");
  set_metadata := None;
  set_updated_at := Some now
|}.

Definition suspend_update (reason : option string) (now : Timestamp)
  : EsimPatch := {|
  set_status := Some SUSPENDED;
  set_activated_at := None;
  set_deactivated_at := None;
  set_deactivation_reason := None;
  set_metadata :=
    Some (serialise [("suspension_reason", option_map JString reason)]);
  set_updated_at := Some now
|}.

Definition revoke_update (reason : option string) (now : Timestamp)
  : EsimPatch := {|
  set_status := Some REVOKED;
  set_activated_at := None;
  set_deactivated_at := Some now;
  set_deactivation_reason := Some (Js.or_else reason "Revoked by admin");
  set_metadata := None;
  set_updated_at := Some now
|}.

(** In each handler [vendor] is the completion of the call to the vendor
    ([esimClient.cancelProfile] and the like), [admin] is [req.user.id],
    [profileId] the route parameter and [reason] the field of [req.body]. *)
Definition cancel (admin profileId : string) (reason : option string)
  (vendor : Completion Json) (w : World) : AdminResponse * World :=
  match vendor with
  | Return result =>
      let (_, w1) :=
        update_esims_by_id (cancel_update reason (new_Date w)) profileId w in
      ({| admin_status := 200;
          admin_body := Done "Profile cancelled successfully" result |},
       logger_info
         ("Profile " ++ profileId ++ " cancelled by admin " ++ admin)
         NoDetail w1)
  | Throw error =>
      ({| admin_status := 500;
          admin_body := Failed "Failed to cancel profile" (Js.message error) |},
       logger_error "Cancel profile error:" (ErrorDetail error) w)
  end.

Definition suspend (profileId : string) (reason : option string)
  (vendor : Completion Json) (w : World) : AdminResponse * World :=
  match vendor with
  | Return result =>
      let (_, w1) :=
        update_esims_by_id (suspend_update reason (new_Date w)) profileId w in
      ({| admin_status := 200;
          admin_body := Done "Profile suspended successfully" result |}, w1)
  | Throw error =>
      ({| admin_status := 500;
          admin_body := Failed "Failed to suspend profile" (Js.message error) |},
       logger_error "Suspend profile error:" (ErrorDetail error) w)
  end.

Definition unsuspend (profileId : string) (vendor : Completion Json)
  (w : World) : AdminResponse * World :=
  match vendor with
  | Return result =>
      let (_, w1) :=
        update_esims_by_id (unsuspended_update (new_Date w)) profileId w in
      ({| admin_status := 200;
          admin_body := Done "Profile unsuspended successfully" result |}, w1)
  | Throw error =>
      ({| admin_status := 500;
          admin_body :=
            Failed "Failed to unsuspend profile" (Js.message error) |},
       logger_error "Unsuspend profile error:" (ErrorDetail error) w)
  end.

Definition revoke (profileId : string) (reason : option string)
  (vendor : Completion Json) (w : World) : AdminResponse * World :=
  match vendor with
  | Return result =>
      let (_, w1) :=
        update_esims_by_id (revoke_update reason (new_Date w)) profileId w in
      ({| admin_status := 200;
          admin_body := Done "Profile revoked successfully" result |}, w1)
  | Throw error =>
      ({| admin_status := 500;
          admin_body := Failed "Failed to revoke profile" (Js.message error) |},
       logger_error "Revoke profile error:" (ErrorDetail error) w)
  end.

(** The four routes by name. *)
Inductive Action : Type :=
| Cancel
| Suspend
| Unsuspend
| Revoke.

Definition route (a : Action) (admin profileId : string)
  (reason : option string) (vendor : Completion Json) (w : World)
  : AdminResponse * World :=
  match a with
  | Cancel => cancel admin profileId reason vendor w
  | Suspend => suspend profileId reason vendor w
  | Unsuspend => unsuspend profileId vendor w
  | Revoke => revoke profileId reason vendor w
  end.

(** The update object each route passes to the store. *)
Definition update_of (a : Action) (reason : option string) (now : Timestamp)
  : EsimPatch :=
  match a with
  | Cancel => cancel_update reason now
  | Suspend => suspend_update reason now
  | Unsuspend => unsuspended_update now
  | Revoke => revoke_update reason now
  end.

(** The table after an accepted update filtered on [id = value]. *)
Definition rewritten_by_id (p : EsimPatch) (value : string)
  (rows : list Esim) : list Esim :=
  map (fun e => if Reconciler.id e =? value then apply_patch p e else e) rows.

(** The object literals the handlers pass to the client, [{ profileId,
    reason }] and [{ profileId }], as their JSON text holds them. *)
Definition with_reason (profileId : string) (reason : option string) : Json :=
  JObject (serialise [("profileId", Some (JString profileId));
                      ("reason", option_map JString reason)]).

Definition without_reason (profileId : string) : Json :=
  JObject [("profileId", JString profileId)].

(** The call each route makes to the client. *)
Definition vendor_call (a : Action) (profileId : string)
  (reason : option string) (answer : Completion Client.HttpResponse)
  : Client.Fetch * Completion Json * option Js.Error :=
  match a with
  | Cancel => Client.cancelProfile (with_reason profileId reason) answer
  | Suspend => Client.suspendProfile (with_reason profileId reason) answer
  | Unsuspend => Client.unsuspendProfile (without_reason profileId) answer
  | Revoke => Client.revokeProfile (with_reason profileId reason) answer
  end.

(** A route with its call to the client; [answer] is the completion of
    [fetch]. *)
Definition served (a : Action) (admin profileId : string)
  (reason : option string) (answer : Completion Client.HttpResponse)
  (w : World) : Client.Fetch * (AdminResponse * World) :=
  let '(sent, result, _) := vendor_call a profileId reason answer in
  (sent, route a admin profileId reason result w).

End Admin.

(** ** Activation and deactivation by the customer

    controllers/esimController.js, [activateEsim] and [deactivateEsim]. *)

Module Controller.

Import Reconciler.

(** A row the controller inserts into [esim_activation_logs]; its shape is
    not that of the webhook's rows, so the rows are kept in a list of
    their own. *)
Record ControllerLog : Type := {
  log_esim_id : string;
  log_action : string;
  log_user_id : string;
  log_reason : option string;
  log_timestamp : Timestamp
}.

Record Db : Type := {
  store : World;
  controller_logs : list ControllerLog
}.

Definition with_store (w : World) (s : Db) : Db :=
  {| store := w; controller_logs := controller_logs s |}.

(** [.from('esims').select('*').eq(column, value).single()]: [data] is the
    row when the call succeeds and exactly one row matches, [null]
    otherwise (and [error] is set). *)
Definition select_single (columns column : string) (field : Esim -> string)
  (value : string) (w : World) : option Esim * World :=
  let fault := next_fault w in
  let data :=
    match fault, filter (fun e => field e =? value) (esims w) with
    | None, [e] => Some e
    | _, _ => None
    end in
  (data,
   {| clock := clock w;
      db_fault := db_fault w;
      esims := esims w;
      inserted := inserted w;
      logger := logger w;
      queries := (queries w ++ [SelectSingle "esims" columns column value])%list |}).

(** [.from('orders').select('*').eq('id', orderId).eq('user_id', userId)
    .single()]; [order] is the row the table holds for the two filters,
    if any. *)
Definition select_order (order : option Json) (orderId : string) (w : World)
  : option Json * World :=
  let fault := next_fault w in
  (match fault with
   | None => order
   | Some _ => None
   end,
   {| clock := clock w;
      db_fault := db_fault w;
      esims := esims w;
      inserted := inserted w;
      logger := logger w;
      queries := (queries w ++ [SelectSingle "orders" "*" "id" orderId])%list |}).

(** [.from('esims').insert([row]).select().single()]: yields [error];
    [data] is the inserted row when there is no error. *)
Definition insert_esim (row : Esim) (w : World) : option string * World :=
  let fault := next_fault w in
  (fault,
   {| clock := clock w;
      db_fault := db_fault w;
      esims :=
        match fault with
        | None => (esims w ++ [row])%list
        | Some _ => esims w
        end;
      inserted := inserted w;
      logger := logger w;
      queries := (queries w ++ [Insert "esims"])%list |}).

(** [.from('esim_activation_logs').insert([row])] *)
Definition insert_log (row : ControllerLog) (s : Db) : option string * Db :=
  let w := store s in
  let fault := next_fault w in
  (fault,
   {| store :=
        {| clock := clock w;
           db_fault := db_fault w;
           esims := esims w;
           inserted := inserted w;
           logger := logger w;
           queries := (queries w ++ [Insert "esim_activation_logs"])%list |};
      controller_logs :=
        match fault with
        | None => (controller_logs s ++ [row])%list
        | Some _ => controller_logs s
        end |}).

Inductive CtlBody : Type :=
| CtlFailure (error : string) (message : option string)
| Conflict (error esimId : string)
| InProgress (row : Esim)
| Deactivated (esimId : string) (deactivatedAt : Timestamp).

Record CtlResponse : Type := {
  ctl_status : Z;
  ctl_body : CtlBody
}.

Definition deactivated_update (reason : option string) (now : Timestamp)
  : EsimPatch := {|
  set_status := Some DEACTIVATED;
  set_activated_at := None;
  set_deactivated_at := Some now;
  set_deactivation_reason := Some (Js.or_else reason "User requested");
  set_metadata := None;
  set_updated_at := Some now
|}.

Definition is_deactivated (s : Status) : bool :=
  match s with
  | DEACTIVATED => true
  | _ => false
  end.

(** [deactivateEsim]: [esimId] is the route parameter and [reason] the
    field of [req.body]. *)
Definition deactivateEsim (user : User) (esimId : string)
  (reason : option string) (s : Db) : CtlResponse * Db :=
  let (esim, w1) :=
    select_single "*" "id" Reconciler.id esimId (store s) in
  match esim with
  | None =>
      ({| ctl_status := 404; ctl_body := CtlFailure "eSIM not found" None |},
       with_store w1 s)
  | Some e =>
      if negb (user_id e =? uid user) && negb (role user =? "admin")
      then ({| ctl_status := 403;
               ctl_body :=
                 CtlFailure "Unauthorized to deactivate this eSIM" None |},
            with_store w1 s)
      else if is_deactivated (status e)
      then ({| ctl_status := 400;
               ctl_body := CtlFailure "eSIM is already deactivated" None |},
            with_store w1 s)
      else
        let (updateError, w2) :=
          Admin.update_esims_by_id (deactivated_update reason (new_Date w1))
            esimId w1 in
        match updateError with
        | Some msg =>
            ({| ctl_status := 500;
                ctl_body := CtlFailure "Failed to deactivate eSIM" None |},
             with_store
               (logger_error "Deactivate eSIM error:" (StoreErrorDetail msg) w2)
               s)
        | None =>
            let (_, s3) :=
              insert_log
                {| log_esim_id := esimId;
                   log_action := "DEACTIVATED";
                   log_user_id := uid user;
                   log_reason := Some (Js.or_else reason "User requested");
                   log_timestamp := new_Date w2 |}
                (with_store w2 s) in
            let w4 :=
              logger_info
                ("eSIM deactivated: " ++ esimId ++ " by user: " ++ uid user)
                NoDetail (store s3) in
            ({| ctl_status := 200;
                ctl_body := Deactivated (Reconciler.id e) (new_Date w4) |},
             with_store w4 s3)
        end
  end.

(** [req.body] of the activation request, with [req.ip] and the
    [user-agent] header. *)
Record Activation : Type := {
  a_orderId : option string;
  a_productId : option string;
  a_iccid : option string;
  a_ip : option string;
  a_user_agent : option string
}.

(** What the random sources give during one request: [generateId()],
    [generateActivationCode()] and the sixteen digits of
    [Math.random().toString().slice(2, 18)]. *)
Record Fresh : Type := {
  fresh_id : string;
  fresh_code : string;
  fresh_digits : string
}.

(** [generateQRCode] *)
Definition generateQRCode (esimId : string) : string :=
  "https://api.qrserver.com/v1/create-qr-code/?size=300x300&data=esim:"
  ++ esimId.

(** The columns of the inserted row that the model of the table holds. *)
Definition new_row (user : User) (req : Activation) (fresh : Fresh)
  (now : Timestamp) : Esim :=
  let esimId := "ESIM-" ++ fresh_id fresh in
  {| Reconciler.id := esimId;
     order_id := Js.interpolate (a_orderId req);
     user_id := uid user;
     iccid := Js.or_else (a_iccid req) ("8901" ++ fresh_digits fresh);
     activation_code := fresh_code fresh;
     qr_code := generateQRCode esimId;
     status := PENDING_ACTIVATION;
     activated_at := None;
     deactivated_at := None;
     deactivation_reason := None;
     metadata :=
       serialise [("ip_address", option_map JString (a_ip req));
                  ("user_agent", option_map JString (a_user_agent req))];
     updated_at := now |}.

(** [activateEsim]. [order] is the row of [orders] with the requested id
    that belongs to the caller, if there is one. The last component of
    the result is the id of the eSIM whose activation the handler
    scheduled with [setTimeout(..., 5000)], if it did. *)
Definition activateEsim (user : User) (req : Activation) (fresh : Fresh)
  (order : option Json) (s : Db) : CtlResponse * Db * option string :=
  if negb (Js.truthy (a_orderId req)) || negb (Js.truthy (a_productId req))
  then ({| ctl_status := 400;
           ctl_body :=
             CtlFailure "Missing required fields: orderId and productId"
               None |}, s, None)
  else
    let orderId := Js.interpolate (a_orderId req) in
    let (found, w1) := select_order order orderId (store s) in
    match found with
    | None =>
        ({| ctl_status := 404;
            ctl_body :=
              CtlFailure "Order not found or does not belong to you" None |},
         with_store w1 s, None)
    | Some _ =>
        let (existingEsim, w2) :=
          select_single "id" "order_id" order_id orderId w1 in
        match existingEsim with
        | Some existing =>
            ({| ctl_status := 409;
                ctl_body :=
                  Conflict "eSIM already activated for this order"
                    (Reconciler.id existing) |},
             with_store w2 s, None)
        | None =>
            let row := new_row user req fresh (new_Date w2) in
            let (error, w3) := insert_esim row w2 in
            match error with
            | Some msg =>
                ({| ctl_status := 500;
                    ctl_body :=
                      CtlFailure "Failed to initiate eSIM activation"
                        (Some msg) |},
                 with_store
                   (logger_error "Activate eSIM error:"
                      (StoreErrorDetail msg) w3) s,
                 None)
            | None =>
                let (_, s4) :=
                  insert_log
                    {| log_esim_id := Reconciler.id row;
                       log_action := "INITIATED";
                       log_user_id := uid user;
                       log_reason := None;
                       log_timestamp := new_Date w3 |}
                    (with_store w3 s) in
                let w5 :=
                  logger_info
                    ("eSIM activation initiated: " ++ Reconciler.id row
                     ++ " for order: " ++ orderId)
                    NoDetail (store s4) in
                ({| ctl_status := 202; ctl_body := InProgress row |},
                 with_store w5 s4, Some (Reconciler.id row))
            end
        end
    end.

Definition activation_update (now : Timestamp) : EsimPatch := {|
  set_status := Some ACTIVE;
  set_activated_at := Some now;
  set_deactivated_at := None;
  set_deactivation_reason := None;
  set_metadata := None;
  set_updated_at := Some now
|}.

(** The callback of [setTimeout] in [activateEsim], run 5000 ms after the
    request for the eSIM [esimId] of [user]. *)
Definition activation_due (user : User) (esimId : string) (s : Db) : Db :=
  let w := store s in
  let (updateError, w1) :=
    Admin.update_esims_by_id (activation_update (new_Date w)) esimId w in
  match updateError with
  | Some _ => with_store w1 s
  | None =>
      let (_, s2) :=
        insert_log
          {| log_esim_id := esimId;
             log_action := "ACTIVATED";
             log_user_id := uid user;
             log_reason := None;
             log_timestamp := new_Date w1 |}
          (with_store w1 s) in
      with_store
        (logger_info ("eSIM activated successfully: " ++ esimId) NoDetail
           (store s2)) s2
  end.

End Controller.

(** ** Concrete collaborators, orders and stores

    The inputs the closed lemmas below evaluate the model on. *)

Module Scenario.

Import Provisioning.

Definition funded : AccountBalance :=
  {| balance := 100; currency := Some "USD" |}.

Definition accepted_order : EsimOrder :=
  {| orderNumber := Some "ON-42" |}.

Definition pending_profile : EsimDetails :=
  {| iccid := Some EmptyString;
     qrCode := None;
     activationLink := None;
     status := Some "pending" |}.

Definition issued_profile : EsimDetails :=
  {| iccid := Some "8901260000000000017";
     qrCode := Some "https://vendor.example/qr/17.png";
     activationLink := Some "https://vendor.example/activate/17";
     status := Some "released" |}.

(** A vendor that accepts the order and then answers every poll with a
    profile that has no ICCID yet. *)
Definition never_ready : Collaborators :=
  {| vendor_balance := fun _ => Return funded;
     vendor_order := fun _ _ _ _ => Return accepted_order;
     vendor_profile := fun _ _ => Return pending_profile;
     ledger_note := fun _ => None;
     ledger_meta := fun _ => None |}.

(** A vendor account holding 5 against the threshold of 10. *)
Definition short_of_funds : Collaborators :=
  {| vendor_balance :=
       fun _ => Return {| balance := 5; currency := Some "USD" |};
     vendor_order := fun _ _ _ _ => Return accepted_order;
     vendor_profile := fun _ _ => Return issued_profile;
     ledger_note := fun _ => None;
     ledger_meta := fun _ => None |}.

(** The first poll finds no ICCID, the second is rejected, the third
    carries the profile. *)
Definition ready_on_third : Collaborators :=
  {| vendor_balance := fun _ => Return funded;
     vendor_order := fun _ _ _ _ => Return accepted_order;
     vendor_profile :=
       fun n _ =>
         match n with
         | 0%nat => Return pending_profile
         | 1%nat => Throw (Js.Error_ "ESIM API error: 503")
         | _ => Return issued_profile
         end;
     ledger_note := fun _ => None;
     ledger_meta := fun _ => None |}.

(** Every poll carries the profile. *)
Definition ready_at_once : Collaborators :=
  {| vendor_balance := fun _ => Return funded;
     vendor_order := fun _ _ _ _ => Return accepted_order;
     vendor_profile := fun _ _ => Return issued_profile;
     ledger_note := fun _ => None;
     ledger_meta := fun _ => None |}.

(** An order-completed notification with two eSIM lines and one other
    line. *)
Definition japan_esim : LineItem :=
  {| name := Some "Japan eSIM 5GB";
     sku := Some "ESIM-JP-5";
     product_id := Some 31%Z;
     quantity := Some 1%Z |}.

Definition korea_esim : LineItem :=
  {| name := Some "Korea ESIM 3GB";
     sku := None;
     product_id := Some 32%Z;
     quantity := None |}.

Definition travel_adapter : LineItem :=
  {| name := Some "Travel adapter";
     sku := Some "ADAPTER-1";
     product_id := Some 7%Z;
     quantity := Some 2%Z |}.

Definition two_esim_order : OrderCompleted :=
  {| id := Some 42%Z;
     line_items := Some [japan_esim; travel_adapter; korea_esim] |}.

Import Reconciler.

Definition esim_in (s : Status) : Esim :=
  {| Reconciler.id := "ESIM-0A1B2C3D4E5F6071";
     order_id := "1001";
     user_id := "user-7";
     Reconciler.iccid := "X";
     activation_code := "K3J9ZQ0P1LMA8";
     qr_code := "https://api.qrserver.com/v1/create-qr-code/?data=esim:1";
     Reconciler.status := s;
     activated_at := None;
     deactivated_at := None;
     deactivation_reason := None;
     metadata :=
       [("ip_address", JString "203.0.113.7");
        ("user_agent", JString "okhttp/4.9")];
     updated_at := Date 100 |}.

(** A store holding [rows], at time 1000, that answers every call. *)
Definition store_of (rows : list Esim) : World :=
  {| clock := 1000;
     db_fault := fun _ => None;
     esims := rows;
     inserted := [];
     logger := [];
     queries := [] |}.

Definition event_for_X (tag : string) : WebhookData :=
  {| event := Some tag;
     w_iccid := Some "X";
     profileId := Some "P-1";
     activationTime := None;
     reason := None;
     usage := None;
     threshold := None;
     remaining := None;
     w_balance := None |}.


Definition owner : User := {| uid := "user-7"; role := "user" |}.

Definition usage_report : Json :=
  JObject [("usedMb", JNumber 512); ("totalMb", JNumber 5120)].

End Scenario.

(** ** Further collaborators, requests and stores *)

Module Cases.

Import Provisioning Reconciler.

(** A vendor that holds the funds and rejects every order. *)
Definition rejecting_vendor : Collaborators :=
  {| vendor_balance := fun _ => Return Scenario.funded;
     vendor_order :=
       fun _ _ _ _ => Throw (Js.Error_ "ESIM API error: 400");
     vendor_profile := fun _ _ => Return Scenario.issued_profile;
     ledger_note := fun _ => None;
     ledger_meta := fun _ => None |}.

(** A ledger that takes the notes and rejects the metadata. *)
Definition ledger_without_metadata : Collaborators :=
  {| vendor_balance := fun _ => Return Scenario.funded;
     vendor_order := fun _ _ _ _ => Return Scenario.accepted_order;
     vendor_profile := fun _ _ => Return Scenario.issued_profile;
     ledger_note := fun _ => None;
     ledger_meta :=
       fun _ => Some (Js.Error_ "Request failed with status code 500") |}.

(** A store that rejects its second call, the one after the audit row. *)
Definition store_losing_the_update (rows : list Esim) : World :=
  {| clock := 1000;
     db_fault :=
       fun n => if (n =? 1)%nat then Some "connection reset" else None;
     esims := rows;
     inserted := [];
     logger := [];
     queries := [] |}.

Definition low_balance_event : WebhookData :=
  {| event := Some "balance.low";
     w_iccid := None;
     profileId := None;
     activationTime := None;
     reason := None;
     usage := None;
     threshold := Some 50%Z;
     remaining := None;
     w_balance := Some 12%Z |}.

(** The token service and the profile table of the middleware. *)
Definition verify_any (token : string) : Completion Auth.Decoded :=
  if token =? "abc.def.ghi"
  then Return {| Auth.d_id := Some "user-1" |}
  else Throw (Js.mkError "JsonWebTokenError" "jwt malformed").

Definition admin_profile : Auth.Profile :=
  {| Auth.p_id := "user-1";
     Auth.p_email := Some "admin@example.com";
     Auth.p_full_name := None;
     Auth.p_role := Some "admin";
     Auth.p_is_active := true |}.

Definition find_admin (id : option string)
  : Completion (option string * option Auth.Profile) :=
  Return (None, Some admin_profile).

(** The controller's state over a store. *)
Definition db_of (rows : list Esim) : Controller.Db :=
  {| Controller.store := Scenario.store_of rows;
     Controller.controller_logs := [] |}.

Definition activation_request : Controller.Activation :=
  {| Controller.a_orderId := Some "1001";
     Controller.a_productId := Some "31";
     Controller.a_iccid := None;
     Controller.a_ip := Some "203.0.113.7";
     Controller.a_user_agent := None |}.

Definition first_draw : Controller.Fresh :=
  {| Controller.fresh_id := "0A1B2C3D4E5F6071";
     Controller.fresh_code := "K3J9ZQ0P1LMA8";
     Controller.fresh_digits := "4906110000000019" |}.

Definition second_draw : Controller.Fresh :=
  {| Controller.fresh_id := "9F8E7D6C5B4A3021";
     Controller.fresh_code := "Q7W2E5R8T1Y4U";
     Controller.fresh_digits := "1832750000000026" |}.

Definition order_row : Json :=
  JObject [("id", JString "1001"); ("user_id", JString "user-7")].

(** A second row for the order of [Scenario.esim_in]. *)
Definition twin (s : Status) : Esim :=
  {| Reconciler.id := "ESIM-FFFF000011112222";
     order_id := "1001";
     user_id := "user-7";
     Reconciler.iccid := "Y";
     activation_code := "Z0Z0Z0Z0Z0Z0Z";
     qr_code := "https://api.qrserver.com/v1/create-qr-code/?data=esim:2";
     Reconciler.status := s;
     activated_at := None;
     deactivated_at := None;
     deactivation_reason := None;
     metadata := [];
     updated_at := Date 100 |}.

(** A ledger that is down while the vendor account holds 5 against the
    threshold of 10. *)
Definition unfunded_with_ledger_down : Collaborators :=
  {| vendor_balance :=
       fun _ => Return {| balance := 5; currency := Some "USD" |};
     vendor_order := fun _ _ _ _ => Return Scenario.accepted_order;
     vendor_profile := fun _ _ => Return Scenario.issued_profile;
     ledger_note :=
       fun _ => Some (Js.Error_ "Request failed with status code 502");
     ledger_meta := fun _ => None |}.












End Cases.

(** * Facts about the orchestrator *)

Module ProvisioningFacts.

Import Provisioning.
Local Open Scope list_scope.
Local Open Scope js_scope.

(** ** How the combinators complete and what they issue *)

Section Run.
Context {A B : Type}.

Lemma outcome_ret (a : A) h : outcome (ret a) h = Return a.
Proof. reflexivity. Qed.

Lemma issued_ret (a : A) h : issued (ret a) h = [].
Proof. reflexivity. Qed.

Lemma outcome_throw e h : outcome (@throw A e) h = Throw e.
Proof. reflexivity. Qed.

Lemma issued_throw e h : issued (@throw A e) h = [].
Proof. reflexivity. Qed.

Lemma outcome_call e (ans : list Effect -> Completion A) h :
  outcome (call e ans) h = ans h.
Proof. reflexivity. Qed.

Lemma issued_call e (ans : list Effect -> Completion A) h :
  issued (call e ans) h = [e].
Proof. reflexivity. Qed.

Lemma outcome_bind (m : M A) (k : A -> M B) h :
  outcome (bind m k) h =
  match outcome m h with
  | Return a => outcome (k a) (h ++ issued m h)
  | Throw e => Throw e
  end.
Proof.
  unfold outcome, issued, bind, after.
  destruct (m h) as [[a|e] t]; cbn [fst snd]; [|reflexivity].
  now destruct (k a (h ++ t)).
Qed.

Lemma issued_bind (m : M A) (k : A -> M B) h :
  issued (bind m k) h =
  match outcome m h with
  | Return a => issued m h ++ issued (k a) (h ++ issued m h)
  | Throw e => issued m h
  end.
Proof.
  unfold outcome, issued, bind, after.
  destruct (m h) as [[a|e] t]; cbn [fst snd]; [|reflexivity].
  now destruct (k a (h ++ t)).
Qed.

Lemma outcome_try_catch (m : M A) handler h :
  outcome (try_catch m handler) h =
  match outcome m h with
  | Return a => Return a
  | Throw e => outcome (handler e) (h ++ issued m h)
  end.
Proof.
  unfold outcome, issued, try_catch, after.
  destruct (m h) as [[a|e] t]; cbn [fst snd]; [reflexivity|].
  now destruct (handler e (h ++ t)).
Qed.

Lemma issued_try_catch (m : M A) handler h :
  issued (try_catch m handler) h =
  match outcome m h with
  | Return a => issued m h
  | Throw e => issued m h ++ issued (handler e) (h ++ issued m h)
  end.
Proof.
  unfold outcome, issued, try_catch, after.
  destruct (m h) as [[a|e] t]; cbn [fst snd]; [reflexivity|].
  now destruct (handler e (h ++ t)).
Qed.

End Run.

Lemma outcome_emit e h : outcome (emit e) h = Return tt.
Proof. reflexivity. Qed.

Lemma issued_emit e h : issued (emit e) h = [e].
Proof. reflexivity. Qed.

(** Counting the calls of one kind. *)
Lemma calls_app kind h t :
  calls kind (h ++ t) = (calls kind h + calls kind t)%nat.
Proof. unfold calls. now rewrite filter_app, length_app. Qed.

Lemma calls_nil kind : calls kind [] = 0%nat.
Proof. reflexivity. Qed.

Lemma calls_cons kind e t :
  calls kind (e :: t) = ((if kind e then 1 else 0) + calls kind t)%nat.
Proof. unfold calls; simpl. destruct (kind e); reflexivity. Qed.

Lemma filter_quiet kind t : calls kind t = 0%nat -> filter kind t = [].
Proof. unfold calls. now destruct (filter kind t). Qed.

Create Rewrite HintDb run.
Create Rewrite HintDb tally.

#[local] Hint Rewrite @outcome_ret @issued_ret @outcome_throw @issued_throw
  @outcome_call @issued_call @outcome_bind @issued_bind
  @outcome_try_catch @issued_try_catch outcome_emit issued_emit app_nil_r : run.
#[local] Hint Rewrite calls_app calls_cons calls_nil Nat.add_0_r Nat.add_0_l
  : tally.

(** ** Pacing of a trace *)







(** ** The poll loop *)

Section Poll.
Variable env : Collaborators.

(** Each query of the loop comes right after the sleep before it. *)


(** The loop issues queries and sleeps only. *)
Lemma poll_loop_quiet kind n : forall i maxRetries o h,
  (forall o', kind (GetEsimByOrderNumber o') = false) ->
  (forall ms, kind (Sleep ms) = false) ->
  calls kind (issued (poll_loop env n i maxRetries o) h) = 0%nat.
Proof.
  induction n as [|n IH]; intros i mr o h Hp Hs; [reflexivity|].
  cbn [poll_loop]. unfold getEsimByOrderNumber, sleep.
  autorewrite with run.
  destruct (vendor_profile env (calls is_poll h) o) as [d|e]; autorewrite with run.
  - destruct (Js.truthy (iccid d)); autorewrite with run tally;
      rewrite ?Hp, ?Hs, ?IH; auto.
  - destruct (Nat.eqb i mr); autorewrite with run tally;
      rewrite ?Hp, ?Hs, ?IH; auto.
Qed.

(** The loop returns the first profile that carries an ICCID, after one
    query per attempt. *)
Lemma poll_loop_ready k : forall n i maxRetries o h d,
  (k < n)%nat -> (i + k <= maxRetries)%nat ->
  (forall j, (j < k)%nat -> not_ready (vendor_profile env (calls is_poll h + j) o)) ->
  vendor_profile env (calls is_poll h + k) o = Return d ->
  Js.truthy (iccid d) = true ->
  outcome (poll_loop env n i maxRetries o) h = Return (Some d) /\
  calls is_poll (issued (poll_loop env n i maxRetries o) h) = S k.
Proof.
  induction k as [|k IH]; intros n i mr o h d Hn Hi Hbefore Hk Hd.
  - destruct n as [|n]; [lia|].
    cbn [poll_loop]. unfold getEsimByOrderNumber, sleep.
    autorewrite with run. rewrite Nat.add_0_r in Hk. rewrite Hk.
    autorewrite with run. rewrite Hd. autorewrite with run. auto.
  - destruct n as [|n]; [lia|].
    assert (H0 := Hbefore 0%nat ltac:(lia)). rewrite Nat.add_0_r in H0.
    assert (Hstep : forall h', calls is_poll h' = S (calls is_poll h) ->
      outcome (poll_loop env n (S i) mr o) h' = Return (Some d) /\
      calls is_poll (issued (poll_loop env n (S i) mr o) h') = S k).
    { intros h' Hh'. apply IH; try lia; try exact Hd.
      - intros j Hj. rewrite Hh'. replace (S (calls is_poll h) + j)%nat with (calls is_poll h + S j)%nat by lia.
        apply Hbefore. lia.
      - rewrite Hh'. replace (S (calls is_poll h) + k)%nat with (calls is_poll h + S k)%nat by lia.
        exact Hk. }
    cbn [poll_loop]. unfold getEsimByOrderNumber, sleep.
    autorewrite with run.
    destruct (vendor_profile env (calls is_poll h) o) as [d0|e]; autorewrite with run.
    + simpl in H0. rewrite H0. autorewrite with run.
      destruct (Hstep ((h ++ [GetEsimByOrderNumber o]) ++ [Sleep (3000 * 2 ^ Z.of_nat i)])) as [Ho Hc].
      { autorewrite with tally. simpl. lia. }
      rewrite Ho. autorewrite with tally. rewrite Hc. simpl. auto.
    + assert (Hne : Nat.eqb i mr = false) by (apply Nat.eqb_neq; lia).
      rewrite Hne. autorewrite with run.
      destruct (Hstep ((h ++ [GetEsimByOrderNumber o]) ++ [Sleep (3000 * 2 ^ Z.of_nat i)])) as [Ho Hc].
      { autorewrite with tally. simpl. lia. }
      rewrite Ho. autorewrite with tally. rewrite Hc. simpl. auto.
Qed.

(** When every answer is a profile without ICCID the loop runs out and the
    function returns [undefined]. *)
Lemma poll_loop_pending n : forall i maxRetries o h,
  (forall j, (j < n)%nat -> pending (vendor_profile env (calls is_poll h + j) o)) ->
  outcome (poll_loop env n i maxRetries o) h = Return None /\
  calls is_poll (issued (poll_loop env n i maxRetries o) h) = n.
Proof.
  induction n as [|n IH]; intros i mr o h Hall; [auto|].
  destruct (Hall 0%nat ltac:(lia)) as [d0 [E0 F0]]. rewrite Nat.add_0_r in E0.
  cbn [poll_loop]. unfold getEsimByOrderNumber, sleep.
  autorewrite with run. rewrite E0. autorewrite with run. rewrite F0.
  autorewrite with run.
  destruct (IH (S i) mr o ((h ++ [GetEsimByOrderNumber o]) ++ [Sleep (3000 * 2 ^ Z.of_nat i)])) as [Ho Hc].
  { intros j Hj. autorewrite with tally. simpl.
    replace (calls is_poll h + 1 + j)%nat with (calls is_poll h + S j)%nat by lia.
    apply Hall. lia. }
  rewrite Ho. autorewrite with tally. rewrite Hc. simpl. auto.
Qed.

(** The loop never issues more queries than it has iterations. *)
Lemma poll_loop_bounded n : forall i maxRetries o h,
  (calls is_poll (issued (poll_loop env n i maxRetries o) h) <= n)%nat.
Proof.
  induction n as [|n IH]; intros i mr o h; [auto|].
  cbn [poll_loop]. unfold getEsimByOrderNumber, sleep.
  autorewrite with run.
  destruct (vendor_profile env (calls is_poll h) o) as [d|e]; autorewrite with run.
  - destruct (Js.truthy (iccid d)); autorewrite with run tally; simpl; try lia.
    match goal with
    | |- context [issued (poll_loop env n (S i) mr o) ?h'] =>
        specialize (IH (S i) mr o h'); lia
    end.
  - destruct (Nat.eqb i mr); autorewrite with run tally; simpl; try lia.
    match goal with
    | |- context [issued (poll_loop env n (S i) mr o) ?h'] =>
        specialize (IH (S i) mr o h'); lia
    end.
Qed.

End Poll.

Lemma prefix_app (s t : string) : prefix s (s ++ t)%string = true.
Proof.
  induction s as [|c s IH]; simpl; [now destruct t|].
  destruct (Ascii.ascii_dec c c); [exact IH|contradiction].
Qed.

(** ** The orchestrator *)

Section Orchestrator.
Variable env : Collaborators.

Lemma silent_ret {A} kind (a : A) : silent kind (ret a).
Proof. intro h. reflexivity. Qed.

Lemma silent_throw {A} kind e : silent kind (@throw A e).
Proof. intro h. reflexivity. Qed.

Lemma silent_emit kind e : kind e = false -> silent kind (emit e).
Proof. intros H h. cbn. unfold calls. simpl. now rewrite H. Qed.

Lemma silent_call {A} kind e (ans : list Effect -> Completion A) :
  kind e = false -> silent kind (call e ans).
Proof. intros H h. cbn. unfold calls. simpl. now rewrite H. Qed.

Lemma silent_bind {A B} kind (m : M A) (k : A -> M B) :
  silent kind m -> (forall a, silent kind (k a)) -> silent kind (bind m k).
Proof.
  intros Hm Hk h. rewrite issued_bind.
  destruct (outcome m h); [|apply Hm].
  rewrite calls_app, Hm, Hk. reflexivity.
Qed.

Lemma silent_try_catch {A} kind (m : M A) handler :
  silent kind m -> (forall e, silent kind (handler e)) ->
  silent kind (try_catch m handler).
Proof.
  intros Hm Hk h. rewrite issued_try_catch.
  destruct (outcome m h); [apply Hm|].
  rewrite calls_app, Hm, Hk. reflexivity.
Qed.

Lemma silent_poll_loop kind n i maxRetries o :
  (forall o', kind (GetEsimByOrderNumber o') = false) ->
  (forall ms, kind (Sleep ms) = false) ->
  silent kind (poll_loop env n i maxRetries o).
Proof. intros Hp Hs h. now apply poll_loop_quiet. Qed.



Ltac silence :=
  repeat first
    [ apply silent_bind; [|intro]
    | apply silent_try_catch; [|intro]
    | apply silent_ret
    | apply silent_throw
    | apply silent_emit; reflexivity
    | apply silent_call; reflexivity
    | apply silent_poll_loop; reflexivity
    | match goal with
      | |- silent _ (if ?b then _ else _) => destruct b
      | |- silent _ (match ?o with Some _ => _ | None => _ end) => destruct o
      end ].



(** ** Derivations of one run *)

Lemma runs_outcome {A} (m : M A) h r t : runs m h r t -> outcome m h = r.
Proof. unfold runs, outcome. now intros ->. Qed.

Lemma runs_issued {A} (m : M A) h r t : runs m h r t -> issued m h = t.
Proof. unfold runs, issued. now intros ->. Qed.

Lemma runs_intro {A} (m : M A) h r :
  outcome m h = r -> runs m h r (issued m h).
Proof. unfold runs, outcome, issued. intros <-. now destruct (m h). Qed.

Lemma runs_as {A} (m : M A) h r t t' :
  runs m h r t -> t = t' -> runs m h r t'.
Proof. now intros H <-. Qed.

Lemma runs_ret {A} (a : A) h : runs (ret a) h (Return a) [].
Proof. reflexivity. Qed.

Lemma runs_throw {A} e h : runs (@throw A e) h (Throw e) [].
Proof. reflexivity. Qed.

Lemma runs_emit e h : runs (emit e) h (Return tt) [e].
Proof. reflexivity. Qed.

Lemma runs_call {A} e (ans : list Effect -> Completion A) h r :
  ans h = r -> runs (call e ans) h r [e].
Proof. unfold runs, call. now intros ->. Qed.

Lemma runs_bind_return {A B} (m : M A) (k : A -> M B) h a t r t' :
  runs m h (Return a) t -> runs (k a) (h ++ t) r t' ->
  runs (bind m k) h r (t ++ t').
Proof.
  unfold runs, bind, after. intros -> ->. reflexivity.
Qed.

Lemma runs_bind_throw {A B} (m : M A) (k : A -> M B) h e t :
  runs m h (Throw e) t -> runs (bind m k) h (Throw e) t.
Proof. unfold runs, bind. now intros ->. Qed.

Lemma runs_try_return {A} (m : M A) handler h a t :
  runs m h (Return a) t -> runs (try_catch m handler) h (Return a) t.
Proof. unfold runs, try_catch. now intros ->. Qed.

Lemma runs_try_throw {A} (m : M A) handler h e t r t' :
  runs m h (Throw e) t -> runs (handler e) (h ++ t) r t' ->
  runs (try_catch m handler) h r (t ++ t').
Proof.
  unfold runs, try_catch, after. intros -> ->. reflexivity.
Qed.

Ltac tally :=
  repeat (autorewrite with tally;
          cbn [is_balance_query is_order_placement is_poll is_note
               is_meta_update]);
  rewrite ?poll_loop_quiet by reflexivity;
  autorewrite with tally.

Lemma ready_run z sku quantity h account order k details :
  vendor_balance env (calls is_balance_query h) = Return account ->
  (10 <= balance account)%Z ->
  vendor_order env (calls is_order_placement h) (Js.number_toString z) sku
    (default_quantity quantity) = Return order ->
  (k < 10)%nat ->
  (forall j, (j < k)%nat ->
     not_ready (vendor_profile env (calls is_poll h + j) (orderNumber order))) ->
  vendor_profile env (calls is_poll h + k) (orderNumber order) = Return details ->
  Js.truthy (iccid details) = true ->
  ledger_note env (calls is_note h) = None ->
  ledger_meta env (calls is_meta_update h) = None ->
  exists polls,
    calls is_poll polls = S k /\
    (forall kind,
       (forall o', kind (GetEsimByOrderNumber o') = false) ->
       (forall ms, kind (Sleep ms) = false) -> calls kind polls = 0%nat) /\
    runs (provisionEsim env (Some z) sku quantity) h (Return details)
      ([ConsoleLog ("🚀 Provisioning eSIM for order " ++ Js.number_toString z)%string;
        GetAccountBalance;
        OrderProfile (Js.number_toString z) sku (default_quantity quantity);
        Sleep 5000]
       ++ polls
       ++ [CreateOrderNote (Some z) (formatEsimNote details) true;
           UpdateOrderMeta (Some z)
             [("_esim_iccid", iccid details);
              ("_esim_qr_code", qrCode details);
              ("_esim_activation_link", activationLink details);
              ("_esim_status", Some "provisioned"%string)];
           ConsoleLog ("✅ eSIM provisioned for order " ++ Js.number_toString z)%string]).
Proof.
  intros Hb Hge Ho Hk Hbefore Hready Hd Hn Hm.
  apply Z.ltb_ge in Hge.
  set (h4 := (((h ++ [ConsoleLog ("🚀 Provisioning eSIM for order " ++ Js.number_toString z)%string])
               ++ [GetAccountBalance])
               ++ [OrderProfile (Js.number_toString z) sku (default_quantity quantity)])
               ++ [Sleep 5000]).
  assert (H4 : calls is_poll h4 = calls is_poll h) by (unfold h4; tally; reflexivity).
  destruct (poll_loop_ready env k 10 1 10 (orderNumber order) h4 details)
    as [Hout Hcount]; try lia; try assumption.
  { intros j Hj. rewrite H4. now apply Hbefore. }
  { now rewrite H4. }
  exists (issued (pollEsimStatus env (orderNumber order) 10) h4).
  split; [exact Hcount|]. split.
  { intros kind Hp Hs. now apply poll_loop_quiet. }
  unfold provisionEsim, getAccountBalance, orderProfile, createOrderNote,
    updateOrderMeta, toString, property_of, sleep, console_log, console_error.
  fold (default_quantity quantity).
  change (Js.interpolate_number (Some z)) with (Js.number_toString z).
  eapply (runs_bind_return _ _ _ _ [_]); [apply runs_emit|].
  apply runs_try_return.
  eapply (runs_bind_return _ _ _ _ [_]); [apply runs_call; tally; exact Hb|].
  rewrite Hge.
  eapply (runs_bind_return _ _ _ _ []); [apply runs_ret|].
  eapply (runs_bind_return _ _ _ _ []); [apply runs_ret|].
  rewrite !app_nil_r.
  eapply (runs_bind_return _ _ _ _ [_]); [apply runs_call; tally; exact Ho|].
  eapply (runs_bind_return _ _ _ _ [_]); [apply runs_emit|].
  eapply runs_bind_return; [apply runs_intro; exact Hout|].
  fold h4.
  eapply (runs_bind_return _ _ _ _ []); [apply runs_ret|].
  rewrite !app_nil_r.
  eapply (runs_bind_return _ _ _ _ [_]).
  { apply runs_call. unfold h4, pollEsimStatus. tally. rewrite Hn. reflexivity. }
  eapply (runs_bind_return _ _ _ _ [_]).
  { apply runs_call. unfold h4, pollEsimStatus. tally. rewrite Hm. reflexivity. }
  eapply (runs_bind_return _ _ _ _ [_]); [apply runs_emit|].
  apply runs_ret.
Qed.

(** The catch block of provisionEsim, from a known history. *)
Lemma recover_run orderId e h :
  runs (console_error "❌ Provisioning failed:" (Js.message e) ;;
        createOrderNote env orderId
          ("❌ eSIM provisioning failed: " ++ Js.message e)%string true ;;
        @throw EsimDetails e)%js
       h
       (rethrown (ledger_note env (calls is_note h)) e)
       [ConsoleError "❌ Provisioning failed:" (Js.message e);
        CreateOrderNote orderId (failure_note e) true].
Proof.
  unfold console_error, createOrderNote.
  eapply (runs_bind_return _ _ _ _ [_]); [apply runs_emit|].
  destruct (ledger_note env (calls is_note h)) as [e'|] eqn:E.
  - apply runs_bind_throw. apply runs_call. tally. now rewrite E.
  - eapply (runs_bind_return _ _ _ _ [_] _ []).
    + apply runs_call. tally. now rewrite E.
    + apply runs_throw.
Qed.

Lemma low_balance_run orderId sku quantity h account :
  vendor_balance env (calls is_balance_query h) = Return account ->
  (balance account < 10)%Z ->
  let e := Js.Error_ ("Insufficient balance: $"
                      ++ Js.number_toString (balance account))%string in
  runs (provisionEsim env orderId sku quantity) h
    (rethrown (ledger_note env (calls is_note h)) e)
    [ConsoleLog (start_line orderId);
     GetAccountBalance;
     ConsoleError "❌ Provisioning failed:" (Js.message e);
     CreateOrderNote orderId (failure_note e) true].
Proof.
  intros Hb Hlt e. apply Z.ltb_lt in Hlt.
  unfold provisionEsim.
  eapply (runs_bind_return _ _ _ _ [_]); [apply runs_emit|].
  eapply (runs_try_throw _ _ _ _ [_]).
  - unfold getAccountBalance.
    eapply (runs_bind_return _ _ _ _ [_] _ []); [apply runs_call; tally; exact Hb|].
    rewrite Hlt. apply runs_bind_throw. apply runs_throw.
  - replace (ledger_note env (calls is_note h))
      with (ledger_note env (calls is_note ((h ++ [ConsoleLog (start_line orderId)]) ++ [GetAccountBalance])))
      by (tally; reflexivity).
    apply recover_run.
Qed.

(** C7 (amended). When the balance query of a run answers a balance below
    10, the run fails and places no vendor order. The source has no
    InsufficientFunds error: the orchestrator raises a plain [Error] with
    the message [Insufficient balance: $<balance>], its catch block appends
    one failure note to the order and re-raises. That error is what the run
    fails with when the ledger accepts the failure note; when the ledger
    rejects the note, the run fails with the ledger's error instead. *)
Theorem insufficient_balance_places_no_order orderId sku quantity h account :
  vendor_balance env (calls is_balance_query h) = Return account ->
  (balance account < 10)%Z ->
  let run := provisionEsim env orderId sku quantity in
  let insufficient :=
    Js.Error_ ("Insufficient balance: $"
               ++ Js.number_toString (balance account))%string in
  calls is_order_placement (issued run h) = 0%nat /\
  filter is_note (issued run h)
    = [CreateOrderNote orderId (failure_note insufficient) true] /\
  outcome run h
    = match ledger_note env (calls is_note h) with
      | None => Throw insufficient
      | Some rejection => Throw rejection
      end.
Proof.
  intros Hb Hlt run insufficient.
  pose proof (low_balance_run orderId sku quantity h account Hb Hlt) as R.
  cbv zeta in R. subst run.
  rewrite (runs_outcome _ _ _ _ R), (runs_issued _ _ _ _ R).
  split; [reflexivity|]. split; [reflexivity|].
  unfold rethrown. now destruct (ledger_note env (calls is_note h)).
Qed.



(** C3 *)
Lemma pending_run z sku quantity h account order :
  vendor_balance env (calls is_balance_query h) = Return account ->
  (10 <= balance account)%Z ->
  vendor_order env (calls is_order_placement h) (Js.number_toString z) sku
    (default_quantity quantity) = Return order ->
  (forall j, (j < 10)%nat ->
     pending (vendor_profile env (calls is_poll h + j) (orderNumber order))) ->
  let h4 := h ++ [ConsoleLog (start_line (Some z)); GetAccountBalance;
                  OrderProfile (Js.number_toString z) sku (default_quantity quantity);
                  Sleep 5000] in
  let polls := issued (pollEsimStatus env (orderNumber order) 10) h4 in
  let e := Js.TypeError_undefined "iccid" in
  outcome (pollEsimStatus env (orderNumber order) 10) h4 = Return None /\
  calls is_poll polls = 10%nat /\
  runs (provisionEsim env (Some z) sku quantity) h
    (rethrown (ledger_note env (calls is_note h)) e)
    ([ConsoleLog (start_line (Some z)); GetAccountBalance;
      OrderProfile (Js.number_toString z) sku (default_quantity quantity);
      Sleep 5000]
     ++ polls
     ++ [ConsoleError "❌ Provisioning failed:" (Js.message e);
         CreateOrderNote (Some z) (failure_note e) true]).
Proof.
  intros Hb Hge Ho Hpending h4 polls e.
  apply Z.ltb_ge in Hge.
  assert (H4 : calls is_poll h4 = calls is_poll h) by (unfold h4; tally; reflexivity).
  destruct (poll_loop_pending env 10 1 10 (orderNumber order) h4) as [Hout Hcount].
  { intros j Hj. rewrite H4. now apply Hpending. }
  split; [exact Hout|]. split; [exact Hcount|].
  unfold provisionEsim.
  fold (default_quantity quantity). fold (start_line (Some z)).
  eapply (runs_bind_return _ _ _ _ [_]); [apply runs_emit|].
  eapply (runs_try_throw _ _ _ _ ([_; _; _] ++ polls)).
  - unfold getAccountBalance, orderProfile, toString, sleep, property_of.
    eapply runs_as.
    + eapply (runs_bind_return _ _ _ _ [_]); [apply runs_call; tally; exact Hb|].
      rewrite Hge.
      eapply (runs_bind_return _ _ _ _ []); [apply runs_ret|].
      eapply (runs_bind_return _ _ _ _ []); [apply runs_ret|].
      rewrite !app_nil_r.
      eapply (runs_bind_return _ _ _ _ [_]); [apply runs_call; tally; exact Ho|].
      eapply (runs_bind_return _ _ _ _ [_]); [apply runs_emit|].
      eapply (runs_bind_return _ _ _ _ polls _ []).
      * replace ((((h ++ [ConsoleLog (start_line (Some z))]) ++ [GetAccountBalance]) ++
                  [OrderProfile (Js.number_toString z) sku (default_quantity quantity)]) ++
                 [Sleep 5000]) with h4
          by (unfold h4; rewrite <- !app_assoc; reflexivity).
        apply runs_intro. exact Hout.
      * apply runs_bind_throw. apply runs_throw.
    + rewrite app_nil_r. reflexivity.
  - match goal with
    | |- runs _ ?hh _ _ =>
        replace (ledger_note env (calls is_note h))
          with (ledger_note env (calls is_note hh))
    end.
    + apply recover_run.
    + unfold polls, pollEsimStatus. tally. reflexivity.
Qed.

(** C3 (what the source does). When every one of the ten polls answers a
    profile without ICCID, [pollEsimStatus] issues exactly ten queries and
    then returns [undefined] without raising anything; [provisionEsim]
    fails only because [formatEsimNote] reads a property of that
    [undefined], with a TypeError and not with a timeout error. *)
Theorem pending_profile_ends_in_type_error z sku quantity h account order :
  vendor_balance env (calls is_balance_query h) = Return account ->
  (10 <= balance account)%Z ->
  vendor_order env (calls is_order_placement h) (Js.number_toString z) sku
    (default_quantity quantity) = Return order ->
  (forall j, (j < 10)%nat ->
     pending (vendor_profile env (calls is_poll h + j) (orderNumber order))) ->
  ledger_note env (calls is_note h) = None ->
  let run := provisionEsim env (Some z) sku quantity in
  let h4 := h ++ [ConsoleLog (start_line (Some z)); GetAccountBalance;
                  OrderProfile (Js.number_toString z) sku (default_quantity quantity);
                  Sleep 5000] in
  calls is_poll (issued run h) = 10%nat /\
  outcome (pollEsimStatus env (orderNumber order) 10) h4 = Return None /\
  outcome run h = Throw (Js.TypeError_undefined "iccid").
Proof.
  intros Hb Hge Ho Hpending Hn run h4.
  destruct (pending_run z sku quantity h account order Hb Hge Ho Hpending)
    as (Hout & Hcount & R).
  subst run. rewrite (runs_outcome _ _ _ _ R), (runs_issued _ _ _ _ R).
  rewrite Hn. split; [|split; [exact Hout|reflexivity]].
  rewrite !calls_app, Hcount. tally. lia.
Qed.

Lemma ready_at_orders z sku quantity h k details :
  ready_at env z sku quantity h k details ->
  outcome (provisionEsim env (Some z) sku quantity) h = Return details /\
  filter is_order_placement (issued (provisionEsim env (Some z) sku quantity) h)
   = [OrderProfile (Js.number_toString z) sku (default_quantity quantity)].
Proof.
  intros (account & order & Hb & Hge & Ho & Hk & Hbefore & Hready & Hd & Hn & Hm).
  destruct (ready_run z sku quantity h account order k details)
    as (polls & Hcount & Hquiet & R); try assumption.
  rewrite (runs_outcome _ _ _ _ R), (runs_issued _ _ _ _ R).
  split; [reflexivity|].
  rewrite !filter_app, (filter_quiet is_order_placement polls) by now apply Hquiet.
  reflexivity.
Qed.

(** C2 (what the source does). Two invocations for the same order and SKU,
    each finding the vendor ready, both run to completion and place two
    vendor orders with the same transaction id: nothing is looked up
    before the order is placed. *)
Theorem duplicate_trigger_places_two_orders z sku quantity h k1 d1 k2 d2 :
  let run := provisionEsim env (Some z) sku quantity in
  ready_at env z sku quantity h k1 d1 ->
  ready_at env z sku quantity (h ++ issued run h) k2 d2 ->
  outcome (run ;; run)%js h = Return d2 /\
  filter is_order_placement (issued (run ;; run)%js h)
   = [OrderProfile (Js.number_toString z) sku (default_quantity quantity);
      OrderProfile (Js.number_toString z) sku (default_quantity quantity)].
Proof.
  intros run H1 H2.
  destruct (ready_at_orders _ _ _ _ _ _ H1) as [O1 F1].
  destruct (ready_at_orders _ _ _ _ _ _ H2) as [O2 F2].
  fold run in O1, F1, O2, F2.
  rewrite outcome_bind, issued_bind, O1, filter_app, F1, F2, O2.
  split; reflexivity.
Qed.

Lemma provisionEsim_invoked_once orderId sku quantity h :
  calls is_invocation (issued (provisionEsim env orderId sku quantity) h) = 1%nat.
Proof.
  unfold provisionEsim, pollEsimStatus, getAccountBalance, orderProfile, createOrderNote,
    updateOrderMeta, toString, property_of, sleep, console_log, console_error.
  rewrite issued_bind, outcome_emit, issued_emit, calls_app.
  match goal with
  | |- (_ + calls _ (issued ?m _))%nat = _ =>
      assert (S : silent is_invocation m)
  end.
  { silence. }
  rewrite (S _). unfold calls. cbn [filter is_invocation].
  rewrite prefix_app. reflexivity.
Qed.

Lemma provision_item_invoked_once orderId item h :
  calls is_invocation (issued (provision_item env orderId item) h) = 1%nat.
Proof.
  unfold provision_item. rewrite issued_bind.
  destruct (outcome (provisionEsim env orderId (item_sku item) (quantity item)) h).
  - rewrite issued_ret, app_nil_r. apply provisionEsim_invoked_once.
  - apply provisionEsim_invoked_once.
Qed.

Lemma provision_item_outcome orderId item h :
  outcome (provision_item env orderId item) h =
  match outcome (provisionEsim env orderId (item_sku item) (quantity item)) h with
  | Return _ => Return tt
  | Throw e => Throw e
  end.
Proof.
  unfold provision_item. rewrite outcome_bind.
  now destruct (outcome (provisionEsim env orderId (item_sku item) (quantity item)) h).
Qed.

Lemma for_of_completes orderId items : forall h,
  outcome (for_of items (provision_item env orderId)) h = Return tt ->
  calls is_invocation (issued (for_of items (provision_item env orderId)) h)
  = length items.
Proof.
  induction items as [|x xs IH]; intros h H; [reflexivity|].
  cbn [for_of] in *. rewrite outcome_bind in H. rewrite issued_bind.
  destruct (outcome (provision_item env orderId x) h); [|discriminate].
  rewrite calls_app, provision_item_invoked_once, (IH _ H). reflexivity.
Qed.

Lemma for_of_stops orderId pre item post e : forall h,
  outcome (for_of pre (provision_item env orderId)) h = Return tt ->
  outcome (provision_item env orderId item)
    (h ++ issued (for_of pre (provision_item env orderId)) h) = Throw e ->
  outcome (for_of (pre ++ item :: post) (provision_item env orderId)) h = Throw e /\
  calls is_invocation
    (issued (for_of (pre ++ item :: post) (provision_item env orderId)) h)
  = S (length pre).
Proof.
  induction pre as [|x xs IH]; intros h Hpre Hitem.
  - cbn [for_of app] in *. rewrite issued_ret, app_nil_r in Hitem.
    rewrite outcome_bind, issued_bind, Hitem.
    split; [reflexivity|apply provision_item_invoked_once].
  - cbn [for_of app length] in *.
    rewrite outcome_bind in Hpre. rewrite issued_bind in Hitem.
    rewrite outcome_bind, issued_bind.
    destruct (outcome (provision_item env orderId x) h); [|discriminate].
    rewrite app_assoc in Hitem.
    destruct (IH _ Hpre Hitem) as [Ho Hc].
    rewrite Ho, calls_app, Hc, provision_item_invoked_once. split; reflexivity.
Qed.

Lemma processing_line_is_no_invocation body :
  is_invocation (ConsoleLog (processing_line body)) = false.
Proof. reflexivity. Qed.

(** C9 (amended). The handler answers 200 before anything else and never
    completes abruptly. When every invocation returns, the orchestrator is
    invoked once per line item whose name contains "esim". When the
    invocation for an item fails, the loop ends there: the items after it
    are not provisioned, and the error is written to the console only. *)
Theorem order_completed_dispatch body h :
  let run := handleWooCommerceOrderCompleted env body in
  let h1 := h ++ [ResJson 200 true; ConsoleLog (processing_line body)] in
  let provision := provision_item env (id body) in
  outcome run h = Return tt /\
  (exists rest, issued run h = ResJson 200 true :: rest) /\
  (outcome (for_of (esimItems body) provision) h1 = Return tt ->
   calls is_invocation (issued run h) = length (esimItems body)) /\
  (forall pre item post e,
     esimItems body = pre ++ item :: post ->
     outcome (for_of pre provision) h1 = Return tt ->
     outcome (provisionEsim env (id body) (item_sku item) (quantity item))
       (h1 ++ issued (for_of pre provision) h1) = Throw e ->
     calls is_invocation (issued run h) = S (length pre) /\
     exists t,
       issued run h = t ++ [ConsoleError "❌ Webhook error:" (Js.message e)]).
Proof.
  intros run h1 provision. subst provision.
  assert (Hh1 : (h ++ [ResJson 200 true]) ++ [ConsoleLog (processing_line body)] = h1).
  { unfold h1. now rewrite <- app_assoc. }
  assert (Hout : outcome run h =
                 match outcome (for_of (esimItems body) (provision_item env (id body))) h1 with
                 | Return _ => Return tt
                 | Throw _ => Return tt
                 end).
  { unfold run, handleWooCommerceOrderCompleted, console_log, console_error.
    fold (processing_line body).
    rewrite outcome_bind, outcome_emit, issued_emit, outcome_try_catch.
    rewrite outcome_bind, outcome_emit, issued_emit, Hh1.
    destruct (outcome (for_of (esimItems body) (provision_item env (id body))) h1) as [[]|e];
      [reflexivity|]. apply outcome_emit. }
  assert (Hiss : issued run h =
                 ResJson 200 true :: ConsoleLog (processing_line body)
                 :: issued (for_of (esimItems body) (provision_item env (id body))) h1
                 ++ match outcome (for_of (esimItems body) (provision_item env (id body))) h1 with
                    | Return _ => []
                    | Throw e => [ConsoleError "❌ Webhook error:" (Js.message e)]
                    end).
  { unfold run, handleWooCommerceOrderCompleted, console_log, console_error.
    fold (processing_line body).
    rewrite issued_bind, outcome_emit, issued_emit, issued_try_catch.
    rewrite outcome_bind, issued_bind, outcome_emit, issued_emit, Hh1.
    destruct (outcome (for_of (esimItems body) (provision_item env (id body))) h1) as [[]|e].
    - rewrite app_nil_r. reflexivity.
    - rewrite issued_emit. cbn [app]. reflexivity. }
  split; [|split; [|split]].
  - rewrite Hout. now destruct (outcome (for_of (esimItems body) (provision_item env (id body))) h1).
  - rewrite Hiss. eauto.
  - intros Hloop. rewrite Hiss, Hloop, app_nil_r.
    rewrite !calls_cons, processing_line_is_no_invocation.
    rewrite (for_of_completes _ _ _ Hloop). reflexivity.
  - intros pre item post e Hitems Hpre Hitem.
    assert (Hitem' : outcome ((provision_item env (id body)) item) (h1 ++ issued (for_of pre (provision_item env (id body))) h1)
                     = Throw e).
    { rewrite provision_item_outcome, Hitem. reflexivity. }
    destruct (for_of_stops (id body) pre item post e h1 Hpre Hitem') as [Ho Hc].
    rewrite Hiss, Hitems, Ho. split.
    + rewrite !calls_cons, calls_app, Hc, processing_line_is_no_invocation.
      cbn. lia.
    + exists (ResJson 200 true :: ConsoleLog (processing_line body)
              :: issued (for_of (pre ++ item :: post) (provision_item env (id body))) h1).
      reflexivity.
Qed.
End Orchestrator.


(** ** The statements on concrete runs *)



(** C7 on the scenario of the design: balance 5 against the threshold 10,
    with a ledger that takes the failure note. *)
Lemma insufficient_balance_witness :
  let run := provisionEsim Scenario.short_of_funds (Some 42%Z) "ESIM-JP-5" None in
  let insufficient := Js.Error_ "Insufficient balance: $5" in
  calls is_order_placement (issued run []) = 0%nat /\
  filter is_note (issued run [])
    = [CreateOrderNote (Some 42%Z) (failure_note insufficient) true] /\
  outcome run [] = Throw insufficient.
Proof.
  apply (insufficient_balance_places_no_order Scenario.short_of_funds
           (Some 42%Z) "ESIM-JP-5" None []
           {| balance := 5; currency := Some "USD"%string |}).
  - reflexivity.
  - simpl. lia.
Defined.

(** C7, as stated, fails: with the same balance and a ledger that rejects
    the failure note, the run places no order but fails with the ledger's
    error, not with the insufficient-balance error. *)
Lemma ledger_rejection_replaces_the_balance_error :
  let run :=
    provisionEsim Cases.unfunded_with_ledger_down (Some 42%Z) "ESIM-JP-5"
      None in
  vendor_balance Cases.unfunded_with_ledger_down 0
    = Return {| balance := 5; currency := Some "USD"%string |} /\
  calls is_order_placement (issued run []) = 0%nat /\
  outcome run [] = Throw (Js.Error_ "Request failed with status code 502") /\
  outcome run [] <> Throw (Js.Error_ "Insufficient balance: $5").
Proof.
  cbv zeta. repeat split; try (vm_compute; reflexivity).
  intros H. vm_compute in H. discriminate H.
Qed.



(** C3 on the vendor that is never ready: ten queries, [undefined] from
    [pollEsimStatus], a TypeError from [provisionEsim]. *)
Lemma pending_profile_witness :
  let run := provisionEsim Scenario.never_ready (Some 42%Z) "ESIM-JP-5" None in
  let h4 := [ConsoleLog (start_line (Some 42%Z)); GetAccountBalance;
             OrderProfile "42" "ESIM-JP-5" 1; Sleep 5000] in
  calls is_poll (issued run []) = 10%nat /\
  outcome (pollEsimStatus Scenario.never_ready (Some "ON-42"%string) 10) h4
    = Return None /\
  outcome run []
    = Throw (Js.mkError "TypeError"
               "Cannot read properties of undefined (reading 'iccid')").
Proof.
  apply (pending_profile_ends_in_type_error Scenario.never_ready 42%Z
           "ESIM-JP-5" None [] Scenario.funded Scenario.accepted_order).
  - reflexivity.
  - simpl. lia.
  - reflexivity.
  - intros j _. exists Scenario.pending_profile. split; reflexivity.
  - reflexivity.
Defined.

Lemma ready_at_once_is_ready h :
  ready_at Scenario.ready_at_once 42 "ESIM-JP-5" None h 0
    Scenario.issued_profile.
Proof.
  exists Scenario.funded, Scenario.accepted_order.
  repeat split; try reflexivity; simpl; try lia.
Defined.

(** C2 on a vendor that is ready at once: the second trigger for order 42
    places a second vendor order. *)
Lemma duplicate_trigger_witness :
  let run := provisionEsim Scenario.ready_at_once (Some 42%Z) "ESIM-JP-5" None in
  outcome (run ;; run)%js [] = Return Scenario.issued_profile /\
  filter is_order_placement (issued (run ;; run)%js [])
    = [OrderProfile "42" "ESIM-JP-5" 1; OrderProfile "42" "ESIM-JP-5" 1].
Proof.
  apply (duplicate_trigger_places_two_orders Scenario.ready_at_once 42%Z
           "ESIM-JP-5" None [] 0 Scenario.issued_profile 0
           Scenario.issued_profile);
    apply ready_at_once_is_ready.
Defined.

(** C9, as stated, fails: the order has two eSIM lines, the invocation for
    the first fails on the balance, and the orchestrator is not invoked for
    the second. *)
Lemma failed_item_ends_the_loop :
  let run :=
    handleWooCommerceOrderCompleted Scenario.short_of_funds
      Scenario.two_esim_order in
  esimItems Scenario.two_esim_order
    = [Scenario.japan_esim; Scenario.korea_esim] /\
  calls is_invocation (issued run []) = 1%nat /\
  calls is_balance_query (issued run []) = 1%nat.
Proof. vm_compute. repeat split. Qed.

(** The dispatch theorem on that order: one invocation, and the error on
    the console. *)
Lemma order_completed_witness :
  let run :=
    handleWooCommerceOrderCompleted Scenario.short_of_funds
      Scenario.two_esim_order in
  calls is_invocation (issued run []) = 1%nat /\
  exists t,
    issued run []
    = t ++ [ConsoleError "❌ Webhook error:" "Insufficient balance: $5"].
Proof.
  apply (proj2 (proj2 (proj2
           (order_completed_dispatch Scenario.short_of_funds
              Scenario.two_esim_order [])))
           [] Scenario.japan_esim [Scenario.korea_esim]
           (Js.Error_ "Insufficient balance: $5")).
  - reflexivity.
  - reflexivity.
  - vm_compute. reflexivity.
Defined.

End ProvisioningFacts.

(** * Facts about the reconciler *)

Module ReconcilerFacts.

Import Reconciler.
Local Open Scope list_scope.

Section Fields.
Variables (w : World).

Lemma log_with_fields lvl txt d :
  clock (log_with lvl txt d w) = clock w /\
  db_fault (log_with lvl txt d w) = db_fault w /\
  esims (log_with lvl txt d w) = esims w /\
  inserted (log_with lvl txt d w) = inserted w /\
  queries (log_with lvl txt d w) = queries w /\
  logger (log_with lvl txt d w)
    = logger w ++ [{| level := lvl; text := txt; detail := d |}].
Proof. repeat split. Qed.

Lemma insert_fields table r :
  fst (insert table r w) = next_fault w /\
  clock (snd (insert table r w)) = clock w /\
  db_fault (snd (insert table r w)) = db_fault w /\
  esims (snd (insert table r w)) = esims w /\
  logger (snd (insert table r w)) = logger w /\
  queries (snd (insert table r w)) = queries w ++ [Insert table] /\
  inserted (snd (insert table r w))
    = match next_fault w with
      | None => inserted w ++ [(table, r)]
      | Some _ => inserted w
      end.
Proof. repeat split. Qed.

Lemma update_esims_fields p value :
  fst (update_esims p value w) = next_fault w /\
  clock (snd (update_esims p value w)) = clock w /\
  db_fault (snd (update_esims p value w)) = db_fault w /\
  inserted (snd (update_esims p value w)) = inserted w /\
  logger (snd (update_esims p value w)) = logger w /\
  queries (snd (update_esims p value w))
    = queries w ++ [Update "esims" "iccid" value] /\
  esims (snd (update_esims p value w))
    = match next_fault w with
      | None => rewritten p value (esims w)
      | Some _ => esims w
      end.
Proof. repeat split. Qed.

Lemma select_fields value :
  clock (snd (select_user_id_single value w)) = clock w /\
  db_fault (snd (select_user_id_single value w)) = db_fault w /\
  esims (snd (select_user_id_single value w)) = esims w /\
  inserted (snd (select_user_id_single value w)) = inserted w /\
  logger (snd (select_user_id_single value w)) = logger w /\
  queries (snd (select_user_id_single value w))
    = queries w ++ [SelectSingle "esims" "user_id" "iccid" value].
Proof. repeat split. Qed.

End Fields.

Lemma step_refl w : Step w w.
Proof. split; auto. exists []. now rewrite app_nil_r. Qed.

Lemma step_trans w1 w2 w3 : Step w1 w2 -> Step w2 w3 -> Step w1 w3.
Proof.
  intros [c1 f1 [q1 Q1] a1] [c2 f2 [q2 Q2] a2]. split; try congruence.
  exists (q1 ++ q2). now rewrite Q2, Q1, app_assoc.
Qed.

Lemma step_log lvl txt d w : Step w (log_with lvl txt d w).
Proof. split; auto. exists []. cbn. now rewrite app_nil_r. Qed.

Lemma step_update p v w : Step w (snd (update_esims p v w)).
Proof. split; auto. now exists [Update "esims" "iccid" v]. Qed.

Lemma step_select v w : Step w (snd (select_user_id_single v w)).
Proof. split; auto. now eexists. Qed.

Lemma rows_of_insert table table' r w :
  rows_of table (snd (insert table' r w))
  = match next_fault w with
    | None => rows_of table w ++ (if (table' =? table)%string then [r] else [])
    | Some _ => rows_of table w
    end.
Proof.
  unfold rows_of. rewrite (proj2 (proj2 (proj2 (proj2 (proj2 (proj2 (insert_fields w table' r))))))).
  destruct (next_fault w); [reflexivity|].
  rewrite filter_app, map_app. cbn [filter fst].
  destruct (table' =? table)%string; reflexivity.
Qed.

Lemma step_insert table r w :
  (table =? "system_logs")%string = false -> Step w (snd (insert table r w)).
Proof.
  intros H. split; auto.
  - now exists [Insert table].
  - rewrite rows_of_insert, H. destruct (next_fault w); [reflexivity|apply app_nil_r].
Qed.

Lemma handleProfileActivated_step data w : Step w (handleProfileActivated data w).
Proof.
  unfold handleProfileActivated.
  pose proof (step_update (activated_update data (new_Date w)) (eq_value (w_iccid data)) w) as S1.
  destruct (update_esims _ _ w) as [error w1]. cbn [snd] in S1.
  destruct error.
  - eapply step_trans; [exact S1|apply step_log].
  - pose proof (step_insert "esim_activation_logs"
                  (ActivationLog (profileId data) "ACTIVATED" data (new_Date w1)) w1 eq_refl) as S2.
    destruct (insert _ _ w1) as [ignored w2]. cbn [snd] in S2.
    eapply step_trans; [exact S1|]. eapply step_trans; [exact S2|apply step_log].
Qed.

Lemma handleUsageThreshold_step data w : Step w (handleUsageThreshold data w).
Proof.
  unfold handleUsageThreshold.
  pose proof (step_select (eq_value (w_iccid data)) w) as S1.
  destruct (select_user_id_single _ w) as [esim w1]. cbn [snd] in S1.
  destruct esim; [|exact S1].
  eapply step_trans; [exact S1|]. now apply step_insert.
Qed.

Lemma dispatch_step data w : Step w (dispatch data w).
Proof.
  unfold dispatch. destruct (event data) as [tag|]; [|apply step_log].
  repeat match goal with
         | |- Step _ (if ?b then _ else _) => destruct b
         end;
    try apply handleProfileActivated_step;
    try apply handleUsageThreshold_step;
    try apply step_update; try apply step_log.
  now apply step_insert.
Qed.

Lemma webhook_object data w :
  webhook (Return (WObject data)) w
  = ({| status_code := 200;
        body := Received (new_Date w) |},
     dispatch data (audited (WObject data) w)).
Proof.
  unfold webhook, audited, audit_row.
  change (new_Date (logger_info "Received ESIM webhook:" (WebhookDetail (WObject data)) w))
    with (new_Date w).
  destruct (insert _ _ _) as [ignored w2] eqn:E. cbn [snd].
  f_equal. f_equal. f_equal. unfold new_Date. f_equal.
  rewrite (step_clock _ _ (dispatch_step data w2)).
  replace w2 with (snd (insert "system_logs"
     (SystemLog "info" "esim-webhook" "Webhook received" (WObject data) (new_Date w))
     (logger_info "Received ESIM webhook:" (WebhookDetail (WObject data)) w)))
    by now rewrite E.
  reflexivity.
Qed.

Lemma audited_fields v w :
  clock (audited v w) = clock w /\
  db_fault (audited v w) = db_fault w /\
  esims (audited v w) = esims w /\
  queries (audited v w) = queries w ++ [Insert "system_logs"] /\
  inserted (audited v w)
  = match next_fault w with
    | None => inserted w ++ [("system_logs", audit_row v w)]
    | Some _ => inserted w
    end.
Proof. repeat split. Qed.

Lemma available_audited v w : store_available w -> store_available (audited v w).
Proof. intros H n. apply H. Qed.

Lemma esims_handleProfileActivated data w :
  esims (handleProfileActivated data w)
  = esims (snd (update_esims (activated_update data (new_Date w))
                  (eq_value (w_iccid data)) w)).
Proof.
  unfold handleProfileActivated.
  destruct (update_esims _ _ w) as [error w1]. cbn [snd].
  destruct error; [reflexivity|].
  destruct (insert _ _ w1) as [ignored w2] eqn:E.
  change (esims w2 = esims w1).
  replace w2 with (snd (insert "esim_activation_logs"
     (ActivationLog (profileId data) "ACTIVATED" data (new_Date w1)) w1))
    by now rewrite E.
  reflexivity.
Qed.

Lemma dispatch_lifecycle data w tag p :
  event data = Some tag ->
  lifecycle_update tag data (new_Date w) = Some p ->
  esims (dispatch data w)
  = match next_fault w with
    | None => rewritten p (eq_value (w_iccid data)) (esims w)
    | Some _ => esims w
    end.
Proof.
  intros Hev Hp. unfold dispatch. rewrite Hev.
  unfold lifecycle_update in Hp.
  repeat match type of Hp with
         | (if ?b then _ else _) = _ => destruct b
         end; try discriminate; injection Hp as <-;
    try rewrite esims_handleProfileActivated; reflexivity.
Qed.









Lemma webhook_always_200 parsed w :
  status_code (fst (webhook parsed w)) = 200%Z.
Proof.
  unfold webhook. destruct parsed as [v|error]; [|reflexivity].
  destruct (insert _ _ _) as [ignored w2]. now destruct v.
Qed.




Lemma activation_logged data w :
  event data = Some "profile.activated" ->
  store_available w ->
  esim_activation_logs (snd (webhook (Return (WObject data)) w))
  = esim_activation_logs w
    ++ [ActivationLog (profileId data) "ACTIVATED" data (new_Date w)].
Proof.
  intros Hev Havail. rewrite webhook_object. cbn [snd].
  unfold dispatch. rewrite Hev. cbn [String.eqb Ascii.eqb Bool.eqb].
  unfold handleProfileActivated.
  set (w2 := audited (WObject data) w).
  assert (A2 : store_available w2) by now apply available_audited.
  destruct (update_esims _ _ w2) as [error w3] eqn:E3.
  assert (F3 : error = None).
  { replace error with (fst (update_esims (activated_update data (new_Date w2))
                               (eq_value (w_iccid data)) w2)) by now rewrite E3.
    apply A2. }
  assert (W3 : w3 = snd (update_esims (activated_update data (new_Date w2))
                           (eq_value (w_iccid data)) w2)) by now rewrite E3.
  subst error.
  destruct (insert _ _ w3) as [ignored w4] eqn:E4.
  assert (W4 : w4 = snd (insert "esim_activation_logs"
                 (ActivationLog (profileId data) "ACTIVATED" data (new_Date w3)) w3))
    by now rewrite E4.
  unfold esim_activation_logs.
  change (rows_of "esim_activation_logs" w4
          = rows_of "esim_activation_logs" w
            ++ [ActivationLog (profileId data) "ACTIVATED" data (new_Date w)]).
  rewrite W4, rows_of_insert.
  assert (N3 : next_fault w3 = None) by (rewrite W3; apply A2).
  rewrite N3. cbn [String.eqb Ascii.eqb Bool.eqb].
  rewrite W3.
  change (rows_of "esim_activation_logs" (snd (update_esims _ _ w2)))
    with (rows_of "esim_activation_logs" w2).
  unfold w2, audited. rewrite rows_of_insert.
  change (next_fault (logger_info "Received ESIM webhook:" (WebhookDetail (WObject data)) w))
    with (next_fault w).
  replace (next_fault w) with (@None string) by (symmetry; apply Havail).
  cbn [String.eqb Ascii.eqb Bool.eqb]. rewrite app_nil_r.
  reflexivity.
Qed.




Lemma only_key_serialise key v : only_key key (serialise [(key, v)]).
Proof.
  intros k v' H. destruct v as [j|]; cbn in H; [|contradiction].
  destruct H as [[= <- _]|[]]. reflexivity.
Qed.

Lemma usage_route_ok user x usage_data w e0 :
  next_fault w = None ->
  db_fault w (S (length (queries w))) = None ->
  filter (fun e => iccid e =? x)%string (esims w) = [e0] ->
  user_id e0 = uid user \/ role user = "admin"%string ->
  let p := usage_update [("user_id", JString (user_id e0))] usage_data (new_Date w) in
  fst (usage_route user x (Return usage_data) w)
    = {| status_code := 200; body := Success usage_data |} /\
  esims (snd (usage_route user x (Return usage_data) w))
    = rewritten p x (esims w).
Proof.
  intros F0 F1 Hone Hauth p.
  unfold usage_route.
  destruct (select_user_id_single x w) as [esim w1] eqn:E1.
  assert (W1 : w1 = snd (select_user_id_single x w)) by now rewrite E1.
  assert (D1 : esim = Some [("user_id", JString (user_id e0))]).
  { replace esim with (fst (select_user_id_single x w)) by now rewrite E1.
    unfold select_user_id_single. cbn [fst]. rewrite F0, Hone. reflexivity. }
  subst esim.
  assert (Hgate : differs_from (get "user_id" [("user_id", JString (user_id e0))]) (uid user)
                  && negb (role user =? "admin")%string = false).
  { cbn [get String.eqb Ascii.eqb Bool.eqb differs_from].
    destruct Hauth as [-> | ->].
    - now rewrite String.eqb_refl.
    - rewrite String.eqb_refl. apply andb_false_r. }
  rewrite Hgate.
  destruct (update_esims _ _ w1) as [ignored w2] eqn:E2.
  cbn [fst snd]. split; [reflexivity|].
  replace w2 with (snd (update_esims
      (usage_update [("user_id", JString (user_id e0))] usage_data (new_Date w1)) x w1))
    by now rewrite E2.
  rewrite (proj2 (proj2 (proj2 (proj2 (proj2 (proj2 (update_esims_fields w1 _ x))))))).
  rewrite W1. unfold next_fault.
  cbn [select_user_id_single snd db_fault queries esims].
  rewrite length_app, Nat.add_1_r, F1. reflexivity.
Qed.

(** C10. The suspended and unsuspended handlers and the usage endpoint
    replace the stored metadata map of every matching entity by an object
    holding only the key they write ([suspension_reason], [last_usage]):
    the new map does not depend on the old one, and the id, ICCID, owning
    user and owning order stay (the status too, but for the handlers' own
    write). *)
Theorem metadata_write_replaces_the_map w data user x usage_data e0 :
  store_available w ->
  filter (fun e => iccid e =? x)%string (esims w) = [e0] ->
  user_id e0 = uid user \/ role user = "admin"%string ->
  let now := new_Date w in
  let by_suspended := suspended_update data now in
  let by_unsuspended := unsuspended_update now in
  let by_usage := usage_update [("user_id", JString (user_id e0))] usage_data now in
  (esims (handleProfileSuspended data w)
     = rewritten by_suspended (eq_value (w_iccid data)) (esims w) /\
   forall e,
     metadata (apply_patch by_suspended e)
       = serialise [("suspension_reason", option_map JString (reason data))] /\
     only_key "suspension_reason" (metadata (apply_patch by_suspended e)) /\
     keeps_identity e (apply_patch by_suspended e) /\
     status (apply_patch by_suspended e) = SUSPENDED) /\
  (esims (handleProfileUnsuspended data w)
     = rewritten by_unsuspended (eq_value (w_iccid data)) (esims w) /\
   forall e,
     metadata (apply_patch by_unsuspended e) = [("suspension_reason", JNull)] /\
     keeps_identity e (apply_patch by_unsuspended e) /\
     status (apply_patch by_unsuspended e) = ACTIVE) /\
  (fst (usage_route user x (Return usage_data) w)
     = {| status_code := 200; body := Success usage_data |} /\
   esims (snd (usage_route user x (Return usage_data) w))
     = rewritten by_usage x (esims w) /\
   forall e,
     metadata (apply_patch by_usage e) = [("last_usage", usage_data)] /\
     keeps_identity e (apply_patch by_usage e) /\
     status (apply_patch by_usage e) = status e).
Proof.
  intros Havail Hone Hauth now by_suspended by_unsuspended by_usage.
  split; [|split].
  - split.
    + unfold handleProfileSuspended.
      rewrite (proj2 (proj2 (proj2 (proj2 (proj2 (proj2 (update_esims_fields w _ _))))))).
      unfold next_fault. now rewrite Havail.
    + intros e. split; [reflexivity|]. split; [apply only_key_serialise|].
      split; [repeat split|reflexivity].
  - split.
    + unfold handleProfileUnsuspended.
      rewrite (proj2 (proj2 (proj2 (proj2 (proj2 (proj2 (update_esims_fields w _ _))))))).
      unfold next_fault. now rewrite Havail.
    + intros e. split; [reflexivity|]. split; [repeat split|reflexivity].
  - destruct (usage_route_ok user x usage_data w e0) as [R1 R2]; try assumption;
      try apply Havail.
    split; [exact R1|]. split; [exact R2|].
    intros e. split; [reflexivity|]. split; [repeat split|reflexivity].
Qed.


(** ** The statements on concrete stores *)







(** C10 on an entity that holds two metadata keys: after the usage check
    its metadata is the single key [last_usage]. *)
Lemma metadata_write_witness :
  let w := Scenario.store_of [Scenario.esim_in ACTIVE] in
  let result :=
    usage_route Scenario.owner "X" (Return Scenario.usage_report) w in
  map metadata (esims w)
    = [[("ip_address"%string, JString "203.0.113.7");
        ("user_agent"%string, JString "okhttp/4.9")]] /\
  map metadata (esims (snd result))
    = [[("last_usage"%string, Scenario.usage_report)]] /\
  map metadata
    (esims (handleProfileSuspended
              (Scenario.event_for_X "profile.suspended") w))
    = [[]].
Proof.
  pose proof (metadata_write_replaces_the_map
                (Scenario.store_of [Scenario.esim_in ACTIVE])
                (Scenario.event_for_X "profile.suspended")
                Scenario.owner "X" Scenario.usage_report
                (Scenario.esim_in ACTIVE)
                (fun n => eq_refl) eq_refl (or_introl eq_refl)) as H.
  cbv zeta in H. destruct H as ((Hs & _) & _ & (_ & Hu & _)).
  split; [reflexivity|]. split.
  - rewrite Hu. reflexivity.
  - rewrite Hs. reflexivity.
Defined.

End ReconcilerFacts.

(** * Further properties

    What else the code shows: the other paths of the orchestrator and of
    the reconciler, and the routes and middlewares around them. *)

Module ProvisioningMore.

Import Js Provisioning ProvisioningFacts Terms.
Local Open Scope string_scope.
Local Open Scope list_scope.
Local Open Scope js_scope.

#[local] Hint Rewrite @outcome_ret @issued_ret @outcome_throw @issued_throw
  @outcome_call @issued_call @outcome_bind @issued_bind
  @outcome_try_catch @issued_try_catch outcome_emit issued_emit app_nil_r : run.
#[local] Hint Rewrite calls_app calls_cons calls_nil Nat.add_0_r Nat.add_0_l
  : tally.

Section More.
Variable env : Collaborators.

Lemma bind_returns {A B} (m : M A) (k : A -> M B) h b :
  outcome (bind m k) h = Return b ->
  exists a, outcome m h = Return a /\
            outcome (k a) (h ++ issued m h) = Return b.
Proof.
  rewrite outcome_bind. destruct (outcome m h) as [a|e]; [|discriminate].
  intros H. now exists a.
Qed.

(** A result of the loop carries an ICCID and took between one and
    [n] queries. *)
Lemma poll_loop_returns n : forall i maxRetries o h d,
  outcome (poll_loop env n i maxRetries o) h = Return (Some d) ->
  Js.truthy (iccid d) = true /\
  (1 <= calls is_poll (issued (poll_loop env n i maxRetries o) h) <= n)%nat.
Proof.
  induction n as [|n IH]; intros i mr o h d; [discriminate|].
  cbn [poll_loop]. unfold getEsimByOrderNumber, sleep.
  autorewrite with run.
  destruct (vendor_profile env (calls is_poll h) o) as [d0|e]; autorewrite with run.
  - destruct (Js.truthy (iccid d0)) eqn:T; autorewrite with run tally; cbn [is_poll].
    + intros [= <-]. split; [exact T|]. simpl. lia.
    + intros H. apply IH in H. destruct H as [Ht Hc]. split; [exact Ht|].
      cbn [is_poll]. lia.
  - destruct (Nat.eqb i mr); autorewrite with run tally; cbn [is_poll].
    + discriminate.
    + intros H. apply IH in H. destruct H as [Ht Hc]. split; [exact Ht|].
      cbn [is_poll]. lia.
Qed.


Lemma try_catch_returns {A} (m : M A) handler h a :
  outcome (try_catch m handler) h = Return a ->
  (forall e h', outcome (handler e) h' <> Return a) ->
  outcome m h = Return a /\ issued (try_catch m handler) h = issued m h.
Proof.
  rewrite outcome_try_catch, issued_try_catch.
  destruct (outcome m h) as [a'|e]; intros H Hh.
  - now injection H as ->.
  - now apply Hh in H.
Qed.

Lemma recovery_never_returns orderId e h (d : EsimDetails) :
  outcome (console_error "❌ Provisioning failed:" (Js.message e) ;;
           createOrderNote env orderId
             ("❌ eSIM provisioning failed: " ++ Js.message e)%string true ;;
           @throw EsimDetails e) h <> Return d.
Proof.
  rewrite (runs_outcome _ _ _ _ (recover_run env orderId e h)).
  unfold rethrown. destruct (ledger_note env (calls is_note h)); discriminate.
Qed.


Ltac tally :=
  repeat (autorewrite with tally;
          cbn [is_balance_query is_order_placement is_poll is_note
               is_meta_update]);
  rewrite ?poll_loop_quiet by reflexivity;
  autorewrite with tally.

Lemma returned_run z sku quantity h account order details :
  vendor_balance env (calls is_balance_query h) = Return account ->
  (balance account <? 10)%Z = false ->
  vendor_order env (calls is_order_placement h) (Js.number_toString z) sku
    (default_quantity quantity) = Return order ->
  outcome (pollEsimStatus env (orderNumber order) 10)
    (before_polling h (Some z) (Js.number_toString z) sku quantity)
    = Return (Some details) ->
  ledger_note env (calls is_note h) = None ->
  ledger_meta env (calls is_meta_update h) = None ->
  runs (provisionEsim env (Some z) sku quantity) h (Return details)
    ([ConsoleLog (start_line (Some z)); GetAccountBalance;
      OrderProfile (Js.number_toString z) sku (default_quantity quantity);
      Sleep 5000]
     ++ issued (pollEsimStatus env (orderNumber order) 10)
          (before_polling h (Some z) (Js.number_toString z) sku quantity)
     ++ [CreateOrderNote (Some z) (formatEsimNote details) true;
         UpdateOrderMeta (Some z) (provisioning_metadata details);
         ConsoleLog (success_line (Some z))]).
Proof.
  intros Hb Hge Ho Hout Hn Hm.
  set (h4 := before_polling h (Some z) (Js.number_toString z) sku quantity) in *.
  assert (E4 : (((h ++ [ConsoleLog (start_line (Some z))]) ++ [GetAccountBalance])
                ++ [OrderProfile (Js.number_toString z) sku (default_quantity quantity)])
               ++ [Sleep 5000] = h4).
  { unfold h4, before_polling. rewrite <- !app_assoc. reflexivity. }
  unfold provisionEsim, getAccountBalance, orderProfile, createOrderNote,
    updateOrderMeta, toString, property_of, sleep, console_log, console_error.
  eapply (runs_bind_return _ _ _ _ [_]); [apply runs_emit|].
  apply runs_try_return.
  eapply (runs_bind_return _ _ _ _ [_]); [apply runs_call; tally; exact Hb|].
  rewrite Hge.
  eapply (runs_bind_return _ _ _ _ []); [apply runs_ret|].
  eapply (runs_bind_return _ _ _ _ []); [apply runs_ret|].
  rewrite !app_nil_r.
  eapply (runs_bind_return _ _ _ _ [_]); [apply runs_call; tally; exact Ho|].
  eapply (runs_bind_return _ _ _ _ [_]); [apply runs_emit|].
  change (ConsoleLog ("🚀 Provisioning eSIM for order " ++ Js.interpolate_number (Some z))%string)
    with (ConsoleLog (start_line (Some z))).
  rewrite E4.
  eapply runs_bind_return; [apply runs_intro; exact Hout|].
  eapply (runs_bind_return _ _ _ _ []); [apply runs_ret|].
  rewrite !app_nil_r.
  eapply (runs_bind_return _ _ _ _ [_]).
  { apply runs_call. unfold h4, before_polling, pollEsimStatus. tally.
    rewrite Hn. reflexivity. }
  eapply (runs_bind_return _ _ _ _ [_]).
  { apply runs_call. unfold h4, before_polling, pollEsimStatus. tally.
    rewrite Hm. reflexivity. }
  eapply (runs_bind_return _ _ _ _ [_]); [apply runs_emit|].
  apply runs_ret.
Qed.


Ltac tally_in H :=
  repeat (autorewrite with tally in H;
          cbn [is_balance_query is_order_placement is_poll is_note
               is_meta_update] in H);
  rewrite ?poll_loop_quiet in H by reflexivity;
  autorewrite with tally in H.

Ltac invert_bind H a Ha :=
  apply bind_returns in H; destruct H as (a & Ha & H);
  rewrite ?issued_emit, ?issued_call, ?issued_ret, ?app_nil_r in H.

(** What a returning run of [provisionEsim] says about the collaborators. *)
Lemma returned_inversion orderId sku quantity h d :
  outcome (provisionEsim env orderId sku quantity) h = Return d ->
  exists z account order,
    orderId = Some z /\
    vendor_balance env (calls is_balance_query h) = Return account /\
    (balance account <? 10)%Z = false /\
    vendor_order env (calls is_order_placement h) (Js.number_toString z) sku
      (default_quantity quantity) = Return order /\
    outcome (pollEsimStatus env (orderNumber order) 10)
      (before_polling h (Some z) (Js.number_toString z) sku quantity)
      = Return (Some d) /\
    ledger_note env (calls is_note h) = None /\
    ledger_meta env (calls is_meta_update h) = None.
Proof.
  intros H.
  unfold provisionEsim, getAccountBalance, orderProfile, createOrderNote,
    updateOrderMeta, sleep, console_log in H.
  invert_bind H u Hu.
  apply try_catch_returns in H; [|intros; apply recovery_never_returns].
  destruct H as [H _].
  invert_bind H account Hb.
  rewrite outcome_call in Hb. tally_in Hb.
  destruct (balance account <? 10)%Z eqn:Hge.
  { apply bind_returns in H. destruct H as (? & H & _). discriminate. }
  invert_bind H u1 Hu1.
  destruct orderId as [z|].
  2:{ apply bind_returns in H. destruct H as (? & H & _). discriminate. }
  unfold toString in H.
  invert_bind H tid Htid. injection Htid as <-.
  invert_bind H order Ho.
  rewrite outcome_call in Ho. tally_in Ho.
  invert_bind H u2 Hu2.
  invert_bind H polled Hp.
  destruct polled as [d'|].
  2:{ apply bind_returns in H. destruct H as (? & H & _). discriminate. }
  unfold property_of in H.
  invert_bind H d0 Hd0. injection Hd0 as <-.
  invert_bind H u3 Hn. rewrite outcome_call in Hn.
  invert_bind H u4 Hm. rewrite outcome_call in Hm.
  invert_bind H u5 Hu5.
  injection H as <-.
  exists z, account, order.
  assert (E : (((h ++ [ConsoleLog ("🚀 Provisioning eSIM for order " ++ Js.interpolate_number (Some z))%string])
                 ++ [GetAccountBalance])
                 ++ [OrderProfile (Js.number_toString z) sku (default_quantity quantity)])
                 ++ [Sleep 5000]
              = before_polling h (Some z) (Js.number_toString z) sku quantity).
  { unfold before_polling. rewrite <- !app_assoc. reflexivity. }
  rewrite E in *.
  repeat split; try assumption.
  - unfold before_polling, pollEsimStatus in Hn. tally_in Hn.
    now destruct (ledger_note env (calls is_note h)).
  - unfold before_polling, pollEsimStatus in Hm. tally_in Hm.
    now destruct (ledger_meta env (calls is_meta_update h)).
Qed.

(** X1. A run of [provisionEsim] that returns has done all of it: it was
    given an order id (a run without one never returns), the profile it
    returns carries an ICCID, and its calls are, in order, the start line,
    one balance query, one vendor order under the text of the order id, the
    wait of 5000 ms, between one and ten polls with nothing but sleeps
    between them, the success note, the metadata update and the success
    line. *)
Theorem returning_run_shape orderId sku quantity h d :
  outcome (provisionEsim env orderId sku quantity) h = Return d ->
  Js.truthy (iccid d) = true /\
  exists z polls,
    orderId = Some z /\
    (1 <= calls is_poll polls <= 10)%nat /\
    filter (fun e => negb (is_poll e || is_sleep e)) polls = [] /\
    issued (provisionEsim env orderId sku quantity) h =
      [ConsoleLog (start_line orderId); GetAccountBalance;
       OrderProfile (Js.number_toString z) sku (default_quantity quantity);
       Sleep 5000]
      ++ polls
      ++ [CreateOrderNote orderId (formatEsimNote d) true;
          UpdateOrderMeta orderId (provisioning_metadata d);
          ConsoleLog (success_line orderId)].
Proof.
  intros H.
  destruct (returned_inversion _ _ _ _ _ H)
    as (z & account & order & -> & Hb & Hge & Ho & Hout & Hn & Hm).
  pose proof (returned_run z sku quantity h account order d Hb Hge Ho Hout Hn Hm)
    as R.
  unfold pollEsimStatus in Hout.
  destruct (poll_loop_returns _ _ _ _ _ _ Hout) as [Ht Hc].
  split; [exact Ht|].
  exists z, (issued (pollEsimStatus env (orderNumber order) 10)
               (before_polling h (Some z) (Js.number_toString z) sku quantity)).
  split; [reflexivity|]. split; [exact Hc|]. split.
  - apply filter_quiet. unfold pollEsimStatus.
    apply poll_loop_quiet; reflexivity.
  - exact (runs_issued _ _ _ _ R).
Qed.


Lemma try_catch_throws {A} (m : M A) handler h e :
  outcome (try_catch m handler) h = Throw e ->
  exists cause,
    outcome m h = Throw cause /\
    outcome (handler cause) (h ++ issued m h) = Throw e /\
    issued (try_catch m handler) h
    = issued m h ++ issued (handler cause) (h ++ issued m h).
Proof.
  rewrite outcome_try_catch, issued_try_catch.
  destruct (outcome m h) as [a|cause]; [discriminate|].
  intros H. now exists cause.
Qed.

(** X2. A run of [provisionEsim] that fails ends with the error line on the
    console and the failure note on the order, both carrying the message of
    the error the try block raised. The error the run raises is that one,
    unless the ledger rejects the failure note; then the ledger's error
    replaces it. *)
Theorem failing_run_shape orderId sku quantity h e :
  outcome (provisionEsim env orderId sku quantity) h = Throw e ->
  exists cause t,
    issued (provisionEsim env orderId sku quantity) h =
      ConsoleLog (start_line orderId) :: t
      ++ [ConsoleError "❌ Provisioning failed:" (Js.message cause);
          CreateOrderNote orderId (failure_note cause) true] /\
    Throw e = rethrown (A := EsimDetails)
                (ledger_note env
                   (calls is_note (h ++ ConsoleLog (start_line orderId) :: t)))
                cause.
Proof.
  intros H. unfold provisionEsim, console_log in *.
  fold (start_line orderId) in *.
  rewrite outcome_bind, outcome_emit, issued_emit in H.
  rewrite issued_bind, outcome_emit, issued_emit.
  apply try_catch_throws in H.
  destruct H as (cause & Hbody & Hrec & ->).
  match type of Hbody with
  | outcome ?m ?h1 = _ => set (body := m) in *; set (t := issued body h1) in *
  end.
  pose proof (recover_run env orderId cause
                ((h ++ [ConsoleLog (start_line orderId)]) ++ t)) as R.
  rewrite (runs_outcome _ _ _ _ R) in Hrec.
  rewrite (runs_issued _ _ _ _ R).
  exists cause, t. split; [reflexivity|].
  rewrite <- Hrec. now rewrite <- app_assoc.
Qed.


(** ** Bounds on what one run costs *)

Lemma calls_bind_le {A B} kind (m : M A) (k : A -> M B) a b :
  (forall h, calls kind (issued m h) <= a)%nat ->
  (forall x h, calls kind (issued (k x) h) <= b)%nat ->
  forall h, (calls kind (issued (bind m k) h) <= a + b)%nat.
Proof.
  intros Hm Hk h. rewrite issued_bind. specialize (Hm h).
  destruct (outcome m h) as [x|e]; [|lia].
  rewrite calls_app. specialize (Hk x (h ++ issued m h)). lia.
Qed.

Lemma calls_try_le {A} kind (m : M A) handler a b :
  (forall h, calls kind (issued m h) <= a)%nat ->
  (forall e h, calls kind (issued (handler e) h) <= b)%nat ->
  forall h, (calls kind (issued (try_catch m handler) h) <= a + b)%nat.
Proof.
  intros Hm Hk h. rewrite issued_try_catch. specialize (Hm h).
  destruct (outcome m h) as [x|e]; [lia|].
  rewrite calls_app. specialize (Hk e (h ++ issued m h)). lia.
Qed.

Lemma bound_weaken {A} kind (m : M A) n :
  (exists n', (forall h, calls kind (issued m h) <= n')%nat /\ (n' <= n)%nat) ->
  forall h, (calls kind (issued m h) <= n)%nat.
Proof. intros (n' & Hn' & Hle) h. specialize (Hn' h). lia. Qed.

Ltac leaf :=
  intro;
  first
    [ unfold pollEsimStatus; apply poll_loop_bounded
    | unfold pollEsimStatus; rewrite poll_loop_quiet by reflexivity; apply le_n
    | unfold getAccountBalance, orderProfile, createOrderNote, updateOrderMeta,
        sleep, console_log, console_error;
      rewrite ?issued_emit, ?issued_call, ?issued_ret, ?issued_throw;
      unfold calls;
      cbn [filter length is_balance_query is_order_placement is_poll is_note
           is_meta_update is_sleep];
      apply le_n ].

Ltac bounded :=
  lazymatch goal with
  | |- forall h, (calls _ (issued (bind _ _) h) <= _)%nat =>
      eapply calls_bind_le;
      [bounded
      |let x := fresh "x" in
       intro x;
       lazymatch type of x with
       | option _ =>
           destruct x; cbv beta iota delta [property_of toString]; bounded
       | _ => bounded
       end]
  | |- forall h, (calls _ (issued (try_catch _ _) h) <= _)%nat =>
      eapply calls_try_le; [bounded|intro; bounded]
  | |- forall h, (calls _ (issued (if ?c then _ else _) h) <= _)%nat =>
      destruct c; bounded
  | |- _ => leaf
  end.

Ltac bound_provisionEsim h :=
  revert h; apply bound_weaken; eexists; split; [|shelve];
  unfold provisionEsim;
  match goal with
  | |- context [toString ?o] =>
      destruct o; cbv beta iota delta [property_of toString]
  end; bounded.

Lemma provisionEsim_orders_le orderId sku quantity h :
  (calls is_order_placement
     (issued (provisionEsim env orderId sku quantity) h) <= 1)%nat.
Proof. bound_provisionEsim h. Unshelve. all: cbn; lia. Qed.

Lemma provisionEsim_polls_le orderId sku quantity h :
  (calls is_poll (issued (provisionEsim env orderId sku quantity) h) <= 10)%nat.
Proof. bound_provisionEsim h. Unshelve. all: cbn; lia. Qed.

Lemma provisionEsim_notes_le orderId sku quantity h :
  (calls is_note (issued (provisionEsim env orderId sku quantity) h) <= 2)%nat.
Proof. bound_provisionEsim h. Unshelve. all: cbn; lia. Qed.

Lemma provisionEsim_meta_le orderId sku quantity h :
  (calls is_meta_update
     (issued (provisionEsim env orderId sku quantity) h) <= 1)%nat.
Proof. bound_provisionEsim h. Unshelve. all: cbn; lia. Qed.

Lemma provisionEsim_balance_le orderId sku quantity h :
  (calls is_balance_query
     (issued (provisionEsim env orderId sku quantity) h) <= 1)%nat.
Proof. bound_provisionEsim h. Unshelve. all: cbn; lia. Qed.


Lemma slept_app t1 t2 : slept (t1 ++ t2) = (slept t1 + slept t2)%Z.
Proof.
  induction t1 as [|e t1 IH]; [reflexivity|].
  destruct e; cbn [app slept]; rewrite ?IH; lia.
Qed.

Lemma slept_bind_le {A B} (m : M A) (k : A -> M B) a b :
  (forall h, 0 <= slept (issued m h) <= a)%Z ->
  (forall x h, 0 <= slept (issued (k x) h) <= b)%Z ->
  (0 <= b)%Z ->
  forall h, (0 <= slept (issued (bind m k) h) <= a + b)%Z.
Proof.
  intros Hm Hk Hb h. rewrite issued_bind. specialize (Hm h).
  destruct (outcome m h) as [x|e]; [|lia].
  rewrite slept_app. specialize (Hk x (h ++ issued m h)). lia.
Qed.

Lemma slept_try_le {A} (m : M A) handler a b :
  (forall h, 0 <= slept (issued m h) <= a)%Z ->
  (forall e h, 0 <= slept (issued (handler e) h) <= b)%Z ->
  (0 <= b)%Z ->
  forall h, (0 <= slept (issued (try_catch m handler) h) <= a + b)%Z.
Proof.
  intros Hm Hk Hb h. rewrite issued_try_catch. specialize (Hm h).
  destruct (outcome m h) as [x|e]; [lia|].
  rewrite slept_app. specialize (Hk e (h ++ issued m h)). lia.
Qed.

(** The back-off sleeps of the iterations [i], ..., [i + n - 1]. *)
Lemma poll_loop_slept n : forall i maxRetries o h,
  (0 <= slept (issued (poll_loop env n i maxRetries o) h)
   <= 3000 * (2 ^ Z.of_nat (i + n) - 2 ^ Z.of_nat i))%Z.
Proof.
  induction n as [|n IH]; intros i mr o h.
  - cbn [poll_loop]. rewrite issued_ret, Nat.add_0_r. cbn [slept]. lia.
  - assert (E : (2 ^ Z.of_nat (i + S n) = 2 ^ Z.of_nat (S i + n))%Z)
      by (f_equal; lia).
    assert (E2 : (2 ^ Z.of_nat (S i) = 2 * 2 ^ Z.of_nat i)%Z).
    { rewrite Nat2Z.inj_succ, Z.pow_succ_r by lia. reflexivity. }
    assert (P : (0 < 2 ^ Z.of_nat i)%Z) by (apply Z.pow_pos_nonneg; lia).
    assert (Q : (2 ^ Z.of_nat (S i) <= 2 ^ Z.of_nat (S i + n))%Z)
      by (apply Z.pow_le_mono_r; lia).
    cbn [poll_loop]. unfold getEsimByOrderNumber, sleep.
    autorewrite with run.
    destruct (vendor_profile env (calls is_poll h) o) as [d|e]; autorewrite with run.
    + destruct (Js.truthy (iccid d)); autorewrite with run;
        rewrite ?slept_app; cbn [slept app]; [lia|].
      match goal with
      | |- context [issued (poll_loop env n (S i) mr o) ?h'] =>
          specialize (IH (S i) mr o h')
      end. lia.
    + destruct (Nat.eqb i mr); autorewrite with run;
        rewrite ?slept_app; cbn [slept app]; [lia|].
      match goal with
      | |- context [issued (poll_loop env n (S i) mr o) ?h'] =>
          specialize (IH (S i) mr o h')
      end. lia.
Qed.

Lemma rest_weaken {A} (m : M A) n :
  (exists n', (forall h, 0 <= slept (issued m h) <= n')%Z /\ (n' <= n)%Z) ->
  forall h, (0 <= slept (issued m h) <= n)%Z.
Proof. intros (n' & Hn' & Hle) h. specialize (Hn' h). lia. Qed.

Ltac rest_leaf :=
  intro;
  first
    [ unfold pollEsimStatus; apply poll_loop_slept
    | unfold getAccountBalance, orderProfile, createOrderNote, updateOrderMeta,
        sleep, console_log, console_error;
      rewrite ?issued_emit, ?issued_call, ?issued_ret, ?issued_throw;
      cbn [slept]; split; [lia|apply Z.le_refl] ].

Ltac rested :=
  lazymatch goal with
  | |- forall h, (_ <= slept (issued (bind _ _) h) <= _)%Z =>
      eapply slept_bind_le;
      [rested
      |let x := fresh "x" in
       intro x;
       lazymatch type of x with
       | option _ =>
           destruct x; cbv beta iota delta [property_of toString]; rested
       | _ => rested
       end
      |vm_compute; discriminate]
  | |- forall h, (_ <= slept (issued (try_catch _ _) h) <= _)%Z =>
      eapply slept_try_le; [rested|intro; rested|vm_compute; discriminate]
  | |- forall h, (_ <= slept (issued (if ?c then _ else _) h) <= _)%Z =>
      destruct c; rested
  | |- _ => rest_leaf
  end.

Lemma provisionEsim_slept orderId sku quantity h :
  (0 <= slept (issued (provisionEsim env orderId sku quantity) h)
   <= 6143000)%Z.
Proof.
  revert h; apply rest_weaken; eexists; split; [|shelve].
  unfold provisionEsim.
  match goal with
  | |- context [toString ?o] =>
      destruct o; cbv beta iota delta [property_of toString]
  end; rested.
  Unshelve. all: vm_compute; discriminate.
Qed.

Lemma provisionEsim_starts orderId sku quantity h :
  exists rest,
    issued (provisionEsim env orderId sku quantity) h
    = ConsoleLog (start_line orderId) :: GetAccountBalance :: rest.
Proof.
  unfold provisionEsim, console_log, getAccountBalance.
  fold (start_line orderId).
  rewrite issued_bind, outcome_emit, issued_emit, issued_try_catch.
  rewrite issued_bind, issued_call.
  repeat match goal with
         | |- context [match ?c with Return _ => _ | Throw _ => _ end] =>
             destruct c
         end; cbn [app]; eauto.
Qed.

Lemma provisionEsim_notes_ge orderId sku quantity h :
  (1 <= calls is_note (issued (provisionEsim env orderId sku quantity) h))%nat.
Proof.
  destruct (outcome (provisionEsim env orderId sku quantity) h) as [d|e] eqn:H.
  - destruct (returned_inversion _ _ _ _ _ H)
      as (z & account & order & -> & Hb & Hge & Ho & Hout & Hn & Hm).
    rewrite (runs_issued _ _ _ _
               (returned_run z sku quantity h account order d Hb Hge Ho Hout Hn Hm)).
    rewrite !calls_app. unfold calls at 3. cbn [filter is_note length]. lia.
  - unfold provisionEsim, console_log in *.
    rewrite outcome_bind, outcome_emit, issued_emit in H.
    rewrite issued_bind, outcome_emit, issued_emit.
    apply try_catch_throws in H. destruct H as (cause & _ & _ & ->).
    rewrite (runs_issued _ _ _ _ (recover_run env orderId cause _)).
    rewrite !calls_app. unfold calls at 3. cbn [filter is_note length]. lia.
Qed.

(** X3. Whatever the collaborators answer, one run of [provisionEsim]
    queries the balance exactly once, places at most one vendor order, polls
    at most ten times, appends one or two notes, updates the metadata at
    most once and sleeps at most 6143000 ms in all. *)
Theorem run_cost_is_bounded orderId sku quantity h :
  let t := issued (provisionEsim env orderId sku quantity) h in
  calls is_balance_query t = 1%nat /\
  (calls is_order_placement t <= 1)%nat /\
  (calls is_poll t <= 10)%nat /\
  (1 <= calls is_note t <= 2)%nat /\
  (calls is_meta_update t <= 1)%nat /\
  (0 <= slept t <= 6143000)%Z.
Proof.
  intros t. subst t.
  pose proof (provisionEsim_balance_le orderId sku quantity h) as B.
  destruct (provisionEsim_starts orderId sku quantity h) as [rest E].
  repeat split.
  - rewrite E in *. rewrite !calls_cons in *. cbn [is_balance_query] in *. lia.
  - apply provisionEsim_orders_le.
  - apply provisionEsim_polls_le.
  - apply provisionEsim_notes_ge.
  - apply provisionEsim_notes_le.
  - apply provisionEsim_meta_le.
  - apply provisionEsim_slept.
  - apply provisionEsim_slept.
Qed.


(** ** When the poll loop raises *)

Lemma poll_loop_throws n : forall i maxRetries o h e,
  (i + n = S maxRetries)%nat ->
  (outcome (poll_loop env n i maxRetries o) h = Throw e <->
   (1 <= n)%nat /\
   (forall j, (j < n - 1)%nat ->
      not_ready (vendor_profile env (calls is_poll h + j) o)) /\
   vendor_profile env (calls is_poll h + (n - 1)) o = Throw e).
Proof.
  induction n as [|n IH]; intros i mr o h e Hi.
  - cbn [poll_loop]. rewrite outcome_ret. split; [discriminate|lia].
  - cbn [poll_loop]. unfold getEsimByOrderNumber, sleep.
    autorewrite with run.
    replace (S n - 1)%nat with n by lia.
    assert (Next : forall h',
              calls is_poll h' = S (calls is_poll h) ->
              (outcome (poll_loop env n (S i) mr o) h' = Throw e <->
               (1 <= n)%nat /\
               (forall j, (j < n)%nat -> (0 < j)%nat ->
                  not_ready (vendor_profile env (calls is_poll h + j) o)) /\
               vendor_profile env (calls is_poll h + n) o = Throw e)).
    { intros h' Hh'. rewrite IH by lia. rewrite Hh'.
      split.
      - intros (Hn & Hbefore & Hlast). split; [exact Hn|]. split.
        + intros j Hj Hpos.
          replace (calls is_poll h + j)%nat
            with (S (calls is_poll h) + (j - 1))%nat by lia.
          apply Hbefore. lia.
        + replace (calls is_poll h + n)%nat
            with (S (calls is_poll h) + (n - 1))%nat by lia.
          exact Hlast.
      - intros (Hn & Hbefore & Hlast). split; [exact Hn|]. split.
        + intros j Hj.
          replace (S (calls is_poll h) + j)%nat
            with (calls is_poll h + S j)%nat by lia.
          apply Hbefore; lia.
        + replace (S (calls is_poll h) + (n - 1))%nat
            with (calls is_poll h + n)%nat by lia.
          exact Hlast. }
    destruct (vendor_profile env (calls is_poll h) o) as [d|e0] eqn:E0;
      autorewrite with run.
    + destruct (Js.truthy (iccid d)) eqn:T; autorewrite with run.
      * split; [discriminate|]. intros (_ & Hbefore & Hlast).
        destruct n as [|n].
        -- rewrite Nat.add_0_r, E0 in Hlast. discriminate.
        -- specialize (Hbefore 0%nat ltac:(lia)).
           rewrite Nat.add_0_r, E0 in Hbefore. cbn in Hbefore. congruence.
      * rewrite Next by (autorewrite with tally; cbn [is_poll]; lia).
        split.
        -- intros (Hn & Hbefore & Hlast). split; [lia|]. split; [|exact Hlast].
           intros j Hj. destruct j as [|j].
           ++ rewrite Nat.add_0_r, E0. exact T.
           ++ apply Hbefore; lia.
        -- intros (_ & Hbefore & Hlast).
           destruct n as [|n];
             [rewrite Nat.add_0_r, E0 in Hlast; discriminate|].
           split; [lia|]. split; [|exact Hlast].
           intros j Hj _. apply Hbefore. exact Hj.
    + destruct (Nat.eqb i mr) eqn:Q; autorewrite with run.
      * apply Nat.eqb_eq in Q. assert (n = 0)%nat by lia. subst n.
        rewrite Nat.add_0_r, E0. split.
        -- intros [= ->]. split; [lia|]. split; [intros j Hj; lia|reflexivity].
        -- intros (_ & _ & [= ->]). reflexivity.
      * apply Nat.eqb_neq in Q.
        rewrite Next by (autorewrite with tally; cbn [is_poll]; lia).
        split.
        -- intros (Hn & Hbefore & Hlast). split; [lia|]. split; [|exact Hlast].
           intros j Hj. destruct j as [|j].
           ++ rewrite Nat.add_0_r, E0. exact I.
           ++ apply Hbefore; lia.
        -- intros (_ & Hbefore & Hlast). split; [lia|]. split; [|exact Hlast].
           intros j Hj _. apply Hbefore. exact Hj.
Qed.

(** A loop that raises has queried in every iteration and slept between
    the queries only. *)
Lemma poll_loop_thrown_trace n : forall i maxRetries o h e,
  (i + n = S maxRetries)%nat ->
  outcome (poll_loop env n i maxRetries o) h = Throw e ->
  calls is_poll (issued (poll_loop env n i maxRetries o) h) = n /\
  calls is_sleep (issued (poll_loop env n i maxRetries o) h) = (n - 1)%nat.
Proof.
  induction n as [|n IH]; intros i mr o h e Hi; [discriminate|].
  cbn [poll_loop]. unfold getEsimByOrderNumber, sleep.
  autorewrite with run.
  destruct (vendor_profile env (calls is_poll h) o) as [d|e0];
    autorewrite with run.
  - destruct (Js.truthy (iccid d)); autorewrite with run; [discriminate|].
    intros H. destruct n as [|n]; [discriminate|].
    apply IH in H; [|lia]. destruct H as [Hp Hs].
    autorewrite with tally. cbn [is_poll is_sleep]. lia.
  - destruct (Nat.eqb i mr) eqn:Q; autorewrite with run.
    + apply Nat.eqb_eq in Q. assert (n = 0)%nat by lia. subst n.
      intros _. split; reflexivity.
    + intros H. destruct n as [|n]; [discriminate|].
      apply IH in H; [|lia]. destruct H as [Hp Hs].
      autorewrite with tally. cbn [is_poll is_sleep]. lia.
Qed.

(** X4. [pollEsimStatus] raises exactly when no attempt before the last was
    ready and the last attempt is rejected; it raises the error of the last
    attempt, a rejection of an earlier attempt being swallowed. When it
    raises, every attempt has issued its query and only the attempts before
    the last were followed by a sleep. *)
Theorem poll_raises_the_last_rejection o n h e :
  (outcome (pollEsimStatus env o n) h = Throw e <->
   (1 <= n)%nat /\
   (forall j, (j < n - 1)%nat ->
      not_ready (vendor_profile env (calls is_poll h + j) o)) /\
   vendor_profile env (calls is_poll h + (n - 1)) o = Throw e) /\
  (outcome (pollEsimStatus env o n) h = Throw e ->
   calls is_poll (issued (pollEsimStatus env o n) h) = n /\
   calls is_sleep (issued (pollEsimStatus env o n) h) = (n - 1)%nat).
Proof.
  unfold pollEsimStatus. split.
  - apply poll_loop_throws. lia.
  - apply poll_loop_thrown_trace. lia.
Qed.


(** X5. When the vendor rejects the order, the run neither waits nor polls:
    after the start line, the balance query and the order, the vendor's
    error goes to the console and into the failure note, and the run fails
    with it; only when the ledger rejects that failure note does the run
    fail with the ledger's error instead. *)
Theorem rejected_order_is_not_polled z sku quantity h account e :
  vendor_balance env (calls is_balance_query h) = Return account ->
  (10 <= balance account)%Z ->
  vendor_order env (calls is_order_placement h) (Js.number_toString z) sku
    (default_quantity quantity) = Throw e ->
  runs (provisionEsim env (Some z) sku quantity) h
    (rethrown (ledger_note env (calls is_note h)) e)
    [ConsoleLog (start_line (Some z));
     GetAccountBalance;
     OrderProfile (Js.number_toString z) sku (default_quantity quantity);
     ConsoleError "❌ Provisioning failed:" (Js.message e);
     CreateOrderNote (Some z) (failure_note e) true].
Proof.
  intros Hb Hge Ho. apply Z.ltb_ge in Hge.
  unfold provisionEsim.
  eapply (runs_bind_return _ _ _ _ [_]); [apply runs_emit|].
  eapply (runs_try_throw _ _ _ e [_; _]).
  - unfold getAccountBalance, orderProfile, toString.
    eapply (runs_bind_return _ _ _ _ [_]); [apply runs_call; tally; exact Hb|].
    rewrite Hge.
    eapply (runs_bind_return _ _ _ _ []); [apply runs_ret|].
    eapply (runs_bind_return _ _ _ _ []); [apply runs_ret|].
    rewrite !app_nil_r.
    apply runs_bind_throw. apply runs_call. tally. exact Ho.
  - replace (ledger_note env (calls is_note h))
      with (ledger_note env
              (calls is_note
                 ((h ++ [ConsoleLog (start_line (Some z))])
                  ++ [GetAccountBalance;
                      OrderProfile (Js.number_toString z) sku
                        (default_quantity quantity)])))
      by (tally; reflexivity).
    apply recover_run.
Qed.

Lemma missing_order_id_run sku quantity h account :
  vendor_balance env (calls is_balance_query h) = Return account ->
  (10 <= balance account)%Z ->
  let e := Js.TypeError_undefined "toString" in
  runs (provisionEsim env None sku quantity) h
    (rethrown (ledger_note env (calls is_note h)) e)
    [ConsoleLog (start_line None);
     GetAccountBalance;
     ConsoleError "❌ Provisioning failed:" (Js.message e);
     CreateOrderNote None (failure_note e) true].
Proof.
  intros Hb Hge e. apply Z.ltb_ge in Hge.
  unfold provisionEsim.
  eapply (runs_bind_return _ _ _ _ [_]); [apply runs_emit|].
  eapply (runs_try_throw _ _ _ e [_]).
  - unfold getAccountBalance, toString.
    eapply (runs_bind_return _ _ _ _ [_]); [apply runs_call; tally; exact Hb|].
    rewrite Hge.
    eapply (runs_bind_return _ _ _ _ [] _ []); [apply runs_ret|].
    apply runs_bind_throw. apply runs_throw.
  - replace (ledger_note env (calls is_note h))
      with (ledger_note env
              (calls is_note
                 ((h ++ [ConsoleLog (start_line None)]) ++ [GetAccountBalance])))
      by (tally; reflexivity).
    apply recover_run.
Qed.

Lemma failed_balance_query_run orderId sku quantity h e :
  vendor_balance env (calls is_balance_query h) = Throw e ->
  runs (provisionEsim env orderId sku quantity) h
    (rethrown (ledger_note env (calls is_note h)) e)
    [ConsoleLog (start_line orderId);
     GetAccountBalance;
     ConsoleError "❌ Provisioning failed:" (Js.message e);
     CreateOrderNote orderId (failure_note e) true].
Proof.
  intros Hb. unfold provisionEsim.
  eapply (runs_bind_return _ _ _ _ [_]); [apply runs_emit|].
  eapply (runs_try_throw _ _ _ e [_]).
  - unfold getAccountBalance.
    apply runs_bind_throw. apply runs_call. tally. exact Hb.
  - replace (ledger_note env (calls is_note h))
      with (ledger_note env
              (calls is_note
                 ((h ++ [ConsoleLog (start_line orderId)]) ++ [GetAccountBalance])))
      by (tally; reflexivity).
    apply recover_run.
Qed.

Lemma rethrown_throws {A} fault e : exists e', @rethrown A fault e = Throw e'.
Proof. destruct fault; eexists; reflexivity. Qed.

(** X6. A run without order id fails and places no vendor order, whatever
    the vendor and the ledger answer. When the balance query answers a
    balance of at least 10, the run fails at [orderId.toString()]: after
    the start line and the balance query, the TypeError goes to the console
    and into a failure note addressed to the order [undefined], and the run
    fails with the TypeError, or with the ledger's error when the ledger
    rejects that note. (Below 10 the run fails on the balance, when the
    balance query fails on that query's error.) *)
Theorem missing_order_id_places_no_order sku quantity h :
  let run := provisionEsim env None sku quantity in
  (exists e, outcome run h = Throw e) /\
  calls is_order_placement (issued run h) = 0%nat /\
  (forall account,
     vendor_balance env (calls is_balance_query h) = Return account ->
     (10 <= balance account)%Z ->
     let e := Js.TypeError_undefined "toString" in
     runs run h
       (rethrown (ledger_note env (calls is_note h)) e)
       [ConsoleLog (start_line None);
        GetAccountBalance;
        ConsoleError "❌ Provisioning failed:" (Js.message e);
        CreateOrderNote None (failure_note e) true]).
Proof.
  intros run.
  assert (H : exists e t,
             runs run h (rethrown (ledger_note env (calls is_note h)) e) t /\
             calls is_order_placement t = 0%nat).
  { destruct (vendor_balance env (calls is_balance_query h)) as [account|e0]
      eqn:Hb.
    - destruct (Z.lt_ge_cases (balance account) 10) as [Hlt|Hge].
      + eexists. eexists. split.
        * exact (low_balance_run env None sku quantity h account Hb Hlt).
        * reflexivity.
      + eexists. eexists. split.
        * exact (missing_order_id_run sku quantity h account Hb Hge).
        * reflexivity.
    - eexists. eexists. split.
      + exact (failed_balance_query_run None sku quantity h e0 Hb).
      + reflexivity. }
  destruct H as (e & t & R & Hzero).
  split; [|split].
  - rewrite (runs_outcome _ _ _ _ R). apply rethrown_throws.
  - now rewrite (runs_issued _ _ _ _ R).
  - intros account Hb Hge. exact (missing_order_id_run sku quantity h account Hb Hge).
Qed.


(** X7. When the ledger takes the success note and then rejects the metadata
    update, the run fails although the vendor order is placed and the
    profile is ready: the order carries the success note and, after it, the
    failure note. *)
Theorem rejected_metadata_leaves_both_notes z sku quantity h account order d e :
  vendor_balance env (calls is_balance_query h) = Return account ->
  (10 <= balance account)%Z ->
  vendor_order env (calls is_order_placement h) (Js.number_toString z) sku
    (default_quantity quantity) = Return order ->
  outcome (pollEsimStatus env (orderNumber order) 10)
    (before_polling h (Some z) (Js.number_toString z) sku quantity)
    = Return (Some d) ->
  ledger_note env (calls is_note h) = None ->
  ledger_meta env (calls is_meta_update h) = Some e ->
  runs (provisionEsim env (Some z) sku quantity) h
    (rethrown (ledger_note env (S (calls is_note h))) e)
    ([ConsoleLog (start_line (Some z)); GetAccountBalance;
      OrderProfile (Js.number_toString z) sku (default_quantity quantity);
      Sleep 5000]
     ++ issued (pollEsimStatus env (orderNumber order) 10)
          (before_polling h (Some z) (Js.number_toString z) sku quantity)
     ++ [CreateOrderNote (Some z) (formatEsimNote d) true;
         UpdateOrderMeta (Some z) (provisioning_metadata d);
         ConsoleError "❌ Provisioning failed:" (Js.message e);
         CreateOrderNote (Some z) (failure_note e) true]).
Proof.
  intros Hb Hge Ho Hout Hn Hm. apply Z.ltb_ge in Hge.
  set (h4 := before_polling h (Some z) (Js.number_toString z) sku quantity) in *.
  set (polls := issued (pollEsimStatus env (orderNumber order) 10) h4).
  assert (E4 : (((h ++ [ConsoleLog (start_line (Some z))]) ++ [GetAccountBalance])
                ++ [OrderProfile (Js.number_toString z) sku (default_quantity quantity)])
               ++ [Sleep 5000] = h4).
  { unfold h4, before_polling. rewrite <- !app_assoc. reflexivity. }
  assert (Q : forall kind,
            (forall o', kind (GetEsimByOrderNumber o') = false) ->
            (forall ms, kind (Sleep ms) = false) -> calls kind polls = 0%nat).
  { intros kind Hp Hs. apply poll_loop_quiet; assumption. }
  unfold provisionEsim.
  eapply (runs_bind_return _ _ _ _ [_]); [apply runs_emit|].
  eapply runs_as.
  - eapply (runs_try_throw _ _ _ e
              ([GetAccountBalance;
                OrderProfile (Js.number_toString z) sku (default_quantity quantity);
                Sleep 5000] ++ polls
               ++ [CreateOrderNote (Some z) (formatEsimNote d) true;
                   UpdateOrderMeta (Some z) (provisioning_metadata d)])).
    + unfold getAccountBalance, orderProfile, createOrderNote,
        updateOrderMeta, toString, property_of, sleep, console_log.
      eapply (runs_bind_return _ _ _ _ [_]); [apply runs_call; tally; exact Hb|].
      rewrite Hge.
      eapply (runs_bind_return _ _ _ _ []); [apply runs_ret|].
      eapply (runs_bind_return _ _ _ _ []); [apply runs_ret|].
      rewrite !app_nil_r.
      eapply (runs_bind_return _ _ _ _ [_]); [apply runs_call; tally; exact Ho|].
      eapply (runs_bind_return _ _ _ _ [_]); [apply runs_emit|].
      change (ConsoleLog ("🚀 Provisioning eSIM for order " ++ Js.interpolate_number (Some z))%string)
        with (ConsoleLog (start_line (Some z))).
      rewrite E4.
      eapply runs_bind_return; [apply runs_intro; exact Hout|].
      fold polls.
      eapply (runs_bind_return _ _ _ _ []); [apply runs_ret|].
      rewrite !app_nil_r.
      eapply (runs_bind_return _ _ _ _ [_]).
      { apply runs_call. unfold h4, before_polling. tally.
        rewrite (Q is_note) by reflexivity. tally. rewrite Hn. reflexivity. }
      apply runs_bind_throw.
      apply runs_call. unfold h4, before_polling. tally.
      rewrite (Q is_meta_update) by reflexivity. tally. rewrite Hm. reflexivity.
    + match goal with
      | |- runs _ ?hh _ _ =>
          replace (ledger_note env (S (calls is_note h)))
            with (ledger_note env (calls is_note hh))
      end.
      * apply recover_run.
      * f_equal. tally. rewrite (Q is_note) by reflexivity. tally.
        cbn [is_note]. lia.
  - cbn [app]. rewrite <- !app_assoc. reflexivity.
Qed.

(** ** The order-completed handler *)

Lemma calls_zero_In kind t e :
  calls kind t = 0%nat -> In e t -> kind e = false.
Proof.
  unfold calls. intros H Hin.
  destruct (kind e) eqn:K; [|reflexivity].
  assert (In e (filter kind t)) by (apply filter_In; auto).
  destruct (filter kind t); [contradiction|discriminate].
Qed.

Lemma silent_bind_ret {A B} kind (a : A) (k : A -> M B) :
  silent kind (k a) -> silent kind (bind (ret a) k).
Proof.
  intros H h. rewrite issued_bind, outcome_ret, issued_ret. cbn [app]. apply H.
Qed.

Lemma silent_bind_throw {A B} kind e (k : A -> M B) :
  silent kind (bind (throw e) k).
Proof. intros h. now rewrite issued_bind, outcome_throw, issued_throw. Qed.

Lemma silent_for_of {A} kind (items : list A) body :
  (forall x, silent kind (body x)) -> silent kind (for_of items body).
Proof.
  intros H. induction items as [|x xs IH]; cbn [for_of].
  - apply silent_ret.
  - apply silent_bind; auto.
Qed.

Ltac silence :=
  repeat first
    [ apply silent_bind; [|intro]
    | apply silent_try_catch; [|intro]
    | apply silent_ret
    | apply silent_throw
    | apply silent_emit; reflexivity
    | apply silent_call; reflexivity
    | apply silent_poll_loop; reflexivity
    | match goal with
      | |- silent _ (if ?b then _ else _) => destruct b
      | |- silent _ (match ?o with Some _ => _ | None => _ end) => destruct o
      end ].

Lemma provisionEsim_own_orders orderId sku quantity :
  silent (foreign_order orderId) (provisionEsim env orderId sku quantity).
Proof.
  unfold provisionEsim, pollEsimStatus, getAccountBalance, orderProfile,
    createOrderNote, updateOrderMeta, toString, property_of, sleep,
    console_log, console_error.
  apply silent_bind; [silence|intros _].
  apply silent_try_catch; [|intro; silence].
  apply silent_bind; [silence|intros account].
  apply silent_bind; [silence|intros _].
  destruct orderId as [z|]; [|apply silent_bind_throw].
  apply silent_bind_ret.
  apply silent_bind.
  - apply silent_call. cbn [foreign_order]. now rewrite String.eqb_refl.
  - intros order. silence.
Qed.

Lemma provision_item_orders_le orderId item h :
  (calls is_order_placement (issued (provision_item env orderId item) h) <= 1)%nat.
Proof.
  unfold provision_item. rewrite issued_bind.
  destruct (outcome _ h); rewrite ?issued_ret, ?app_nil_r;
    apply provisionEsim_orders_le.
Qed.

Lemma for_of_orders_le orderId items : forall h,
  (calls is_order_placement
     (issued (for_of items (provision_item env orderId)) h) <= length items)%nat.
Proof.
  induction items as [|x xs IH]; intros h; cbn [for_of length].
  - rewrite issued_ret. apply Nat.le_refl.
  - rewrite issued_bind.
    pose proof (provision_item_orders_le orderId x h).
    destruct (outcome (provision_item env orderId x) h); [|lia].
    rewrite calls_app. specialize (IH (h ++ issued (provision_item env orderId x) h)).
    lia.
Qed.

(** X8. The order-completed handler places at most one vendor order per eSIM
    line item, and every vendor order it places carries the id of the order
    as transaction id: an order without id places none, and the eSIM lines
    of one order share one transaction id. *)
Theorem vendor_orders_of_a_notification body h :
  let t := issued (handleWooCommerceOrderCompleted env body) h in
  (calls is_order_placement t <= length (esimItems body))%nat /\
  (forall tid sku q,
     In (OrderProfile tid sku q) t ->
     exists z, id body = Some z /\ tid = Js.number_toString z).
Proof.
  intros t. subst t. split.
  - unfold handleWooCommerceOrderCompleted, console_log, console_error.
    rewrite issued_bind, outcome_emit, issued_emit, issued_try_catch.
    rewrite issued_bind, outcome_bind, outcome_emit, issued_emit.
    pose proof (for_of_orders_le (id body) (esimItems body)
                  ((h ++ [ResJson 200 true])
                   ++ [ConsoleLog ("🔔 Processing order "
                                   ++ Js.interpolate_number (id body))%string])).
    destruct (outcome (for_of _ _) _); tally; cbn [is_order_placement]; lia.
  - intros tid sku0 q Hin.
    assert (S : silent (foreign_order (id body))
                  (handleWooCommerceOrderCompleted env body)).
    { unfold handleWooCommerceOrderCompleted, console_log, console_error.
      apply silent_bind; [silence|intros _].
      apply silent_try_catch; [|intro; silence].
      apply silent_bind; [silence|intros _].
      apply silent_for_of. intros item. unfold provision_item.
      apply silent_bind; [apply provisionEsim_own_orders|intro; silence]. }
    pose proof (calls_zero_In _ _ _ (S h) Hin) as F.
    cbn [foreign_order] in F. apply negb_false_iff in F.
    destruct (id body) as [z|]; [|discriminate].
    exists z. split; [reflexivity|]. now apply String.eqb_eq.
Qed.

End More.

(** *** The statements above on concrete collaborators *)

Lemma returning_run_witness :
  Js.truthy (iccid Scenario.issued_profile) = true /\
  exists z polls,
    Some 42%Z = Some z /\
    (1 <= calls is_poll polls <= 10)%nat /\
    filter (fun e => negb (is_poll e || is_sleep e)) polls = [] /\
    issued (provisionEsim Scenario.ready_on_third (Some 42%Z) "ESIM-JP-5" None) []
    = [ConsoleLog (start_line (Some 42%Z)); GetAccountBalance;
       OrderProfile (Js.number_toString z) "ESIM-JP-5" (default_quantity None);
       Sleep 5000]
      ++ polls
      ++ [CreateOrderNote (Some 42%Z) (formatEsimNote Scenario.issued_profile) true;
          UpdateOrderMeta (Some 42%Z)
            (provisioning_metadata Scenario.issued_profile);
          ConsoleLog (success_line (Some 42%Z))].
Proof.
  apply (returning_run_shape Scenario.ready_on_third (Some 42%Z) "ESIM-JP-5"
           None [] Scenario.issued_profile).
  vm_compute. reflexivity.
Defined.

Lemma failing_run_witness :
  exists cause t,
    issued (provisionEsim Scenario.short_of_funds (Some 42%Z) "ESIM-JP-5" None) []
    = ConsoleLog (start_line (Some 42%Z)) :: t
      ++ [ConsoleError "❌ Provisioning failed:" (Js.message cause);
          CreateOrderNote (Some 42%Z) (failure_note cause) true] /\
    Throw (Js.Error_ "Insufficient balance: $5")
    = rethrown (A := EsimDetails)
        (ledger_note Scenario.short_of_funds
           (calls is_note ([] ++ ConsoleLog (start_line (Some 42%Z)) :: t)))
        cause.
Proof.
  apply (failing_run_shape Scenario.short_of_funds (Some 42%Z) "ESIM-JP-5"
           None [] (Js.Error_ "Insufficient balance: $5")).
  vm_compute. reflexivity.
Defined.

Lemma rejected_order_witness :
  runs (provisionEsim Cases.rejecting_vendor (Some 42%Z) "ESIM-JP-5" None) []
    (Throw (Js.Error_ "ESIM API error: 400"))
    [ConsoleLog (start_line (Some 42%Z));
     GetAccountBalance;
     OrderProfile "42" "ESIM-JP-5" 1;
     ConsoleError "❌ Provisioning failed:" "ESIM API error: 400";
     CreateOrderNote (Some 42%Z)
       (failure_note (Js.Error_ "ESIM API error: 400")) true].
Proof.
  apply (rejected_order_is_not_polled Cases.rejecting_vendor 42%Z "ESIM-JP-5"
           None [] Scenario.funded (Js.Error_ "ESIM API error: 400")).
  - reflexivity.
  - simpl. lia.
  - reflexivity.
Defined.

Lemma missing_order_id_witness :
  let run := provisionEsim Scenario.ready_at_once None "ESIM-JP-5" None in
  (exists e, outcome run [] = Throw e) /\
  calls is_order_placement (issued run []) = 0%nat /\
  runs run []
    (Throw (Js.TypeError_undefined "toString"))
    [ConsoleLog (start_line None);
     GetAccountBalance;
     ConsoleError "❌ Provisioning failed:"
       "Cannot read properties of undefined (reading 'toString')";
     CreateOrderNote None
       (failure_note (Js.TypeError_undefined "toString")) true].
Proof.
  destruct (missing_order_id_places_no_order Scenario.ready_at_once
              "ESIM-JP-5" None []) as (Hfails & Hzero & Hrun).
  split; [exact Hfails|]. split; [exact Hzero|].
  apply (Hrun Scenario.funded).
  - reflexivity.
  - simpl. lia.
Defined.

Lemma rejected_metadata_witness :
  let e := Js.Error_ "Request failed with status code 500" in
  runs (provisionEsim Cases.ledger_without_metadata (Some 42%Z) "ESIM-JP-5" None)
    [] (Throw e)
    [ConsoleLog (start_line (Some 42%Z)); GetAccountBalance;
     OrderProfile "42" "ESIM-JP-5" 1; Sleep 5000;
     GetEsimByOrderNumber (Some "ON-42"%string);
     CreateOrderNote (Some 42%Z) (formatEsimNote Scenario.issued_profile) true;
     UpdateOrderMeta (Some 42%Z) (provisioning_metadata Scenario.issued_profile);
     ConsoleError "❌ Provisioning failed:" (Js.message e);
     CreateOrderNote (Some 42%Z) (failure_note e) true].
Proof.
  apply (rejected_metadata_leaves_both_notes Cases.ledger_without_metadata
           42%Z "ESIM-JP-5" None [] Scenario.funded Scenario.accepted_order
           Scenario.issued_profile
           (Js.Error_ "Request failed with status code 500")).
  - reflexivity.
  - simpl. lia.
  - reflexivity.
  - vm_compute. reflexivity.
  - reflexivity.
  - reflexivity.
Defined.

End ProvisioningMore.

Module ReconcilerMore.

Import Js Reconciler ReconcilerFacts Terms.
Local Open Scope string_scope.
Local Open Scope list_scope.

(** ** What the webhook can do to the entities *)

Lemma rewritten_identity p v rows :
  Forall2 keeps_identity rows (rewritten p v rows).
Proof.
  induction rows as [|e rows IH]; cbn; constructor; [|exact IH].
  destruct (iccid e =? v)%string; repeat split.
Qed.

Lemma identity_refl rows : Forall2 keeps_identity rows rows.
Proof. induction rows; constructor; [repeat split|assumption]. Qed.

Lemma rewritten_absent p v rows :
  (forall e, In e rows -> iccid e <> v) -> rewritten p v rows = rows.
Proof.
  intros H. unfold rewritten.
  induction rows as [|e rows IH]; [reflexivity|].
  cbn [map]. rewrite IH by (intros e' He'; apply H; now right).
  destruct (iccid e =? v)%string eqn:E; [|reflexivity].
  apply String.eqb_eq in E. exfalso. apply (H e); [now left|exact E].
Qed.

Lemma esims_handleUsageThreshold data w :
  esims (handleUsageThreshold data w) = esims w.
Proof.
  unfold handleUsageThreshold.
  destruct (select_user_id_single _ w) as [esim w1] eqn:E1.
  assert (W1 : esims w1 = esims w).
  { replace w1 with (snd (select_user_id_single (eq_value (w_iccid data)) w))
      by now rewrite E1.
    reflexivity. }
  destruct esim as [selected|]; [|exact W1].
  rewrite <- W1. reflexivity.
Qed.

(** The entities after [dispatch]: rewritten with the update of a
    lifecycle tag when the store accepts the call, untouched otherwise. *)
Lemma esims_dispatch data w :
  esims (dispatch data w)
  = match event data with
    | Some tag =>
        match lifecycle_update tag data (new_Date w), next_fault w with
        | Some p, None => rewritten p (eq_value (w_iccid data)) (esims w)
        | _, _ => esims w
        end
    | None => esims w
    end.
Proof.
  destruct (event data) as [tag|] eqn:Hev.
  - destruct (lifecycle_update tag data (new_Date w)) as [p|] eqn:Hp.
    + rewrite (dispatch_lifecycle data w tag p Hev Hp).
      now destruct (next_fault w).
    + unfold dispatch. rewrite Hev. unfold lifecycle_update in Hp.
      repeat match type of Hp with
             | (if ?b then _ else _) = _ => destruct b
             end; try discriminate.
      destruct (tag =? "usage.threshold")%string;
        [apply esims_handleUsageThreshold|].
      now destruct (tag =? "balance.low")%string.
  - unfold dispatch. rewrite Hev. reflexivity.
Qed.

Lemma webhook_other v w :
  (forall data, v <> WObject data) ->
  esims (snd (webhook (Return v) w)) = esims w /\
  queries (snd (webhook (Return v) w)) = queries w ++ [Insert "system_logs"].
Proof.
  intros H. unfold webhook.
  destruct (insert _ _ _) as [ignored w2] eqn:E.
  assert (W2 : w2 = snd (insert "system_logs"
                 (SystemLog "info" "esim-webhook" "Webhook received" v
                    (new_Date (logger_info "Received ESIM webhook:" (WebhookDetail v) w)))
                 (logger_info "Received ESIM webhook:" (WebhookDetail v) w)))
    by now rewrite E.
  destruct v as [|j|data]; [| |now destruct (H data)]; cbn [snd];
    rewrite W2; split; reflexivity.
Qed.

(** Whatever its [JSON.parse] yields and whatever the store answers, the
    route's handler keeps the entities and their identifying columns. *)
Lemma handler_keeps_the_entities parsed w :
  Forall2 keeps_identity (esims w) (esims (snd (webhook parsed w))).
Proof.
  destruct parsed as [v|error]; [|apply identity_refl].
  destruct v as [|j|data].
  - rewrite (proj1 (webhook_other WNull w ltac:(discriminate))).
    apply identity_refl.
  - rewrite (proj1 (webhook_other (WPrimitive j) w ltac:(discriminate))).
    apply identity_refl.
  - rewrite webhook_object. cbn [snd]. rewrite esims_dispatch.
    change (esims (audited (WObject data) w)) with (esims w).
    destruct (event data) as [tag|]; [|apply identity_refl].
    destruct (lifecycle_update _ _ _); [|apply identity_refl].
    destruct (next_fault _); [apply identity_refl|apply rewritten_identity].
Qed.

(** X9. Whatever body of content type application/json is posted to
    /esim/webhook and whatever the store answers, the server answers 200
    unless the body parser of server.js refused the body; a refused body
    (malformed JSON, a body above the limit) is answered by the global
    error handler with the status of the parser's error, 500 when it has
    none. In every case no entity is created or deleted, and no entity's
    id, ICCID, owning user or owning order changes. *)
Theorem webhook_keeps_the_entities engine ip d w :
  let result := Server.deliver engine ip d w in
  status_code (fst result)
    = match d with
      | Server.Refused status _ => if (status =? 0)%Z then 500%Z else status
      | Server.Passed _ => 200%Z
      end /\
  Forall2 keeps_identity (esims w) (esims (snd result)).
Proof.
  intros result. subst result. destruct d as [status error|b].
  - split; [reflexivity|apply identity_refl].
  - split; [apply webhook_always_200|].
    apply (handler_keeps_the_entities _ (Server.request_logged ip w)).
Qed.

Lemma lifecycle_update_none tag data now :
  lifecycle_target tag = None -> lifecycle_update tag data now = None.
Proof.
  unfold lifecycle_target, lifecycle_update. intros H.
  repeat match type of H with
         | (if ?b then _ else _) = _ => destruct b
         end; try discriminate; reflexivity.
Qed.

Lemma updates_app q1 q2 :
  filter is_esims_update (q1 ++ q2)
  = filter is_esims_update q1 ++ filter is_esims_update q2.
Proof. apply filter_app. Qed.

Lemma queries_handleUsageThreshold data w :
  filter is_esims_update (queries (handleUsageThreshold data w))
  = filter is_esims_update (queries w).
Proof.
  unfold handleUsageThreshold.
  destruct (select_user_id_single _ w) as [esim w1] eqn:E1.
  assert (W1 : queries w1
               = queries w ++ [SelectSingle "esims" "user_id" "iccid"
                                 (eq_value (w_iccid data))]).
  { replace w1 with (snd (select_user_id_single (eq_value (w_iccid data)) w))
      by now rewrite E1.
    reflexivity. }
  destruct esim as [selected|].
  - cbn [insert snd queries]. rewrite W1, !updates_app. cbn. now rewrite !app_nil_r.
  - rewrite W1, updates_app. cbn. now rewrite app_nil_r.
Qed.

Lemma queries_dispatch_other data w :
  (forall tag, event data = Some tag -> lifecycle_target tag = None) ->
  filter is_esims_update (queries (dispatch data w))
  = filter is_esims_update (queries w).
Proof.
  intros H. unfold dispatch.
  destruct (event data) as [tag|]; [|reflexivity].
  specialize (H tag eq_refl). unfold lifecycle_target in H.
  repeat match type of H with
         | (if ?b then _ else _) = _ => destruct b
         end; try discriminate.
  destruct (tag =? "usage.threshold")%string;
    [apply queries_handleUsageThreshold|].
  destruct (tag =? "balance.low")%string; [|reflexivity].
  cbn [handleBalanceLow insert snd queries]. rewrite updates_app. cbn.
  now rewrite app_nil_r.
Qed.

(** X10. A delivery that carries no lifecycle event (a payload that does not
    parse, a value that is no object, an event tag that is missing, unknown,
    usage.threshold or balance.low) leaves every entity as it is and issues
    no update of the esims table. *)
Theorem event_without_target_touches_no_entity parsed w :
  (forall data tag,
     parsed = Return (WObject data) -> event data = Some tag ->
     lifecycle_target tag = None) ->
  esims (snd (webhook parsed w)) = esims w /\
  filter is_esims_update (queries (snd (webhook parsed w)))
  = filter is_esims_update (queries w).
Proof.
  intros H. destruct parsed as [v|error]; [|split; reflexivity].
  destruct v as [|j|data].
  - destruct (webhook_other WNull w ltac:(discriminate)) as [-> ->].
    rewrite updates_app. cbn. now rewrite app_nil_r.
  - destruct (webhook_other (WPrimitive j) w ltac:(discriminate)) as [-> ->].
    rewrite updates_app. cbn. now rewrite app_nil_r.
  - rewrite webhook_object. cbn [snd]. split.
    + rewrite esims_dispatch.
      destruct (event data) as [tag|] eqn:Hev; [|reflexivity].
      rewrite (lifecycle_update_none tag data _ (H data tag eq_refl Hev)).
      reflexivity.
    + rewrite queries_dispatch_other
        by (intros tag Ht; exact (H data tag eq_refl Ht)).
      rewrite (proj1 (proj2 (proj2 (proj2 (audited_fields (WObject data) w))))).
      rewrite updates_app. cbn. now rewrite app_nil_r.
Qed.

(** X11. A profile.activated event whose ICCID no entity has changes no
    entity and is still recorded as an activation: the ACTIVATED row is
    appended to the activation log and the success line is logged. *)
Theorem activation_of_an_unknown_iccid_is_logged_as_success data w :
  event data = Some "profile.activated" ->
  store_available w ->
  (forall e, In e (esims w) -> iccid e <> eq_value (w_iccid data)) ->
  let w' := snd (webhook (Return (WObject data)) w) in
  esims w' = esims w /\
  esim_activation_logs w'
  = esim_activation_logs w
    ++ [ActivationLog (profileId data) "ACTIVATED" data (new_Date w)] /\
  In {| level := "info";
        text := "eSIM " ++ Js.interpolate (w_iccid data)
                ++ " activated successfully";
        detail := NoDetail |} (logger w').
Proof.
  intros Hev Havail Habsent w'. subst w'. split; [|split].
  - rewrite webhook_object. cbn [snd]. rewrite esims_dispatch, Hev.
    change (esims (audited (WObject data) w)) with (esims w).
    destruct (lifecycle_update _ _ _); [|reflexivity].
    destruct (next_fault _); [reflexivity|].
    now apply rewritten_absent.
  - now apply activation_logged.
  - rewrite webhook_object. cbn [snd].
    unfold dispatch. rewrite Hev. cbn [String.eqb Ascii.eqb Bool.eqb].
    unfold handleProfileActivated.
    destruct (update_esims _ _ _) as [error w1] eqn:E1.
    assert (F : error = None).
    { replace error with (fst (update_esims
          (activated_update data (new_Date (audited (WObject data) w)))
          (eq_value (w_iccid data)) (audited (WObject data) w)))
        by now rewrite E1.
      cbn [update_esims fst]. apply (available_audited _ _ Havail). }
    subst error.
    destruct (insert _ _ w1) as [ignored w2].
    unfold logger_info, log_with. cbn [logger].
    apply in_or_app. right. now left.
Qed.

Lemma logger_audited v w :
  logger (audited v w)
  = logger w ++ [{| level := "info"; text := "Received ESIM webhook:";
                    detail := WebhookDetail v |}].
Proof. reflexivity. Qed.

Lemma next_fault_audited v w :
  next_fault (audited v w) = db_fault w (S (length (queries w))).
Proof.
  unfold next_fault.
  rewrite (proj1 (proj2 (proj2 (proj2 (audited_fields v w))))).
  rewrite (proj1 (proj2 (audited_fields v w))).
  now rewrite length_app, Nat.add_1_r.
Qed.

(** What the handlers of the lifecycle events leave when the store
    rejects their update. *)
Lemma rejected_update data w tag target msg :
  event data = Some tag ->
  lifecycle_target tag = Some target ->
  next_fault w = Some msg ->
  esims (dispatch data w) = esims w /\
  rows_of "esim_activation_logs" (dispatch data w)
  = rows_of "esim_activation_logs" w /\
  logger (dispatch data w)
  = logger w
    ++ (if (tag =? "profile.activated")%string
        then [{| level := "error"; text := "Failed to update activated eSIM:";
                 detail := StoreErrorDetail msg |}]
        else []).
Proof.
  intros Hev Ht Hf. split.
  - rewrite esims_dispatch, Hev, Hf. now destruct (lifecycle_update _ _ _).
  - unfold dispatch. rewrite Hev. unfold lifecycle_target in Ht.
    destruct (tag =? "profile.activated")%string.
    { unfold handleProfileActivated.
      destruct (update_esims _ _ w) as [error w1] eqn:E1.
      assert (F : error = Some msg).
      { replace error with (fst (update_esims
            (activated_update data (new_Date w)) (eq_value (w_iccid data)) w))
          by now rewrite E1.
        exact Hf. }
      assert (W1 : w1 = snd (update_esims
            (activated_update data (new_Date w)) (eq_value (w_iccid data)) w))
        by now rewrite E1.
      subst error. rewrite W1. split; reflexivity. }
    repeat match type of Ht with
           | (if ?b then _ else _) = _ => destruct b
           end; try discriminate;
      (split; [reflexivity|cbn; now rewrite app_nil_r]).
Qed.

(** X12. When the store rejects the update of a lifecycle event, the
    delivery is still acknowledged with 200, the entities stay as they were
    and nothing is added to the activation log; for every event but
    profile.activated the application log holds no trace of the failure. *)
Theorem rejected_update_is_acknowledged data w tag target msg :
  event data = Some tag ->
  lifecycle_target tag = Some target ->
  db_fault w (S (length (queries w))) = Some msg ->
  let result := webhook (Return (WObject data)) w in
  acknowledged (fst result) /\
  esims (snd result) = esims w /\
  esim_activation_logs (snd result) = esim_activation_logs w /\
  (tag <> "profile.activated" ->
   logger (snd result)
   = logger w ++ [{| level := "info"; text := "Received ESIM webhook:";
                     detail := WebhookDetail (WObject data) |}]).
Proof.
  intros Hev Ht Hf result. subst result.
  rewrite webhook_object. cbn [fst snd].
  split; [split; [reflexivity|eexists; reflexivity]|].
  destruct (rejected_update data (audited (WObject data) w) tag target msg
              Hev Ht) as (He & Ha & Hl).
  { now rewrite next_fault_audited. }
  split; [exact He|]. split.
  - unfold esim_activation_logs. rewrite Ha.
    unfold audited. rewrite rows_of_insert.
    now destruct (next_fault _); [|rewrite app_nil_r].
  - intros Hne. rewrite Hl, logger_audited.
    apply String.eqb_neq in Hne. rewrite Hne. apply app_nil_r.
Qed.

(** X13. The usage-threshold handler writes its notification exactly when
    the lookup succeeds, exactly one entity has the ICCID and the insert is
    accepted, and addresses it to that entity's user. With no entity or with
    several entities of that ICCID the alert is dropped. *)
Theorem usage_alert_needs_exactly_one_entity data w :
  rows_of "user_notifications" (handleUsageThreshold data w)
  = rows_of "user_notifications" w
    ++ match next_fault w,
             filter (fun e => iccid e =? eq_value (w_iccid data))%string (esims w),
             db_fault w (S (length (queries w))) with
       | None, [e], None => [usage_alert data e (new_Date w)]
       | _, _, _ => []
       end.
Proof.
  unfold handleUsageThreshold.
  destruct (select_user_id_single _ w) as [esim w1] eqn:E1.
  assert (W1 : w1 = snd (select_user_id_single (eq_value (w_iccid data)) w))
    by now rewrite E1.
  assert (D1 : esim = fst (select_user_id_single (eq_value (w_iccid data)) w))
    by now rewrite E1.
  unfold select_user_id_single in D1. cbn [fst] in D1.
  assert (N1 : next_fault w1 = db_fault w (S (length (queries w)))).
  { rewrite W1. unfold next_fault. cbn [select_user_id_single snd db_fault queries].
    now rewrite length_app, Nat.add_1_r. }
  assert (R1 : rows_of "user_notifications" w1 = rows_of "user_notifications" w)
    by now rewrite W1.
  assert (C1 : new_Date w1 = new_Date w) by now rewrite W1.
  destruct (next_fault w) as [msg|].
  { subst esim. rewrite R1. now rewrite app_nil_r. }
  destruct (filter _ (esims w)) as [|e [|e' rest]].
  - subst esim. rewrite R1. now rewrite app_nil_r.
  - subst esim. cbn [column String.eqb Ascii.eqb Bool.eqb].
    rewrite rows_of_insert, N1, R1, C1.
    destruct (db_fault w (S (length (queries w)))); [now rewrite app_nil_r|].
    reflexivity.
  - subst esim. rewrite R1. now rewrite app_nil_r.
Qed.

Lemma select_found x w selected :
  fst (select_user_id_single x w) = Some selected ->
  next_fault w = None /\
  exists e, filter (fun e => iccid e =? x)%string (esims w) = [e] /\
            selected = [("user_id", JString (user_id e))].
Proof.
  unfold select_user_id_single. cbn [fst].
  destruct (next_fault w); [discriminate|].
  destruct (filter _ (esims w)) as [|e [|e' rest]]; try discriminate.
  cbn [column String.eqb Ascii.eqb Bool.eqb]. intros [= <-].
  split; [reflexivity|]. now exists e.
Qed.

(** X14. The usage endpoint answers 200 only when the lookup succeeded,
    exactly one entity has the ICCID, the caller is its owner or an admin,
    and the vendor answered. With any other status no entity is changed and
    no update is issued. *)
Theorem usage_is_guarded user x usageCheck w :
  let result := usage_route user x usageCheck w in
  (status_code (fst result) = 200%Z ->
   next_fault w = None /\
   exists e usage_data,
     filter (fun e => iccid e =? x)%string (esims w) = [e] /\
     (user_id e = uid user \/ role user = "admin") /\
     usageCheck = Return usage_data /\
     body (fst result) = Success usage_data) /\
  (status_code (fst result) <> 200%Z ->
   esims (snd result) = esims w /\
   filter is_esims_update (queries (snd result))
   = filter is_esims_update (queries w)).
Proof.
  intros result. subst result. unfold usage_route.
  destruct (select_user_id_single x w) as [esim w1] eqn:E1.
  assert (W1 : w1 = snd (select_user_id_single x w)) by now rewrite E1.
  assert (D1 : fst (select_user_id_single x w) = esim) by now rewrite E1.
  assert (Q1 : esims w1 = esims w /\
               filter is_esims_update (queries w1)
               = filter is_esims_update (queries w)).
  { rewrite W1. split; [reflexivity|].
    cbn [select_user_id_single snd queries]. rewrite updates_app. cbn.
    now rewrite app_nil_r. }
  destruct esim as [selected|].
  2:{ cbn [fst snd status_code]. split; [discriminate|intros _; exact Q1]. }
  destruct (select_found x w selected D1) as (F0 & e & Hone & ->).
  cbn [get String.eqb Ascii.eqb Bool.eqb differs_from].
  destruct (negb (user_id e =? uid user)%string
            && negb (role user =? "admin")%string) eqn:G.
  { cbn [fst snd status_code]. split; [discriminate|intros _; exact Q1]. }
  destruct usageCheck as [usage_data|error].
  2:{ cbn [fst snd status_code]. split; [discriminate|intros _; exact Q1]. }
  destruct (update_esims _ _ w1) as [ignored w2]. cbn [fst snd status_code body].
  split; [|intros H; now destruct H].
  intros _. split; [exact F0|]. exists e, usage_data.
  split; [exact Hone|]. split; [|split; reflexivity].
  apply andb_false_iff in G. destruct G as [G|G]; apply negb_false_iff in G;
    apply String.eqb_eq in G; auto.
Qed.

(** *** The statements above on concrete stores *)

Lemma event_without_target_witness :
  let w := Scenario.store_of [Scenario.esim_in ACTIVE] in
  let parsed := Return (WObject Cases.low_balance_event) in
  esims (snd (webhook parsed w)) = esims w /\
  filter is_esims_update (queries (snd (webhook parsed w)))
  = filter is_esims_update (queries w).
Proof.
  apply (event_without_target_touches_no_entity
           (Return (WObject Cases.low_balance_event))
           (Scenario.store_of [Scenario.esim_in ACTIVE])).
  intros data tag [= <-] [= <-]. reflexivity.
Defined.

Lemma unknown_iccid_witness :
  let data := Scenario.event_for_X "profile.activated" in
  let w := Scenario.store_of [] in
  let w' := snd (webhook (Return (WObject data)) w) in
  esims w' = esims w /\
  esim_activation_logs w'
  = esim_activation_logs w
    ++ [ActivationLog (profileId data) "ACTIVATED" data (new_Date w)] /\
  In {| level := "info";
        text := "eSIM X activated successfully";
        detail := NoDetail |} (logger w').
Proof.
  apply (activation_of_an_unknown_iccid_is_logged_as_success
           (Scenario.event_for_X "profile.activated") (Scenario.store_of [])).
  - reflexivity.
  - intros n. reflexivity.
  - intros e [].
Defined.

Lemma rejected_update_witness :
  let data := Scenario.event_for_X "profile.suspended" in
  let w := Cases.store_losing_the_update [Scenario.esim_in ACTIVE] in
  let result := webhook (Return (WObject data)) w in
  acknowledged (fst result) /\
  esims (snd result) = esims w /\
  esim_activation_logs (snd result) = esim_activation_logs w /\
  ("profile.suspended" <> "profile.activated" ->
   logger (snd result)
   = logger w ++ [{| level := "info"; text := "Received ESIM webhook:";
                     detail := WebhookDetail (WObject data) |}]).
Proof.
  apply (rejected_update_is_acknowledged
           (Scenario.event_for_X "profile.suspended")
           (Cases.store_losing_the_update [Scenario.esim_in ACTIVE])
           "profile.suspended" SUSPENDED "connection reset").
  - reflexivity.
  - reflexivity.
  - reflexivity.
Defined.

End ReconcilerMore.

Module FormatFacts.

Import Format.
Local Open Scope string_scope.

Lemma round_near num den :
  (0 < den)%Z ->
  (Z.abs (2 * (round num den * den - num)) <= den)%Z.
Proof.
  intros Hd. unfold round.
  pose proof (Z.div_mod (2 * num + den) (2 * den) ltac:(lia)) as E.
  pose proof (Z.mod_pos_bound (2 * num + den) (2 * den) ltac:(lia)) as B.
  set (q := ((2 * num + den) / (2 * den))%Z) in *.
  nia.
Qed.

(** X15. [formatBytes] of a positive integer byte count prints a number
    within half a unit of its last digit: whole megabytes below 1 GiB (so
    1024MB for the last half mebibyte below it), the plain number of
    gibibytes for a whole number of them, and gibibytes with one decimal
    otherwise. *)
Theorem formatBytes_is_near b :
  (0 < b < 2 ^ 53)%Z ->
  (b < GB ->
   exists m,
     formatBytes (Some b) = Js.number_toString m ++ "MB" /\
     (0 <= m <= 1024)%Z /\
     (Z.abs (2 * (m * MB - b)) <= MB)%Z)%Z /\
  (GB - MB / 2 <= b < GB -> formatBytes (Some b) = "1024MB")%Z /\
  (GB <= b -> b mod GB = 0 ->
   formatBytes (Some b) = Js.number_toString (b / GB) ++ "GB")%Z /\
  (GB <= b -> b mod GB <> 0 ->
   exists whole tenth,
     formatBytes (Some b)
     = (Js.number_toString whole ++ "." ++ Js.number_toString tenth) ++ "GB" /\
     (1 <= whole)%Z /\ (0 <= tenth <= 9)%Z /\
     (Z.abs (2 * ((10 * whole + tenth) * GB - 10 * b)) <= GB)%Z)%Z.
Proof.
  intros [Hb _].
  assert (HGB : GB = 1073741824%Z) by reflexivity.
  assert (HMB : MB = 1048576%Z) by reflexivity.
  assert (Hpos : (b <=? 0)%Z = false) by (apply Z.leb_gt; lia).
  unfold formatBytes. rewrite Hpos.
  repeat split.
  - intros Hlt. assert ((GB <=? b)%Z = false) as -> by (apply Z.leb_gt; lia).
    exists (round b MB). split; [reflexivity|].
    pose proof (round_near b MB ltac:(lia)) as N.
    split; [|exact N]. lia.
  - intros [Hlo Hhi].
    assert ((GB <=? b)%Z = false) as -> by (apply Z.leb_gt; lia).
    assert (round b MB = 1024%Z) as ->; [|reflexivity].
    unfold round. rewrite HMB in *. rewrite HGB in *.
    change (1048576 / 2)%Z with 524288%Z in Hlo.
    symmetry.
    apply Z.div_unique with (r := (2 * b + 1048576 - 2 * 1048576 * 1024)%Z); lia.
  - intros Hge Hmod.
    assert ((GB <=? b)%Z = true) as -> by (apply Z.leb_le; lia).
    now rewrite Hmod.
  - intros Hge Hmod.
    assert ((GB <=? b)%Z = true) as -> by (apply Z.leb_le; lia).
    assert ((b mod GB =? 0)%Z = false) as -> by (apply Z.eqb_neq; exact Hmod).
    unfold toFixed1.
    set (n := ((2 * 10 * b + GB) / (2 * GB))%Z).
    exists (n / 10)%Z, (n mod 10)%Z. split; [reflexivity|].
    pose proof (Z.div_mod (2 * 10 * b + GB) (2 * GB) ltac:(lia)) as E.
    pose proof (Z.mod_pos_bound (2 * 10 * b + GB) (2 * GB) ltac:(lia)) as B.
    fold n in E.
    pose proof (Z.div_mod n 10 ltac:(lia)) as E10.
    pose proof (Z.mod_pos_bound n 10 ltac:(lia)) as B10.
    assert (10 <= n)%Z by (apply Z.div_le_lower_bound; lia).
    split; [apply Z.div_le_lower_bound; lia|].
    split; [lia|]. lia.
Qed.

Lemma formatBytes_witness :
  formatBytes (Some 1073741823%Z) = "1024MB" /\
  formatBytes (Some 5368709120%Z) = "5GB".
Proof.
  destruct (formatBytes_is_near 1073741823 ltac:(lia)) as (_ & Q & _).
  destruct (formatBytes_is_near 5368709120 ltac:(lia)) as (_ & _ & G & _).
  split.
  - apply Q. vm_compute. split; [discriminate|reflexivity].
  - apply G; [vm_compute; discriminate|reflexivity].
Defined.

End FormatFacts.

Module GatewayFacts.

Import Provisioning Reconciler Gateway Terms.
Import ProvisioningFacts ProvisioningMore.
Local Open Scope string_scope.

(** *** The manual trigger *)

Lemma manual_run env body h :
  manuallyProvisionEsim env body h
  = (match outcome (provisionEsim env (m_orderId body) (m_sku body)
                      (Some (default_quantity (m_quantity body)))) h with
     | Return data => Provisioned data
     | Throw error => ProvisioningFailed (Js.message error)
     end,
     issued (provisionEsim env (m_orderId body) (m_sku body)
               (Some (default_quantity (m_quantity body)))) h).
Proof.
  unfold manuallyProvisionEsim, outcome, issued.
  now destruct (provisionEsim _ _ _ _ h).
Qed.

(** The end of a run that fails, and what it raises when the ledger took
    the failure note. *)
Lemma failed_trace env orderId sku quantity h e :
  outcome (provisionEsim env orderId sku quantity) h = Throw e ->
  exists cause t,
    issued (provisionEsim env orderId sku quantity) h
    = (t ++ [CreateOrderNote orderId (failure_note cause) true])%list /\
    (ledger_note env (calls is_note (h ++ t)%list) = None -> e = cause).
Proof.
  intros H. unfold provisionEsim, console_log in *.
  rewrite outcome_bind, outcome_emit, issued_emit in H.
  rewrite issued_bind, outcome_emit, issued_emit.
  apply try_catch_throws in H. destruct H as (cause & _ & Hrec & ->).
  match goal with
  | |- context [issued ?m (h ++ [?l])%list] =>
      set (t := issued m (h ++ [l])%list) in *; set (line := l) in *
  end.
  pose proof (recover_run env orderId cause ((h ++ [line]) ++ t)%list) as R.
  rewrite (runs_outcome _ _ _ _ R) in Hrec.
  rewrite (runs_issued _ _ _ _ R).
  exists cause,
    (line :: t ++ [ConsoleError "❌ Provisioning failed:" (Js.message cause)])%list.
  split.
  - cbn [app]. now rewrite <- !app_assoc.
  - intros Hn. unfold rethrown in Hrec.
    replace (calls is_note ((h ++ [line]) ++ t)%list)
      with (calls is_note
              (h ++ line :: t
                 ++ [ConsoleError "❌ Provisioning failed:" (Js.message cause)])%list)
      in Hrec.
    + rewrite Hn in Hrec. now injection Hrec.
    + rewrite <- (app_assoc h [line]). cbn [app].
      rewrite !calls_app, !calls_cons, !calls_app, calls_cons, calls_nil.
      subst line. cbn [is_note]. lia.
Qed.

(** X16. What the manual trigger answers agrees with what the order carries:
    a 200 reply holds a profile with an ICCID, and the success note and the
    metadata update for that profile were sent; a 500 reply follows the
    failure note as the last call, and its error text is the one in that
    note whenever the ledger took the note. *)
Theorem manual_reply_matches_the_order env body h :
  let reply := fst (manuallyProvisionEsim env body h) in
  let t := snd (manuallyProvisionEsim env body h) in
  match reply with
  | Provisioned d =>
      Js.truthy (Provisioning.iccid d) = true /\
      In (CreateOrderNote (m_orderId body) (formatEsimNote d) true) t /\
      In (UpdateOrderMeta (m_orderId body) (provisioning_metadata d)) t
  | ProvisioningFailed message =>
      exists cause before,
        t = (before
             ++ [CreateOrderNote (m_orderId body) (failure_note cause) true])%list /\
        (ledger_note env (calls is_note (h ++ before)%list) = None ->
         message = Js.message cause)
  end.
Proof.
  intros reply t. subst reply t. rewrite manual_run. cbn [fst snd].
  destruct (outcome _ h) as [d|e] eqn:H.
  - destruct (returned_inversion _ _ _ _ _ _ H)
      as (z & account & order & Hz & Hb & Hge & Ho & Hout & Hn & Hm).
    rewrite Hz in *.
    rewrite (runs_issued _ _ _ _
               (returned_run _ z _ _ h account order d Hb Hge Ho Hout Hn Hm)).
    unfold pollEsimStatus in Hout.
    split; [exact (proj1 (poll_loop_returns _ _ _ _ _ _ _ Hout))|].
    split; apply in_or_app; right; apply in_or_app; right; cbn; auto.
  - destruct (failed_trace _ _ _ _ _ _ H) as (cause & before & Ht & He).
    exists cause, before. split; [exact Ht|].
    intros Hn. now rewrite (He Hn).
Qed.

(** *** Strings *)

Lemma prefix_split p s :
  prefix p s = true -> s = p ++ drop (String.length p) s.
Proof.
  revert s. induction p as [|a p IH]; intros s H; [reflexivity|].
  destruct s as [|b s]; [discriminate|].
  cbn [prefix] in H. destruct (ascii_dec a b) as [<-|]; [|discriminate].
  cbn [String.length drop append]. f_equal. now apply IH.
Qed.

Lemma prefix_append p s : prefix p (p ++ s) = true.
Proof.
  induction p as [|a p IH]; cbn [append prefix]; [now destruct s|].
  destruct (ascii_dec a a); [exact IH|congruence].
Qed.

Lemma drop_append p s : drop (String.length p) (p ++ s) = s.
Proof. induction p as [|a p IH]; [reflexivity|exact IH]. Qed.

Lemma replace_prefix p s : prefix p s = true -> replace p EmptyString s = drop (String.length p) s.
Proof.
  intros H. destruct s as [|c s]; cbn [replace]; now rewrite H.
Qed.

(** The key under which an entry whose key starts with [_esim_] is
    reported is [k] exactly when the entry's key is [_esim_k]. *)
Lemma stripped_key k' k :
  startsWith "_esim_" k' = true ->
  (replace "_esim_" EmptyString k' =? k) = (k' =? "_esim_" ++ k).
Proof.
  intros H. unfold startsWith in H.
  rewrite (replace_prefix _ _ H).
  pose proof (prefix_split _ _ H) as E.
  destruct (String.eqb_spec (drop (String.length "_esim_") k') k) as [Hd|Hd].
  - symmetry. apply String.eqb_eq. now rewrite E at 1; rewrite Hd.
  - symmetry. apply String.eqb_neq. intros Hk. apply Hd.
    rewrite Hk. apply (drop_append "_esim_").
Qed.

Lemma not_prefixed k' k :
  startsWith "_esim_" k' = false -> (k' =? "_esim_" ++ k) = false.
Proof.
  intros H. apply String.eqb_neq. intros ->.
  unfold startsWith in H. now rewrite (prefix_append "_esim_") in H.
Qed.

(** *** Objects *)

Lemma get_put k k' v obj :
  get k (put k' v obj) = if k' =? k then Some v else get k obj.
Proof.
  induction obj as [|[k0 v0] obj IH]; cbn [put get].
  - now destruct (k' =? k).
  - destruct (k0 =? k') eqn:E0; cbn [get].
    + apply String.eqb_eq in E0. subst k0. now destruct (k' =? k).
    + destruct (k0 =? k) eqn:E1.
      * apply String.eqb_eq in E1. subst k0.
        rewrite String.eqb_sym in E0. now rewrite E0.
      * exact IH.
Qed.

Lemma get_assign k k' v obj :
  get k (assign k' v obj)
  = if (k' =? k) && negb (k' =? "__proto__") then Some v else get k obj.
Proof.
  unfold assign. destruct (k' =? "__proto__").
  - now rewrite andb_false_r.
  - rewrite get_put, andb_true_r. reflexivity.
Qed.

Lemma collect_all k metas : forall acc found,
  k <> "__proto__" ->
  get k acc = found ->
  get k (fold_left collect_meta metas acc)
  = fold_left
      (fun found meta =>
         match key meta with
         | Some k' => if k' =? "_esim_" ++ k then Some (value meta) else found
         | None => found
         end)
      metas found.
Proof.
  induction metas as [|meta metas IH]; intros acc found Hk Hacc; [exact Hacc|].
  cbn [fold_left]. apply IH; [exact Hk|].
  unfold collect_meta. destruct (key meta) as [k'|]; [|exact Hacc].
  destruct (startsWith "_esim_" k') eqn:P.
  - rewrite get_assign, (stripped_key _ _ P).
    destruct (k' =? "_esim_" ++ k) eqn:E; [|exact Hacc].
    apply String.eqb_eq in E. subst k'. unfold startsWith in P.
    rewrite (replace_prefix _ _ P), (drop_append "_esim_").
    apply String.eqb_neq in Hk. now rewrite Hk.
  - now rewrite (not_prefixed _ _ P).
Qed.

Lemma collect_proto metas : forall acc,
  get "__proto__" acc = None ->
  get "__proto__" (fold_left collect_meta metas acc) = None.
Proof.
  induction metas as [|meta metas IH]; intros acc Hacc; [exact Hacc|].
  cbn [fold_left]. apply IH.
  unfold collect_meta. destruct (key meta) as [k'|]; [|exact Hacc].
  destruct (startsWith "_esim_" k'); [|exact Hacc].
  rewrite get_assign.
  destruct (replace "_esim_" EmptyString k' =? "__proto__"); [|exact Hacc].
  cbn. exact Hacc.
Qed.

(** X17. The status endpoint reports under the key k the value of the last
    metadata entry whose key is _esim_k, and nothing else: entries without
    the prefix are left out, and so is the key __proto__. *)
Theorem status_reads_the_prefixed_keys metas :
  exists data,
    getProvisioningStatus (Return {| meta_data := Some metas |})
    = StatusData data /\
    forall k,
      get k data
      = if k =? "__proto__" then None else last_value ("_esim_" ++ k) metas.
Proof.
  eexists. split; [reflexivity|]. intros k.
  unfold esimMeta_of, last_value. cbn [meta_data].
  destruct (String.eqb_spec k "__proto__") as [->|Hk].
  - now apply collect_proto.
  - now apply collect_all.
Qed.

End GatewayFacts.

Module AuthFacts.

Import Auth.
Local Open Scope string_scope.

Lemma includes_space_cons c s :
  Js.includes " " (String c s) = false ->
  Ascii.eqb c " " = false /\ Js.includes " " s = false.
Proof.
  cbn [Js.includes prefix].
  destruct (ascii_dec " " c) as [<-|N].
  - now destruct s.
  - intros H. split; [|exact H].
    apply Ascii.eqb_neq. congruence.
Qed.

Lemma split_word s : Js.includes " " s = false -> split " " s = [s].
Proof.
  induction s as [|c s IH]; intros H; [reflexivity|].
  apply includes_space_cons in H. destruct H as [Hc Hs].
  cbn [split]. rewrite Hc, (IH Hs). reflexivity.
Qed.

Lemma split_first s rest :
  Js.includes " " s = false ->
  split " " (s ++ " " ++ rest) = s :: split " " rest.
Proof.
  induction s as [|c s IH]; intros H; [reflexivity|].
  apply includes_space_cons in H. destruct H as [Hc Hs].
  cbn [append split]. rewrite Hc.
  change (s ++ String " " rest) with (s ++ " " ++ rest).
  rewrite (IH Hs). reflexivity.
Qed.

Lemma header_not_empty s rest : (s ++ " " ++ rest =? EmptyString) = false.
Proof. now destruct s. Qed.

Lemma token_of_header scheme token :
  Js.includes " " scheme = false ->
  Js.includes " " token = false ->
  token_of (Some (scheme ++ " " ++ token)) = Some token.
Proof.
  intros Hs Ht. unfold token_of.
  rewrite header_not_empty, (split_first _ _ Hs), (split_word _ Ht).
  reflexivity.
Qed.

(** X18. [authenticateToken] does not read the scheme of the Authorization
    header: the token is the text between the first and the second space, so
    any scheme word in place of Bearer, and anything after a second space,
    gives the same result. A header without a space is answered 401
    MISSING_TOKEN. *)
Theorem the_scheme_is_not_checked verify find scheme token :
  Js.includes " " scheme = false ->
  Js.includes " " token = false ->
  authenticateToken verify find (Some (scheme ++ " " ++ token))
  = authenticateToken verify find (Some ("Bearer " ++ token)) /\
  (forall rest,
     authenticateToken verify find (Some (scheme ++ " " ++ token ++ " " ++ rest))
     = authenticateToken verify find (Some ("Bearer " ++ token))) /\
  fst (authenticateToken verify find (Some scheme)) = Denied 401 MISSING_TOKEN.
Proof.
  intros Hs Ht. unfold authenticateToken.
  change ("Bearer " ++ token) with ("Bearer" ++ " " ++ token).
  rewrite (token_of_header scheme token Hs Ht).
  rewrite (token_of_header "Bearer" token eq_refl Ht).
  split; [reflexivity|]. split.
  - intros rest.
    assert (token_of (Some (scheme ++ " " ++ token ++ " " ++ rest)) = Some token)
      as ->; [|reflexivity].
    unfold token_of.
    rewrite header_not_empty, (split_first _ _ Hs), (split_first _ _ Ht).
    reflexivity.
  - unfold token_of. destruct (scheme =? EmptyString); [reflexivity|].
    now rewrite (split_word _ Hs).
Qed.

Lemma auth_catch_denies error : exists status code, fst (auth_catch error) = Denied status code.
Proof.
  unfold auth_catch.
  destruct (_ =? "TokenExpiredError"); [now eexists; eexists|].
  destruct (_ =? "JsonWebTokenError"); now eexists; eexists.
Qed.

Lemma authenticated verify find authHeader u printed :
  authenticateToken verify find authHeader = (Next u, printed) ->
  exists token decoded profile,
    token_of authHeader = Some token /\ token <> EmptyString /\
    verify token = Return decoded /\
    find (d_id decoded) = Return (None, Some profile) /\
    p_is_active profile = true /\
    u = {| u_id := p_id profile; u_email := p_email profile;
           u_fullName := p_full_name profile; u_role := p_role profile |} /\
    printed = None.
Proof.
  unfold authenticateToken.
  destruct (token_of authHeader) as [token|]; [|discriminate].
  destruct (String.eqb_spec token EmptyString) as [|Hne]; [discriminate|].
  destruct (verify token) as [decoded|error] eqn:V.
  2:{ intros H. destruct (auth_catch_denies error) as (st & c & D).
      rewrite H in D. discriminate. }
  destruct (find (d_id decoded)) as [[err data]|error] eqn:F.
  2:{ intros H. destruct (auth_catch_denies error) as (st & c & D).
      rewrite H in D. discriminate. }
  destruct err; [discriminate|]. destruct data as [profile|]; [|discriminate].
  destruct (p_is_active profile) eqn:A; [|discriminate].
  intros [= <- <-]. exists token, decoded, profile. repeat split; auto.
Qed.

(** X19. [authenticateToken] followed by [authorize(roles)] calls the
    handler only for a token that verifies and whose profile is found and
    active, with a role among [roles] when [roles] is not empty; the user
    handed on is that profile. *)
Theorem only_an_active_member_of_the_roles_passes
  roles verify find authHeader u printed :
  guarded roles verify find authHeader = (Next u, printed) ->
  (exists token decoded profile,
     token_of authHeader = Some token /\ token <> EmptyString /\
     verify token = Return decoded /\
     find (d_id decoded) = Return (None, Some profile) /\
     p_is_active profile = true /\
     u_id u = p_id profile /\ u_role u = p_role profile) /\
  (roles = [] \/ exists r, u_role u = Some r /\ In r roles).
Proof.
  unfold guarded.
  destruct (authenticateToken verify find authHeader) as [[st c|u0] pr] eqn:E;
    [discriminate|].
  destruct (authenticated _ _ _ _ _ E)
    as (token & decoded & profile & Ht & Hne & Hv & Hf & Ha & Hu & _).
  unfold authorize.
  destruct (negb (length roles =? 0)%nat && negb (includes_role roles (u_role u0)))
    eqn:G; [discriminate|].
  intros [= <- <-]. split.
  - exists token, decoded, profile. subst u0. repeat split; auto.
  - apply andb_false_iff in G. destruct G as [G|G]; apply negb_false_iff in G.
    + left. apply Nat.eqb_eq in G. now destruct roles.
    + right. unfold includes_role in G.
      destruct (u_role u0) as [r|]; [|discriminate].
      apply existsb_exists in G. destruct G as (r' & Hin & Heq).
      apply String.eqb_eq in Heq. subst r'. now exists r.
Qed.

Lemma scheme_witness :
  authenticateToken Cases.verify_any Cases.find_admin
    (Some "Basic abc.def.ghi")
  = authenticateToken Cases.verify_any Cases.find_admin
      (Some "Bearer abc.def.ghi") /\
  (forall rest,
     authenticateToken Cases.verify_any Cases.find_admin
       (Some ("Basic" ++ " " ++ "abc.def.ghi" ++ " " ++ rest))
     = authenticateToken Cases.verify_any Cases.find_admin
         (Some "Bearer abc.def.ghi")) /\
  fst (authenticateToken Cases.verify_any Cases.find_admin (Some "Basic"))
  = Denied 401 MISSING_TOKEN.
Proof.
  apply (the_scheme_is_not_checked Cases.verify_any Cases.find_admin
           "Basic" "abc.def.ghi"); reflexivity.
Defined.

Lemma admin_passes_witness :
  (exists token decoded profile,
     token_of (Some "Bearer abc.def.ghi") = Some token /\
     token <> EmptyString /\
     Cases.verify_any token = Return decoded /\
     Cases.find_admin (d_id decoded) = Return (None, Some profile) /\
     p_is_active profile = true /\
     "user-1" = p_id profile /\ Some "admin" = p_role profile) /\
  (["admin"] = [] \/ exists r, Some "admin" = Some r /\ In r ["admin"]).
Proof.
  apply (only_an_active_member_of_the_roles_passes ["admin"]
           Cases.verify_any Cases.find_admin (Some "Bearer abc.def.ghi")
           {| u_id := "user-1"; u_email := Some "admin@example.com";
              u_fullName := None; u_role := Some "admin" |} None).
  reflexivity.
Defined.

End AuthFacts.

Module AdminFacts.

Import Reconciler Admin.
Local Open Scope string_scope.

Lemma update_by_id_fields p value w :
  fst (update_esims_by_id p value w) = next_fault w /\
  clock (snd (update_esims_by_id p value w)) = clock w /\
  db_fault (snd (update_esims_by_id p value w)) = db_fault w /\
  inserted (snd (update_esims_by_id p value w)) = inserted w /\
  logger (snd (update_esims_by_id p value w)) = logger w /\
  queries (snd (update_esims_by_id p value w))
    = (queries w ++ [Update "esims" "id" value])%list /\
  esims (snd (update_esims_by_id p value w))
    = match next_fault w with
      | None => rewritten_by_id p value (esims w)
      | Some _ => esims w
      end.
Proof. repeat split. Qed.

Lemma route_returned a admin profileId reason result w :
  exists message,
    fst (route a admin profileId reason (Return result) w)
    = {| admin_status := 200; admin_body := Done message result |} /\
    esims (snd (route a admin profileId reason (Return result) w))
    = esims (snd (update_esims_by_id (update_of a reason (new_Date w))
                    profileId w)) /\
    queries (snd (route a admin profileId reason (Return result) w))
    = (queries w ++ [Update "esims" "id" profileId])%list /\
    filter (fun entry => level entry =? "error")
      (logger (snd (route a admin profileId reason (Return result) w)))
    = filter (fun entry => level entry =? "error") (logger w).
Proof.
  destruct a; cbn [route update_of];
    unfold cancel, suspend, unsuspend, revoke;
    match goal with
    | |- context [update_esims_by_id ?p ?v ?w0] =>
        destruct (update_esims_by_id p v w0) as [ignored w1] eqn:E;
        assert (W1 : w1 = snd (update_esims_by_id p v w0)) by (now rewrite E)
    end;
    eexists; cbn [fst snd]; rewrite W1;
    (split; [reflexivity|]); (split; [reflexivity|]); (split; [reflexivity|]).
  - cbn [logger_info log_with logger update_esims_by_id snd].
    rewrite filter_app. cbn. now rewrite app_nil_r.
  - reflexivity.
  - reflexivity.
  - reflexivity.
Qed.

(** X20. The administrator's cancel, suspend, unsuspend and revoke routes
    report what the vendor answered. When the vendor call fails they answer
    500 with its message and issue no call to the store. When it succeeds
    they answer 200 with its result, also when the store rejects the update:
    then no entity changes and no error is logged. *)
Theorem admin_action_trusts_the_vendor_only
  a admin profileId reason vendor w :
  let result := route a admin profileId reason vendor w in
  match vendor with
  | Throw error =>
      admin_status (fst result) = 500%Z /\
      (exists title,
         admin_body (fst result) = Failed title (Js.message error)) /\
      esims (snd result) = esims w /\
      queries (snd result) = queries w
  | Return data =>
      admin_status (fst result) = 200%Z /\
      (exists message, admin_body (fst result) = Done message data) /\
      queries (snd result) = (queries w ++ [Update "esims" "id" profileId])%list /\
      esims (snd result)
      = match next_fault w with
        | None =>
            rewritten_by_id (update_of a reason (new_Date w)) profileId (esims w)
        | Some _ => esims w
        end /\
      filter (fun entry => level entry =? "error") (logger (snd result))
      = filter (fun entry => level entry =? "error") (logger w)
  end.
Proof.
  intros result. subst result. destruct vendor as [data|error].
  - destruct (route_returned a admin profileId reason data w)
      as (message & -> & -> & -> & ->).
    cbn [admin_status admin_body].
    split; [reflexivity|]. split; [now exists message|].
    split; [reflexivity|]. split; [|reflexivity].
    apply update_by_id_fields.
  - destruct a; cbn; repeat split; eexists; reflexivity.
Qed.

(** X21. The administrator's routes hand the client an object where its
    methods expect the profile id, and the methods wrap it once more: the
    body of the request, always a POST, holds under profileId an object that
    holds the id (and the reason). A vendor answer that is not ok is
    reported as 500 with the message ESIM API error: <status>, and no call
    reaches the store. *)
Theorem the_vendor_gets_the_id_nested a admin profileId reason answer w :
  let sent := fst (served a admin profileId reason answer w) in
  let reply := fst (snd (served a admin profileId reason answer w)) in
  let w' := snd (snd (served a admin profileId reason answer w)) in
  Client.method sent = "POST" /\
  (exists inner,
     Client.body sent = JObject [("profileId", JObject inner)] /\
     get "profileId" inner = Some (JString profileId)) /\
  (forall response,
     answer = Return response -> Client.ok response = false ->
     admin_status reply = 500%Z /\
     (exists title,
        admin_body reply
        = Failed title
            ("ESIM API error: " ++ Js.number_toString (Client.http_status response))) /\
     esims w' = esims w /\ queries w' = queries w).
Proof.
  intros sent reply w'. subst sent reply w'. split; [|split].
  - destruct a; reflexivity.
  - destruct a; cbn; try (destruct reason; cbn); eexists; split; reflexivity.
  - intros response -> Hok.
    assert (E : forall a0,
              snd (fst (vendor_call a0 profileId reason (Return response)))
              = Throw (Js.Error_ ("ESIM API error: "
                                  ++ Js.number_toString (Client.http_status response)))).
    { intros a0. destruct a0; cbn; now rewrite Hok. }
    unfold served. specialize (E a).
    destruct (vendor_call a profileId reason (Return response)) as [[sent result] printed].
    cbn [fst snd] in *. subst result.
    destruct a; cbn; repeat split; eexists; reflexivity.
Qed.

End AdminFacts.

Module ControllerFacts.

Import Reconciler Admin Controller AdminFacts.
Local Open Scope string_scope.

Lemma select_single_found columns column field value w e :
  fst (select_single columns column field value w) = Some e ->
  next_fault w = None /\
  filter (fun e => field e =? value) (esims w) = [e].
Proof.
  cbn [select_single fst].
  destruct (next_fault w); [discriminate|].
  destruct (filter _ (esims w)) as [|e0 [|e1 rest]]; try discriminate.
  now intros [= ->].
Qed.

Lemma filter_rewritten_by_id p v rows :
  filter (fun e => Reconciler.id e =? v) (rewritten_by_id p v rows)
  = map (apply_patch p) (filter (fun e => Reconciler.id e =? v) rows).
Proof.
  unfold rewritten_by_id.
  induction rows as [|e rows IH]; [reflexivity|].
  cbn [map filter]. destruct (Reconciler.id e =? v) eqn:E.
  - cbn [apply_patch Reconciler.id]. rewrite E. cbn [map]. now rewrite IH.
  - rewrite E. exact IH.
Qed.

(** The two ways [deactivateEsim] can end. *)
Lemma deactivate_cases user esimId reason s :
  let r := deactivateEsim user esimId reason s in
  (ctl_status (fst r) = 200%Z /\
   exists e,
     next_fault (store s) = None /\
     filter (fun e => Reconciler.id e =? esimId) (esims (store s)) = [e] /\
     (user_id e = uid user \/ role user = "admin") /\
     status e <> DEACTIVATED /\
     esims (store (snd r))
     = rewritten_by_id (deactivated_update reason (new_Date (store s)))
         esimId (esims (store s))) \/
  (ctl_status (fst r) <> 200%Z /\
   esims (store (snd r)) = esims (store s) /\
   controller_logs (snd r) = controller_logs s).
Proof.
  intros r. subst r. unfold deactivateEsim.
  destruct (select_single "*" "id" Reconciler.id esimId (store s))
    as [esim w1] eqn:E1.
  assert (W1 : w1 = snd (select_single "*" "id" Reconciler.id esimId (store s)))
    by now rewrite E1.
  assert (D1 : fst (select_single "*" "id" Reconciler.id esimId (store s)) = esim)
    by now rewrite E1.
  assert (Q1 : esims w1 = esims (store s)) by now rewrite W1.
  destruct esim as [e|].
  2:{ right. cbn. split; [discriminate|]. split; [exact Q1|reflexivity]. }
  destruct (select_single_found _ _ _ _ _ _ D1) as [F0 Hone].
  destruct (negb (user_id e =? uid user) && negb (role user =? "admin")) eqn:G.
  { right. cbn. split; [discriminate|]. split; [exact Q1|reflexivity]. }
  destruct (is_deactivated (status e)) eqn:S.
  { right. cbn. split; [discriminate|]. split; [exact Q1|reflexivity]. }
  destruct (update_esims_by_id _ esimId w1) as [updateError w2] eqn:E2.
  assert (W2 : w2 = snd (update_esims_by_id
                           (deactivated_update reason (new_Date w1)) esimId w1))
    by now rewrite E2.
  assert (D2 : updateError = next_fault w1).
  { replace updateError with (fst (update_esims_by_id
        (deactivated_update reason (new_Date w1)) esimId w1)) by now rewrite E2.
    reflexivity. }
  assert (Q2 : esims w2 = match next_fault w1 with
                          | None => rewritten_by_id
                                      (deactivated_update reason (new_Date w1))
                                      esimId (esims w1)
                          | Some _ => esims w1
                          end).
  { rewrite W2. apply update_by_id_fields. }
  destruct updateError as [msg|].
  { right. cbn. rewrite Q2, <- D2. split; [discriminate|].
    split; [exact Q1|reflexivity]. }
  rewrite <- D2 in Q2.
  destruct (insert_log _ (with_store w2 s)) as [ignored s3] eqn:E3.
  assert (W3 : esims (store s3) = esims w2).
  { replace s3 with (snd (insert_log
        {| log_esim_id := esimId; log_action := "DEACTIVATED";
           log_user_id := uid user;
           log_reason := Some (Js.or_else reason "User requested");
           log_timestamp := new_Date w2 |} (with_store w2 s)))
      by now rewrite E3.
    reflexivity. }
  left. cbn [fst snd ctl_status with_store store logger_info log_with esims].
  split; [reflexivity|]. exists e.
  split; [exact F0|]. split; [exact Hone|]. split.
  - apply andb_false_iff in G.
    destruct G as [G|G]; apply negb_false_iff in G; apply String.eqb_eq in G; auto.
  - split; [intros C; now rewrite C in S|].
    rewrite W3, Q2, Q1. now rewrite W1.
Qed.

(** X22. [deactivateEsim] answers 200 only when exactly one entity has the
    id and the caller is its owner or an admin, and then every entity with
    that id is DEACTIVATED. With any other status no entity changes and no
    log row is written. *)
Theorem deactivation_is_guarded user esimId reason s :
  let r := deactivateEsim user esimId reason s in
  (ctl_status (fst r) = 200%Z ->
   exists e,
     filter (fun e => Reconciler.id e =? esimId) (esims (store s)) = [e] /\
     (user_id e = uid user \/ role user = "admin") /\
     Forall (fun e' => Reconciler.id e' = esimId -> status e' = DEACTIVATED)
       (esims (store (snd r)))) /\
  (ctl_status (fst r) <> 200%Z ->
   esims (store (snd r)) = esims (store s) /\
   controller_logs (snd r) = controller_logs s).
Proof.
  intros r. subst r.
  destruct (deactivate_cases user esimId reason s)
    as [(H200 & e & _ & Hone & Hauth & _ & He)|(Hne & Hsame)].
  - split; [|intros C; now destruct C].
    intros _. exists e. split; [exact Hone|]. split; [exact Hauth|].
    rewrite He. unfold rewritten_by_id. apply Forall_forall.
    intros e' Hin. apply in_map_iff in Hin. destruct Hin as (e0 & <- & _).
    destruct (Reconciler.id e0 =? esimId) eqn:E; [reflexivity|].
    intros C. apply String.eqb_neq in E. contradiction.
  - split; [intros C; now destruct Hne|]. intros _. exact Hsame.
Qed.

(** X23. A request to deactivate an eSIM that arrives in the state which a
    deactivation of that eSIM answered with 200 has left, the same request
    repeated or one of another user or with another reason, is not answered
    200, whatever the store answers, and it changes no entity and writes no
    log row. This holds for the state the first request left, not for every
    later one: see [a_later_deactivation_can_succeed]. *)
Theorem a_repeated_deactivation_is_refused user esimId reason s user' reason' :
  ctl_status (fst (deactivateEsim user esimId reason s)) = 200%Z ->
  let s' := snd (deactivateEsim user esimId reason s) in
  let again := deactivateEsim user' esimId reason' s' in
  ctl_status (fst again) <> 200%Z /\
  esims (store (snd again)) = esims (store s') /\
  controller_logs (snd again) = controller_logs s'.
Proof.
  intros H200 s' again. subst again.
  destruct (deactivate_cases user esimId reason s)
    as [(_ & e & _ & Hone & _ & _ & He)|(Hne & _)]; [|contradiction].
  fold s' in He.
  destruct (deactivate_cases user' esimId reason' s')
    as [(_ & e' & _ & Hone' & _ & Hstatus & _)|Hsame]; [|exact Hsame].
  exfalso. rewrite He, filter_rewritten_by_id, Hone in Hone'.
  cbn [map] in Hone'. injection Hone' as <-. now apply Hstatus.
Qed.


(** *** Activation *)

Section Activate.

Variables (user : User) (req : Activation) (fresh : Fresh) (o : Json) (s : Db).

Hypothesis Horder : Js.truthy (a_orderId req) = true.
Hypothesis Hproduct : Js.truthy (a_productId req) = true.
Hypothesis Hfirst : next_fault (store s) = None.
Hypothesis Hsecond : db_fault (store s) (S (length (queries (store s)))) = None.

Let orderId := Js.interpolate (a_orderId req).
Let matching := filter (fun e => order_id e =? orderId) (esims (store s)).
Let row := new_row user req fresh (new_Date (store s)).

(** The state after the two lookups of the handler. *)
Let w1 : World := snd (select_order (Some o) orderId (store s)).
Let w2 : World := snd (select_single "id" "order_id" order_id orderId w1).

Lemma lookups :
  select_order (Some o) orderId (store s) = (Some o, w1) /\
  select_single "id" "order_id" order_id orderId w1
  = (match matching with [e] => Some e | _ => None end, w2) /\
  esims w2 = esims (store s) /\
  db_fault w2 = db_fault (store s) /\
  clock w2 = clock (store s) /\
  length (queries w2) = S (S (length (queries (store s)))).
Proof.
  split; [|split].
  - unfold w1, select_order. now rewrite Hfirst.
  - unfold w2, select_single. cbn [snd]. f_equal.
    unfold next_fault, w1. cbn [select_order snd db_fault queries esims].
    rewrite length_app, Nat.add_1_r, Hsecond. reflexivity.
  - repeat split. unfold w2, w1.
    cbn [select_single select_order snd queries].
    rewrite !length_app. cbn [length]. lia.
Qed.

Lemma activate_conflict e :
  matching = [e] ->
  let r := activateEsim user req fresh (Some o) s in
  fst (fst r)
  = {| ctl_status := 409;
       ctl_body := Conflict "eSIM already activated for this order"
                     (Reconciler.id e) |} /\
  esims (store (snd (fst r))) = esims (store s) /\
  controller_logs (snd (fst r)) = controller_logs s /\
  snd r = None.
Proof.
  intros Hone r. subst r. unfold activateEsim.
  rewrite Horder, Hproduct. cbn [negb orb].
  destruct lookups as (L1 & L2 & Q & _).
  fold orderId. rewrite L1, L2, Hone.
  cbn [fst snd with_store store controller_logs]. repeat split.
Qed.

Lemma activate_insert :
  (forall e, matching <> [e]) ->
  db_fault (store s) (S (S (length (queries (store s))))) = None ->
  let r := activateEsim user req fresh (Some o) s in
  fst (fst r) = {| ctl_status := 202; ctl_body := InProgress row |} /\
  esims (store (snd (fst r))) = (esims (store s) ++ [row])%list /\
  db_fault (store (snd (fst r))) = db_fault (store s) /\
  snd r = Some (Reconciler.id row).
Proof.
  intros Hnot Hthird r. subst r. unfold activateEsim.
  rewrite Horder, Hproduct. cbn [negb orb].
  destruct lookups as (L1 & L2 & Q & F & C & N).
  fold orderId. rewrite L1, L2.
  assert (M : match matching with [e] => Some e | _ => None end = None).
  { destruct matching as [|e [|e' rest]] eqn:M; try reflexivity.
    now destruct (Hnot e). }
  rewrite M.
  assert (R : new_row user req fresh (new_Date w2) = row).
  { unfold row, new_Date. now rewrite C. }
  rewrite R.
  destruct (insert_esim row w2) as [error w3] eqn:E3.
  assert (W3 : w3 = snd (insert_esim row w2)) by now rewrite E3.
  assert (D3 : error = None).
  { replace error with (fst (insert_esim row w2)) by now rewrite E3.
    cbn [insert_esim fst]. unfold next_fault. now rewrite F, N. }
  subst error.
  destruct (insert_log _ (with_store w3 s)) as [ignored s4] eqn:E4.
  assert (W4 : store s4
               = {| clock := clock w3; db_fault := db_fault w3;
                    esims := esims w3; inserted := inserted w3;
                    logger := logger w3;
                    queries := (queries w3 ++ [Insert "esim_activation_logs"])%list |}).
  { replace s4 with (snd (insert_log
        {| log_esim_id := Reconciler.id row; log_action := "INITIATED";
           log_user_id := uid user; log_reason := None;
           log_timestamp := new_Date w3 |} (with_store w3 s)))
      by now rewrite E4.
    reflexivity. }
  cbn [fst snd with_store store logger_info log_with esims db_fault].
  rewrite W4. cbn [esims db_fault]. rewrite W3.
  cbn [insert_esim snd esims db_fault].
  unfold next_fault. rewrite F, N, Hthird, Q.
  repeat split.
Qed.

End Activate.

Lemma filter_order_rewritten p x v rows :
  filter (fun e => order_id e =? v) (rewritten_by_id p x rows)
  = map (fun e => if Reconciler.id e =? x then apply_patch p e else e)
      (filter (fun e => order_id e =? v) rows).
Proof.
  unfold rewritten_by_id.
  induction rows as [|e rows IH]; [reflexivity|].
  cbn [map filter].
  assert (E : order_id (if Reconciler.id e =? x then apply_patch p e else e)
              = order_id e) by now destruct (Reconciler.id e =? x).
  rewrite E. destruct (order_id e =? v); [cbn [map]; now rewrite IH|exact IH].
Qed.

Lemma activation_due_fields user esimId s :
  db_fault (store (activation_due user esimId s)) = db_fault (store s) /\
  esims (store (activation_due user esimId s))
  = match next_fault (store s) with
    | None =>
        rewritten_by_id (activation_update (new_Date (store s))) esimId
          (esims (store s))
    | Some _ => esims (store s)
    end.
Proof.
  unfold activation_due, update_esims_by_id.
  destruct (next_fault (store s)); split; reflexivity.
Qed.

(** X24. [activateEsim] is refused the second time: after a request that
    answered 202 for an order that had no eSIM, a further request for the
    same order is answered 409 with the id of the first eSIM and inserts
    nothing, before and after the scheduled activation has run (the store
    answering every call). *)
Theorem a_repeated_activation_is_refused
  user req fresh o s user' req' fresh' o' :
  store_available (store s) ->
  Js.truthy (a_orderId req) = true ->
  Js.truthy (a_productId req) = true ->
  Js.truthy (a_productId req') = true ->
  a_orderId req' = a_orderId req ->
  (forall e, In e (esims (store s)) ->
     order_id e <> Js.interpolate (a_orderId req)) ->
  let first := activateEsim user req fresh (Some o) s in
  let esimId := ("ESIM-" ++ fresh_id fresh)%string in
  ctl_status (fst (fst first)) = 202%Z /\
  snd first = Some esimId /\
  forall mid,
    mid = snd (fst first) \/ mid = activation_due user esimId (snd (fst first)) ->
    let second := activateEsim user' req' fresh' (Some o') mid in
    fst (fst second)
    = {| ctl_status := 409;
         ctl_body := Conflict "eSIM already activated for this order" esimId |} /\
    esims (store (snd (fst second))) = esims (store mid) /\
    snd second = None.
Proof.
  intros Havail Horder Hproduct Hproduct' Hsame Hnone first esimId.
  assert (Hempty : filter (fun e => order_id e =? Js.interpolate (a_orderId req))
                     (esims (store s)) = []).
  { induction (esims (store s)) as [|e rows IH]; [reflexivity|].
    cbn [filter].
    destruct (String.eqb_spec (order_id e) (Js.interpolate (a_orderId req))) as [C|_].
    - exfalso. apply (Hnone e); [now left|exact C].
    - apply IH. intros e' He'. apply Hnone. now right. }
  destruct (activate_insert user req fresh o s Horder Hproduct
              (Havail _) (Havail _)) as (Hr & He & Hf & Hs).
  { intros e. rewrite Hempty. discriminate. }
  { apply Havail. }
  fold first in Hr, He, Hf, Hs.
  split; [now rewrite Hr|]. split; [exact Hs|].
  set (row := new_row user req fresh (new_Date (store s))) in *.
  assert (Hrow : filter (fun e => order_id e =? Js.interpolate (a_orderId req))
                   (esims (store (snd (fst first)))) = [row]).
  { rewrite He, filter_app, Hempty. cbn [app filter new_row order_id row].
    now rewrite String.eqb_refl. }
  intros mid Hmid second. subst second.
  assert (Hmid_avail : store_available (store mid)).
  { intros n. destruct Hmid as [->| ->].
    - rewrite Hf. apply Havail.
    - rewrite (proj1 (activation_due_fields _ _ _)), Hf. apply Havail. }
  assert (Hone : exists e,
             filter (fun e => order_id e =? Js.interpolate (a_orderId req'))
               (esims (store mid)) = [e] /\ Reconciler.id e = esimId).
  { rewrite Hsame. destruct Hmid as [->| ->].
    - exists row. split; [exact Hrow|reflexivity].
    - rewrite (proj2 (activation_due_fields _ _ _)).
      destruct (next_fault _).
      + exists row. split; [exact Hrow|reflexivity].
      + rewrite filter_order_rewritten, Hrow. cbn [map].
        eexists. split; [reflexivity|].
        now destruct (Reconciler.id row =? esimId). }
  destruct Hone as (e & Hone & Hid).
  assert (Horder' : Js.truthy (a_orderId req') = true) by now rewrite Hsame.
  destruct (activate_conflict user' req' fresh' o' mid Horder' Hproduct'
              (Hmid_avail _) (Hmid_avail _) e Hone) as (R & E & _ & S).
  rewrite R, Hid. repeat split; assumption.
Qed.

(** X25. The guard of [activateEsim] fails open: when two or more entities
    already belong to the order, the lookup with single() yields no row, and
    the request inserts a further entity and is answered 202. *)
Theorem the_activation_guard_fails_open user req fresh o s e1 e2 rest :
  store_available (store s) ->
  Js.truthy (a_orderId req) = true ->
  Js.truthy (a_productId req) = true ->
  filter (fun e => order_id e =? Js.interpolate (a_orderId req))
    (esims (store s)) = e1 :: e2 :: rest ->
  let r := activateEsim user req fresh (Some o) s in
  ctl_status (fst (fst r)) = 202%Z /\
  esims (store (snd (fst r)))
  = (esims (store s) ++ [new_row user req fresh (new_Date (store s))])%list.
Proof.
  intros Havail Horder Hproduct Htwo r. subst r.
  destruct (activate_insert user req fresh o s Horder Hproduct
              (Havail _) (Havail _)) as (Hr & He & _ & _).
  { intros e. rewrite Htwo. discriminate. }
  { apply Havail. }
  split; [now rewrite Hr|exact He].
Qed.

(** *** The statements above on concrete stores *)

Lemma repeated_deactivation_witness :
  let s := Cases.db_of [Scenario.esim_in ACTIVE] in
  let s' := snd (deactivateEsim Scenario.owner "ESIM-0A1B2C3D4E5F6071" None s) in
  let again :=
    deactivateEsim Scenario.owner "ESIM-0A1B2C3D4E5F6071"
      (Some "lost phone") s' in
  ctl_status (fst again) <> 200%Z /\
  esims (store (snd again)) = esims (store s') /\
  controller_logs (snd again) = controller_logs s'.
Proof.
  apply (a_repeated_deactivation_is_refused Scenario.owner
           "ESIM-0A1B2C3D4E5F6071" None
           (Cases.db_of [Scenario.esim_in ACTIVE]) Scenario.owner
           (Some "lost phone")).
  reflexivity.
Defined.

(** A deactivated eSIM does not stay so: the timer that [activateEsim] set
    for it writes ACTIVE whatever the status is by then, and the next
    deactivation is answered 200 again and logged again. *)
Lemma a_later_deactivation_can_succeed :
  let s := Cases.db_of [Scenario.esim_in ACTIVE] in
  let first := deactivateEsim Scenario.owner "ESIM-0A1B2C3D4E5F6071" None s in
  let due :=
    activation_due Scenario.owner "ESIM-0A1B2C3D4E5F6071" (snd first) in
  let later := deactivateEsim Scenario.owner "ESIM-0A1B2C3D4E5F6071" None due in
  ctl_status (fst first) = 200%Z /\
  map status (esims (store (snd first))) = [DEACTIVATED] /\
  map status (esims (store due)) = [ACTIVE] /\
  ctl_status (fst later) = 200%Z /\
  map status (esims (store (snd later))) = [DEACTIVATED] /\
  length (controller_logs (snd later))
    = S (length (controller_logs due)).
Proof. vm_compute. repeat split. Qed.

Lemma repeated_activation_witness :
  let first :=
    activateEsim Scenario.owner Cases.activation_request Cases.first_draw
      (Some Cases.order_row) (Cases.db_of []) in
  ctl_status (fst (fst first)) = 202%Z /\
  snd first = Some "ESIM-0A1B2C3D4E5F6071" /\
  forall mid,
    mid = snd (fst first) \/
    mid = activation_due Scenario.owner "ESIM-0A1B2C3D4E5F6071"
            (snd (fst first)) ->
    let second :=
      activateEsim Scenario.owner Cases.activation_request Cases.second_draw
        (Some Cases.order_row) mid in
    fst (fst second)
    = {| ctl_status := 409;
         ctl_body := Conflict "eSIM already activated for this order"
                       "ESIM-0A1B2C3D4E5F6071" |} /\
    esims (store (snd (fst second))) = esims (store mid) /\
    snd second = None.
Proof.
  apply (a_repeated_activation_is_refused Scenario.owner
           Cases.activation_request Cases.first_draw Cases.order_row
           (Cases.db_of []) Scenario.owner Cases.activation_request
           Cases.second_draw Cases.order_row).
  - intros n. reflexivity.
  - reflexivity.
  - reflexivity.
  - reflexivity.
  - reflexivity.
  - intros e [].
Defined.

Lemma guard_fails_open_witness :
  let s := Cases.db_of [Scenario.esim_in ACTIVE; Cases.twin ACTIVE] in
  let r :=
    activateEsim Scenario.owner Cases.activation_request Cases.second_draw
      (Some Cases.order_row) s in
  ctl_status (fst (fst r)) = 202%Z /\
  esims (store (snd (fst r)))
  = (esims (store s)
     ++ [new_row Scenario.owner Cases.activation_request Cases.second_draw
           (new_Date (store s))])%list.
Proof.
  apply (the_activation_guard_fails_open Scenario.owner
           Cases.activation_request Cases.second_draw Cases.order_row
           (Cases.db_of [Scenario.esim_in ACTIVE; Cases.twin ACTIVE])
           (Scenario.esim_in ACTIVE) (Cases.twin ACTIVE) []).
  - intros n. reflexivity.
  - reflexivity.
  - reflexivity.
  - reflexivity.
Defined.

End ControllerFacts.
